(** * hito-ocpp-service: the session / transaction core, embedded in Rocq

    A shallow embedding of [src/services/OcppService.ts],
    [src/services/QueueService.ts], [src/services/QueueProcessor.ts],
    [src/controllers/OcppController.ts], [src/server.ts], the schemas of
    [src/validation.ts] and the tables of the initial Prisma migration,
    followed by the properties of the specification that can be settled
    on it and by further properties of the code.

    Conventions of the embedding:
    - JavaScript numbers are modelled by [Z]: identifiers, connector
      numbers, meter counters and epoch milliseconds are taken integral and
      within the range of the column they are stored in or compared with;
    - a [Date] is its epoch value in milliseconds;
    - an [async] method is a computation in the monad [M] below: it threads
      the world (database tables, queue, wall clock) and may throw; a throw
      keeps every write made before it, as nothing in the service opens a
      database transaction;
    - a method with two [await]s whose interleaving matters is given as
      its stages, composed by [bind];
    - the database answers every query: what can fail is a constraint of
      the schema or the absence of the row an [update] names;
    - the [additionalInfo] of a transaction is [null] or an object, which
      is all the service ever writes there; the columns [created_at] and
      [updated_at], which the service never reads, are left out;
    - rows of equal [startTimestamp] come out of [ORDER BY] in table
      order;
    - the tables and queues of heartbeats, authorizations, status
      notifications and meter values sit in [Backend], around the world,
      with the monad [MB] over it;
    - what depends on the zone of the server ([Date.prototype.setHours])
      or on how [Date] reads a string is a parameter of its section; the
      timestamps of the protocol are strings [Date] can read. *)

From Stdlib Require Import ZArith List String Ascii Bool Lia Permutation Sorted.
From Stdlib Require Import DecimalString.
Import ListNotations.

Local Open Scope string_scope.
Local Open Scope list_scope.
Local Open Scope Z_scope.

Set Warnings "-register-all".

(** String concatenation, JavaScript's [+] on strings. *)
Infix "+++" := String.append (at level 60, right associativity).

(* ================================================================== *)
(** ** JavaScript values *)

(** What [JSON.parse] produces and what a [JSONB] column stores. The
    members of an object are kept in insertion order, keys unique. *)
Inductive JSON : Type :=
| JNull
| JBool (b : bool)
| JNum (n : Z)
| JStr (s : string)
| JArr (items : list JSON)
| JObj (members : list (string * JSON)).

Definition JObject := list (string * JSON).

(** [String(n)] for an integral number. *)
Definition show_Z (n : Z) : string := NilZero.string_of_int (Z.to_int n).

(** [String(v)], as used by a template literal [`${v}`]. *)
Fixpoint js_String (v : JSON) : string :=
  match v with
  | JNull => "null"
  | JBool true => "true"
  | JBool false => "false"
  | JNum n => show_Z n
  | JStr s => s
  | JArr items =>
      (fix join (l : list JSON) : string :=
         match l with
         | [] => ""
         | x :: rest =>
             let s := match x with JNull => "" | _ => js_String x end in
             match rest with
             | [] => s
             | _ :: _ => s +++ "," +++ join rest
             end
         end) items
  | JObj _ => "[object Object]"
  end.

(** [Boolean(v)]. *)
Definition truthy (v : JSON) : bool :=
  match v with
  | JNull => false
  | JBool b => b
  | JNum n => negb (n =? 0)
  | JStr s => negb (s =? "")%string
  | JArr _ | JObj _ => true
  end.

(** [o[k]]; [None] is [undefined]. *)
Fixpoint obj_get (k : string) (o : JObject) : option JSON :=
  match o with
  | [] => None
  | (k', v) :: rest => if (k' =? k)%string then Some v else obj_get k rest
  end.

(** [{...o, k: v}]: an existing key keeps its place and takes the new
    value, a new key goes last. *)
Fixpoint obj_set (k : string) (v : JSON) (o : JObject) : JObject :=
  match o with
  | [] => [(k, v)]
  | (k', v') :: rest =>
      if (k' =? k)%string then (k, v) :: rest else (k', v') :: obj_set k v rest
  end.

(** [x || d], [x] possibly [undefined]. *)
Definition js_or (x : option JSON) (d : JSON) : JSON :=
  match x with
  | Some v => if truthy v then v else d
  | None => d
  end.

(** [v + 1]: numeric addition on numbers, booleans and [null], string
    concatenation on everything else. *)
Definition js_plus_1 (v : JSON) : JSON :=
  match v with
  | JNum n => JNum (n + 1)
  | JBool b => JNum ((if b then 1 else 0) + 1)
  | JNull => JNum 1
  | JStr _ | JArr _ | JObj _ => JStr (js_String v +++ "1")
  end.

(** A key is emitted only when its value is not [undefined]. *)
Definition field (k : string) (v : option JSON) : JObject :=
  match v with
  | Some j => [(k, j)]
  | None => []
  end.

(** [s.split('/')]. *)
Fixpoint split_slash_aux (s : string) (cur : string) : list string :=
  match s with
  | EmptyString => [cur]
  | String c rest =>
      if Ascii.eqb c "/"%char
      then cur :: split_slash_aux rest ""
      else split_slash_aux rest (cur +++ String c "")
  end.

Definition split_slash (s : string) : list string := split_slash_aux s "".

(** [truthy] on a string: [Boolean(s)]. *)
Definition nonempty (s : string) : bool := negb (s =? "")%string.

(* ================================================================== *)
(** ** Records of the data model ([src/types.ts] and the migration) *)

Record ChargePoint := {
  cp_cpId : string;
  cp_model : option string;
  cp_vendor : option string;
  cp_firmwareVersion : option string;
  cp_serialNumber : option string;
  cp_lastSeen : option Z;
  cp_status : option string;
  cp_additionalInfo : option JSON
}.

Record Transaction := {
  transactionId : Z;
  cpId : string;
  connectorId : Z;
  idTag : string;
  meterStart : option Z;
  startTimestamp : Z;
  meterStop : option Z;
  stopTimestamp : option Z;
  stopReason : option string;
  stopIdTag : option string;
  status : string;
  additionalInfo : option JObject
}.

(** [CreateTransactionData] of [src/types.ts]. *)
Record CreateTransactionData := {
  ct_cpId : string;
  ct_connectorId : Z;
  ct_idTag : string;
  ct_meterStart : option Z;
  ct_startTimestamp : Z
}.

(** The argument of [stopTransaction]; every optional member is an
    [option], [None] standing for [undefined]. *)
Record StopTransactionData := {
  st_transactionId : option Z;
  st_cpId : string;
  st_connectorId : option Z;
  st_idTag : option string;
  st_meterStop : option Z;
  st_stopReason : option string
}.

(** The argument of [registerChargePoint]. *)
Record RegisterData := {
  rg_cpId : string;
  rg_vendor : option string;
  rg_model : option string;
  rg_firmwareVersion : option string;
  rg_serialNumber : option string;
  rg_additionalInfo : option JSON
}.

(** MeterValues payload after [MeterValuesRequestSchema.parse]. *)
Record SampledValue := {
  sv_value : string;
  sv_measurand : option string;
  sv_phase : option string;
  sv_unit : option string
}.

Record MeterValue := {
  mv_timestamp : string;
  mv_sampledValue : list SampledValue
}.

Record MeterValuesRequest := {
  mvr_connectorId : Z;
  mvr_transactionId : option Z;
  mvr_meterValue : list MeterValue
}.

(** One element of [MeterValuesJob.meterValues], with the members the
    handler sets. *)
Record FlatReading := {
  fr_timestamp : string;
  fr_value : string;
  fr_measurand : option string;
  fr_phase : option string;
  fr_unit : option string
}.

Record MeterValuesJob := {
  job_cpId : string;
  job_connectorId : Z;
  job_transactionId : option Z;
  job_meterValues : list FlatReading
}.

(** A job as Bull stores it: name, data and the retry options given to
    [add]. *)
Record BullJob (D : Type) := {
  bj_name : string;
  bj_data : D;
  bj_attempts : Z;
  bj_backoffType : string;
  bj_backoffDelay : Z
}.

Arguments bj_name {D} _.
Arguments bj_data {D} _.
Arguments bj_attempts {D} _.
Arguments bj_backoffType {D} _.
Arguments bj_backoffDelay {D} _.

(* ================================================================== *)
(** ** The world: database tables, queue, clock *)

Record World := {
  chargePoints : list ChargePoint;
  transactions : list Transaction;
  (** next value of the [SERIAL] behind [transaction_id] *)
  transaction_id_seq : Z;
  meterValuesQueue : list (BullJob MeterValuesJob);
  (** successive readings of the wall clock and how many were taken *)
  clock : nat -> Z;
  reads : nat
}.

Definition set_chargePoints (cps : list ChargePoint) (w : World) : World :=
  {| chargePoints := cps; transactions := transactions w;
     transaction_id_seq := transaction_id_seq w;
     meterValuesQueue := meterValuesQueue w;
     clock := clock w; reads := reads w |}.

Definition set_transactions (txs : list Transaction) (w : World) : World :=
  {| chargePoints := chargePoints w; transactions := txs;
     transaction_id_seq := transaction_id_seq w;
     meterValuesQueue := meterValuesQueue w;
     clock := clock w; reads := reads w |}.

Definition set_transaction_id_seq (n : Z) (w : World) : World :=
  {| chargePoints := chargePoints w; transactions := transactions w;
     transaction_id_seq := n;
     meterValuesQueue := meterValuesQueue w;
     clock := clock w; reads := reads w |}.

Definition set_meterValuesQueue (q : list (BullJob MeterValuesJob)) (w : World)
  : World :=
  {| chargePoints := chargePoints w; transactions := transactions w;
     transaction_id_seq := transaction_id_seq w;
     meterValuesQueue := q;
     clock := clock w; reads := reads w |}.

Definition set_reads (n : nat) (w : World) : World :=
  {| chargePoints := chargePoints w; transactions := transactions w;
     transaction_id_seq := transaction_id_seq w;
     meterValuesQueue := meterValuesQueue w;
     clock := clock w; reads := n |}.

(** A freshly migrated database: empty tables, sequence at 1. *)
Definition init (clk : nat -> Z) : World :=
  {| chargePoints := []; transactions := []; transaction_id_seq := 1;
     meterValuesQueue := []; clock := clk; reads := 0 |}.

(* ================================================================== *)
(** ** Exceptions and the monad of [async] methods *)

(** Library errors carry the last sentence of the library's message. *)
Inductive Exn : Type :=
| Error (message : string)
| PrismaClientKnownRequestError (code : string) (message : string)
| ZodError (message : string).

(** [error.message]. *)
Definition exn_message (e : Exn) : string :=
  match e with
  | Error m => m
  | PrismaClientKnownRequestError _ m => m
  | ZodError m => m
  end.

Inductive Outcome (A : Type) : Type :=
| Return (a : A)
| Throw (e : Exn).

Arguments Return {A} a.
Arguments Throw {A} e.

Definition M (A : Type) : Type := World -> Outcome A * World.

Definition ret {A} (a : A) : M A := fun w => (Return a, w).

Definition throw {A} (e : Exn) : M A := fun w => (Throw e, w).

Definition bind {A B} (m : M A) (f : A -> M B) : M B :=
  fun w =>
    match m w with
    | (Return a, w') => f a w'
    | (Throw e, w') => (Throw e, w')
    end.

(** [p.catch(console.error)] and [try { await p } catch { log }]: the
    error is logged and dropped, the writes stay. *)
Definition swallow {A} (m : M A) : World -> World := fun w => snd (m w).

Declare Scope ocpp_scope.
Delimit Scope ocpp_scope with ocpp.
Notation "x <- m ;; k" := (bind m (fun x => k))
  (at level 61, m at next level, right associativity) : ocpp_scope.
Notation "m ;;; k" := (bind m (fun _ => k))
  (at level 61, right associativity) : ocpp_scope.
Local Open Scope ocpp_scope.

(** [new Date()]: one reading of the clock. *)
Definition newDate : M Z :=
  fun w => (Return (clock w (reads w)), set_reads (S (reads w)) w).

(** [for (const x of xs) { await f(x) }]. *)
Fixpoint forEach {A} (f : A -> M unit) (xs : list A) : M unit :=
  match xs with
  | [] => ret tt
  | x :: rest => f x ;;; forEach f rest
  end.

(* ================================================================== *)
(** ** [Date.prototype.toISOString] *)

(** Decimal digits of [n], left-padded with zeros to [width]. *)
Fixpoint pad_digits (width : nat) (n : Z) : string :=
  match width with
  | O => ""
  | S k =>
      pad_digits k (n / 10)
        +++ String (ascii_of_nat (48 + Z.to_nat (n mod 10))) ""
  end.

(** Proleptic Gregorian date of a day count since 1970-01-01. *)
Definition civil_from_days (days : Z) : Z * Z * Z :=
  let z := days + 719468 in
  let era := z / 146097 in
  let doe := z - era * 146097 in
  let yoe := (doe - doe / 1460 + doe / 36524 - doe / 146096) / 365 in
  let doy := doe - (365 * yoe + yoe / 4 - yoe / 100) in
  let mp := (5 * doy + 2) / 153 in
  let d := doy - (153 * mp + 2) / 5 + 1 in
  let m := if mp <? 10 then mp + 3 else mp - 9 in
  let y := yoe + era * 400 + (if m <=? 2 then 1 else 0) in
  (y, m, d).

(** [YYYY-MM-DDTHH:mm:ss.sssZ]; years outside 0..9999 take a sign and six
    digits. The argument is the epoch value of a valid [Date]. *)
Definition toISOString (ms : Z) : string :=
  let days := ms / 86400000 in
  let rem := ms mod 86400000 in
  let '(y, m, d) := civil_from_days days in
  let year :=
    if (0 <=? y) && (y <=? 9999) then pad_digits 4 y
    else (if y <? 0 then "-" else "+") +++ pad_digits 6 (Z.abs y) in
  year +++ "-" +++ pad_digits 2 m +++ "-" +++ pad_digits 2 d +++ "T"
    +++ pad_digits 2 (rem / 3600000) +++ ":"
    +++ pad_digits 2 (rem / 60000 mod 60) +++ ":"
    +++ pad_digits 2 (rem / 1000 mod 60) +++ "."
    +++ pad_digits 3 (rem mod 1000) +++ "Z".

(* ================================================================== *)
(** ** The Prisma client over the migrated tables *)

(** A [where] object over [transactions]: each member present is an
    equality filter. *)
Record TransactionWhere := {
  where_cpId : option string;
  where_connectorId : option Z;
  where_idTag : option string;
  where_status : option string
}.

Definition matches (q : TransactionWhere) (t : Transaction) : bool :=
  match where_cpId q with Some c => (cpId t =? c)%string | None => true end
  && match where_connectorId q with Some n => connectorId t =? n | None => true end
  && match where_idTag q with Some s => (idTag t =? s)%string | None => true end
  && match where_status q with Some s => (status t =? s)%string | None => true end.

Inductive OrderBy : Type :=
| Unordered
| StartTimestampDesc.

(** [ORDER BY start_timestamp DESC], rows of equal timestamp staying in
    table order. *)
Fixpoint insert_desc (t : Transaction) (sorted : list Transaction)
  : list Transaction :=
  match sorted with
  | [] => [t]
  | x :: rest =>
      if startTimestamp x <=? startTimestamp t
      then t :: x :: rest
      else x :: insert_desc t rest
  end.

Definition sort_desc (l : list Transaction) : list Transaction :=
  fold_right insert_desc [] l.

Definition ordered (o : OrderBy) (l : list Transaction) : list Transaction :=
  match o with
  | Unordered => l
  | StartTimestampDesc => sort_desc l
  end.

(** The [data] of [transaction.update]: a member left [undefined] leaves
    its column alone. *)
Record TransactionUpdate := {
  set_meterStop : option Z;
  set_stopTimestamp : option Z;
  set_stopReason : option string;
  set_status : option string;
  set_additionalInfo : option JObject
}.

Definition keep {A} (new : option A) (old : option A) : option A :=
  match new with
  | Some a => Some a
  | None => old
  end.

Definition apply_update (u : TransactionUpdate) (t : Transaction) : Transaction :=
  {| transactionId := transactionId t;
     cpId := cpId t;
     connectorId := connectorId t;
     idTag := idTag t;
     meterStart := meterStart t;
     startTimestamp := startTimestamp t;
     meterStop := keep (set_meterStop u) (meterStop t);
     stopTimestamp := keep (set_stopTimestamp u) (stopTimestamp t);
     stopReason := keep (set_stopReason u) (stopReason t);
     stopIdTag := stopIdTag t;
     status := match set_status u with Some s => s | None => status t end;
     additionalInfo := keep (set_additionalInfo u) (additionalInfo t) |}.

Definition has_id (id : Z) (t : Transaction) : bool := transactionId t =? id.

Definition is_cp (c : string) (p : ChargePoint) : bool := (cp_cpId p =? c)%string.

Definition with_status (s : string) (p : ChargePoint) : ChargePoint :=
  {| cp_cpId := cp_cpId p; cp_model := cp_model p; cp_vendor := cp_vendor p;
     cp_firmwareVersion := cp_firmwareVersion p;
     cp_serialNumber := cp_serialNumber p; cp_lastSeen := cp_lastSeen p;
     cp_status := Some s; cp_additionalInfo := cp_additionalInfo p |}.

Definition with_lastSeen (d : Z) (p : ChargePoint) : ChargePoint :=
  {| cp_cpId := cp_cpId p; cp_model := cp_model p; cp_vendor := cp_vendor p;
     cp_firmwareVersion := cp_firmwareVersion p;
     cp_serialNumber := cp_serialNumber p; cp_lastSeen := Some d;
     cp_status := cp_status p; cp_additionalInfo := cp_additionalInfo p |}.

(** Error P2025: the row named by [where] does not exist. *)
Definition P2025 : Exn :=
  PrismaClientKnownRequestError "P2025" "Record to update not found.".

(** Error P2003: [transactions_cp_id_fkey] has no parent row. *)
Definition P2003 : Exn :=
  PrismaClientKnownRequestError "P2003"
    "Foreign key constraint violated: `transactions_cp_id_fkey (index)`".

Module prisma.

Module transaction.

(** Without [orderBy] the database is free in the row it returns first;
    the model takes table order. *)
Definition findFirst (q : TransactionWhere) (o : OrderBy)
  : M (option Transaction) :=
  fun w => (Return (hd_error (ordered o (filter (matches q) (transactions w)))), w).

Definition findMany (q : TransactionWhere) (o : OrderBy)
  : M (list Transaction) :=
  fun w => (Return (ordered o (filter (matches q) (transactions w))), w).

Definition findUnique (id : Z) : M (option Transaction) :=
  fun w => (Return (find (has_id id) (transactions w)), w).

(** [INSERT]: the primary key comes from the sequence, which moves on
    even when the insert is refused; the only constraints of the table
    are that key and the foreign key to [charge_points]. The columns
    not named by the caller are [NULL]. *)
Definition create (cp : string) (conn : Z) (tag : string)
    (mStart : option Z) (start : Z) (st : string) (info : option JObject)
  : M Transaction :=
  fun w =>
    let id := transaction_id_seq w in
    let w1 := set_transaction_id_seq (id + 1) w in
    if existsb (is_cp cp) (chargePoints w) then
      let row :=
        {| transactionId := id; cpId := cp; connectorId := conn;
           idTag := tag; meterStart := mStart; startTimestamp := start;
           meterStop := None; stopTimestamp := None; stopReason := None;
           stopIdTag := None; status := st; additionalInfo := info |} in
      (Return row, set_transactions (transactions w ++ [row]) w1)
    else (Throw P2003, w1).

(** [UPDATE ... WHERE transaction_id = id]. *)
Definition update (id : Z) (u : TransactionUpdate) : M Transaction :=
  fun w =>
    match find (has_id id) (transactions w) with
    | Some t =>
        (Return (apply_update u t),
         set_transactions
           (map (fun x => if has_id id x then apply_update u x else x)
                (transactions w)) w)
    | None => (Throw P2025, w)
    end.

End transaction.

Module chargePoint.

(** [update({ where: { cpId }, data })], [data] given as the change it
    makes to the row. *)
Definition update (c : string) (change : ChargePoint -> ChargePoint)
  : M ChargePoint :=
  fun w =>
    match find (is_cp c) (chargePoints w) with
    | Some p =>
        (Return (change p),
         set_chargePoints
           (map (fun x => if is_cp c x then change x else x)
                (chargePoints w)) w)
    | None => (Throw P2025, w)
    end.

(** [updateMany({ data })] without [where]: every row; the result is
    the count. *)
Definition updateMany (change : ChargePoint -> ChargePoint) : M Z :=
  fun w =>
    (Return (Z.of_nat (List.length (chargePoints w))),
     set_chargePoints (map change (chargePoints w)) w).

(** [upsert({ where: { cpId }, update, create })]. *)
Definition upsert (c : string) (change : ChargePoint -> ChargePoint)
    (fresh : ChargePoint) : M ChargePoint :=
  fun w =>
    match find (is_cp c) (chargePoints w) with
    | Some p =>
        (Return (change p),
         set_chargePoints
           (map (fun x => if is_cp c x then change x else x)
                (chargePoints w)) w)
    | None => (Return fresh, set_chargePoints (chargePoints w ++ [fresh]) w)
    end.

End chargePoint.

End prisma.

(* ================================================================== *)
(** ** [OcppService] *)

Definition optJSON {A} (f : A -> JSON) (x : option A) : option JSON :=
  match x with
  | Some a => Some (f a)
  | None => None
  end.

(** The start data as Prisma writes it into a JSON column. *)
Definition json_of_start (data : CreateTransactionData) : JObject :=
  field "cpId" (Some (JStr (ct_cpId data)))
    ++ field "connectorId" (Some (JNum (ct_connectorId data)))
    ++ field "idTag" (Some (JStr (ct_idTag data)))
    ++ field "meterStart" (optJSON JNum (ct_meterStart data))
    ++ field "startTimestamp" (Some (JStr (toISOString (ct_startTimestamp data)))).

(** The stop data as Prisma writes it into a JSON column. *)
Definition json_of_stop (data : StopTransactionData) : JObject :=
  field "transactionId" (optJSON JNum (st_transactionId data))
    ++ field "cpId" (Some (JStr (st_cpId data)))
    ++ field "connectorId" (optJSON JNum (st_connectorId data))
    ++ field "idTag" (optJSON JStr (st_idTag data))
    ++ field "meterStop" (optJSON JNum (st_meterStop data))
    ++ field "stopReason" (optJSON JStr (st_stopReason data)).

(** [s || d] on an optional string. *)
Definition str_or (s : option string) (d : string) : string :=
  match s with
  | Some x => if nonempty x then x else d
  | None => d
  end.

Module OcppService.

Definition registerChargePoint (data : RegisterData) : M ChargePoint :=
  seenUpdate <- newDate ;;
  seenCreate <- newDate ;;
  prisma.chargePoint.upsert (rg_cpId data)
    (fun p =>
       {| cp_cpId := cp_cpId p;
          cp_model := keep (rg_model data) (cp_model p);
          cp_vendor := keep (rg_vendor data) (cp_vendor p);
          cp_firmwareVersion := keep (rg_firmwareVersion data) (cp_firmwareVersion p);
          cp_serialNumber := keep (rg_serialNumber data) (cp_serialNumber p);
          cp_lastSeen := Some seenUpdate;
          cp_status := cp_status p;
          cp_additionalInfo := keep (rg_additionalInfo data) (cp_additionalInfo p) |})
    {| cp_cpId := rg_cpId data;
       cp_model := rg_model data;
       cp_vendor := rg_vendor data;
       cp_firmwareVersion := rg_firmwareVersion data;
       cp_serialNumber := rg_serialNumber data;
       cp_lastSeen := Some seenCreate;
       cp_status := Some "Available";
       cp_additionalInfo := rg_additionalInfo data |}.

Definition updateLastSeen (c : string) : M ChargePoint :=
  now <- newDate ;;
  prisma.chargePoint.update c (with_lastSeen now).

(** The lookup that opens [startTransaction], up to its [await]. *)
Definition startTransaction_lookup (data : CreateTransactionData)
  : M (option Transaction) :=
  prisma.transaction.findFirst
    {| where_cpId := Some (ct_cpId data);
       where_connectorId := Some (ct_connectorId data);
       where_idTag := None;
       where_status := Some "active" |}
    Unordered.

(** What [startTransaction] does once the lookup has answered. *)
Definition startTransaction_decide (data : CreateTransactionData)
    (existing : option Transaction) : M Transaction :=
  match existing with
  | Some e =>
      if (idTag e =? ct_idTag data)%string then ret e
      else throw (Error ("Connector " +++ show_Z (ct_connectorId data)
                           +++ " already has an active transaction"))
  | None =>
      prisma.transaction.create (ct_cpId data) (ct_connectorId data)
        (ct_idTag data) (ct_meterStart data) (ct_startTimestamp data)
        "active" (Some (json_of_start data))
  end.

Definition startTransaction (data : CreateTransactionData) : M Transaction :=
  existing <- startTransaction_lookup data ;;
  startTransaction_decide data existing.

(** The [where] that [stopTransaction] builds when it has to search. *)
Definition stop_where (data : StopTransactionData) : TransactionWhere :=
  {| where_cpId := Some (st_cpId data);
     where_connectorId := st_connectorId data;
     where_idTag :=
       match st_connectorId data with
       | Some _ => None
       | None =>
           match st_idTag data with
           | Some tag => if nonempty tag then Some tag else None
           | None => None
           end
       end;
     where_status := Some "active" |}.

(** The search of [stopTransaction] for an active transaction. *)
Definition stopTransaction_search (data : StopTransactionData) : M Z :=
  found <- prisma.transaction.findFirst (stop_where data) StartTimestampDesc ;;
  match found with
  | None => throw (Error "No active transaction found to stop")
  | Some t => ret (transactionId t)
  end.

(** The value of [transactionId] when [stopTransaction] reaches its
    [update]: the caller's, or, when [!transactionId] holds ([undefined]
    and [0] alike), the one the search finds. *)
Definition stopTransaction_resolve (data : StopTransactionData) : M Z :=
  match st_transactionId data with
  | Some n => if n =? 0 then stopTransaction_search data else ret n
  | None => stopTransaction_search data
  end.

Definition stopTransaction (data : StopTransactionData) : M Transaction :=
  id <- stopTransaction_resolve data ;;
  now <- newDate ;;
  prisma.transaction.update id
    {| set_meterStop := st_meterStop data;
       set_stopTimestamp := Some now;
       set_stopReason := Some (str_or (st_stopReason data) "Local");
       set_status := Some "completed";
       set_additionalInfo := Some (json_of_stop data) |}.

(** [cpId === 'unknown' ? updateMany(...) : update(...)]: the count on
    the left, the row on the right. *)
Definition setChargePointStatus (c : string) (s : string)
  : M (Z + ChargePoint) :=
  if (c =? "unknown")%string
  then n <- prisma.chargePoint.updateMany (with_status s) ;; ret (inl n)
  else p <- prisma.chargePoint.update c (with_status s) ;; ret (inr p).

Definition getActiveTransactions (c : string) : M (list Transaction) :=
  prisma.transaction.findMany
    {| where_cpId := Some c; where_connectorId := None;
       where_idTag := None; where_status := Some "active" |}
    StartTimestampDesc.

(** The metadata bag after one more reconnection at [now]. *)
Definition resumed_info (now : Z) (currentAdditionalInfo : JObject) : JObject :=
  obj_set "reconnectionCount"
    (js_plus_1 (js_or (obj_get "reconnectionCount" currentAdditionalInfo) (JNum 0)))
    (obj_set "reconnectedAt" (JStr (toISOString now)) currentAdditionalInfo).

Definition resumeTransaction (id : Z) : M Transaction :=
  found <- prisma.transaction.findUnique id ;;
  match found with
  | None => throw (Error ("Transaction " +++ show_Z id +++ " not found"))
  | Some t =>
      let currentAdditionalInfo :=
        match additionalInfo t with
        | Some o => o
        | None => []
        end in
      now <- newDate ;;
      prisma.transaction.update id
        {| set_meterStop := None;
           set_stopTimestamp := None;
           set_stopReason := None;
           set_status := None;
           set_additionalInfo := Some (resumed_info now currentAdditionalInfo) |}
  end.

End OcppService.

(* ================================================================== *)
(** ** [QueueService] *)

Module QueueService.

(** [meterValuesQueue.add('process-meter-values', data, options)]. *)
Definition queueMeterValues (data : MeterValuesJob)
  : M (BullJob MeterValuesJob) :=
  fun w =>
    let job :=
      {| bj_name := "process-meter-values"; bj_data := data;
         bj_attempts := 3; bj_backoffType := "exponential";
         bj_backoffDelay := 2000 |} in
    (Return job, set_meterValuesQueue (meterValuesQueue w ++ [job]) w).

End QueueService.

(* ================================================================== *)
(** ** The MeterValues schema of [src/validation.ts] *)

(** [z.string()], [z.number()] and [.optional()] on a member that may be
    [undefined]. *)
Definition z_string (v : option JSON) : option string :=
  match v with
  | Some (JStr s) => Some s
  | _ => None
  end.

Definition z_number (v : option JSON) : option Z :=
  match v with
  | Some (JNum n) => Some n
  | _ => None
  end.

Definition z_optional {A} (p : option JSON -> option A) (v : option JSON)
  : option (option A) :=
  match v with
  | None => Some None
  | Some _ =>
      match p v with
      | Some a => Some (Some a)
      | None => None
      end
  end.

(** [z.array(schema)] on the elements. *)
Fixpoint z_array {A} (p : JSON -> option A) (items : list JSON)
  : option (list A) :=
  match items with
  | [] => Some []
  | x :: rest =>
      match p x, z_array p rest with
      | Some a, Some l => Some (a :: l)
      | _, _ => None
      end
  end.

Definition SampledValueSchema (v : JSON) : option SampledValue :=
  match v with
  | JObj o =>
      match z_string (obj_get "value" o),
            z_optional z_string (obj_get "measurand" o),
            z_optional z_string (obj_get "phase" o),
            z_optional z_string (obj_get "unit" o) with
      | Some value, Some measurand, Some phase, Some unit_ =>
          Some {| sv_value := value; sv_measurand := measurand;
                  sv_phase := phase; sv_unit := unit_ |}
      | _, _, _, _ => None
      end
  | _ => None
  end.

Definition MeterValueSchema (v : JSON) : option MeterValue :=
  match v with
  | JObj o =>
      match z_string (obj_get "timestamp" o), obj_get "sampledValue" o with
      | Some ts, Some (JArr items) =>
          match z_array SampledValueSchema items with
          | Some svs => Some {| mv_timestamp := ts; mv_sampledValue := svs |}
          | None => None
          end
      | _, _ => None
      end
  | _ => None
  end.

Definition MeterValuesRequestSchema (v : JSON) : option MeterValuesRequest :=
  match v with
  | JObj o =>
      match z_number (obj_get "connectorId" o),
            z_optional z_number (obj_get "transactionId" o),
            obj_get "meterValue" o with
      | Some conn, Some tx, Some (JArr items) =>
          match z_array MeterValueSchema items with
          | Some mvs =>
              Some {| mvr_connectorId := conn; mvr_transactionId := tx;
                      mvr_meterValue := mvs |}
          | None => None
          end
      | _, _, _ => None
      end
  | _ => None
  end.

(* ================================================================== *)
(** ** The BootNotification and StopTransaction schemas *)

Record BootNotificationRequest := {
  bn_chargePointVendor : string;
  bn_chargePointModel : string;
  bn_chargePointSerialNumber : option string;
  bn_chargeBoxSerialNumber : option string;
  bn_firmwareVersion : option string;
  bn_iccid : option string;
  bn_imsi : option string;
  bn_meterType : option string;
  bn_meterSerialNumber : option string
}.

Record StopTransactionRequest := {
  sr_meterStop : Z;
  sr_timestamp : string;
  sr_transactionId : Z;
  sr_reason : option string;
  sr_idTag : option string;
  sr_transactionData : option (list JSON)
}.

(** [z.array(z.any())] on a member that may be [undefined]. *)
Definition z_any_array (v : option JSON) : option (list JSON) :=
  match v with
  | Some (JArr items) => Some items
  | _ => None
  end.

Definition BootNotificationRequestSchema (v : JSON)
  : option BootNotificationRequest :=
  match v with
  | JObj o =>
      match z_string (obj_get "chargePointVendor" o),
            z_string (obj_get "chargePointModel" o),
            z_optional z_string (obj_get "chargePointSerialNumber" o),
            z_optional z_string (obj_get "chargeBoxSerialNumber" o),
            z_optional z_string (obj_get "firmwareVersion" o),
            z_optional z_string (obj_get "iccid" o),
            z_optional z_string (obj_get "imsi" o),
            z_optional z_string (obj_get "meterType" o),
            z_optional z_string (obj_get "meterSerialNumber" o) with
      | Some vendor, Some model, Some serial, Some box, Some firmware,
        Some iccid, Some imsi, Some meterType, Some meterSerial =>
          Some {| bn_chargePointVendor := vendor;
                  bn_chargePointModel := model;
                  bn_chargePointSerialNumber := serial;
                  bn_chargeBoxSerialNumber := box;
                  bn_firmwareVersion := firmware;
                  bn_iccid := iccid;
                  bn_imsi := imsi;
                  bn_meterType := meterType;
                  bn_meterSerialNumber := meterSerial |}
      | _, _, _, _, _, _, _, _, _ => None
      end
  | _ => None
  end.

Definition StopTransactionRequestSchema (v : JSON)
  : option StopTransactionRequest :=
  match v with
  | JObj o =>
      match z_number (obj_get "meterStop" o),
            z_string (obj_get "timestamp" o),
            z_number (obj_get "transactionId" o),
            z_optional z_string (obj_get "reason" o),
            z_optional z_string (obj_get "idTag" o),
            z_optional z_any_array (obj_get "transactionData" o) with
      | Some meterStop_, Some ts, Some id, Some reason, Some tag, Some data =>
          Some {| sr_meterStop := meterStop_; sr_timestamp := ts;
                  sr_transactionId := id; sr_reason := reason;
                  sr_idTag := tag; sr_transactionData := data |}
      | _, _, _, _, _, _ => None
      end
  | _ => None
  end.

(* ================================================================== *)
(** ** [OcppController] *)

Module OcppController.

(** The [flatMap] of [handleMeterValues]. *)
Definition flatten (meterValue : list MeterValue) : list FlatReading :=
  flat_map
    (fun mv =>
       map (fun sv =>
              {| fr_timestamp := mv_timestamp mv;
                 fr_value := sv_value sv;
                 fr_measurand := sv_measurand sv;
                 fr_phase := sv_phase sv;
                 fr_unit := sv_unit sv |})
           (mv_sampledValue mv))
    meterValue.

Definition handleMeterValues (c : string) (payload : JSON) : M JSON :=
  match MeterValuesRequestSchema payload with
  | None => throw (ZodError "Invalid input")
  | Some validated =>
      let meterValues := flatten (mvr_meterValue validated) in
      QueueService.queueMeterValues
        {| job_cpId := c;
           job_connectorId := mvr_connectorId validated;
           job_transactionId := mvr_transactionId validated;
           job_meterValues := meterValues |} ;;;
      ret (JObj [])
  end.

(** [handleReconnection] from the answer of [getActiveTransactions] on. *)
Definition handleReconnection_resume (activeTransactions : list Transaction)
  : M (list Transaction) :=
  (if 0 <? Z.of_nat (List.length activeTransactions) then
     forEach
       (fun t => OcppService.resumeTransaction (transactionId t) ;;; ret tt)
       activeTransactions
   else ret tt) ;;;
  ret activeTransactions.

Definition handleReconnection (c : string) : M (list Transaction) :=
  activeTransactions <- OcppService.getActiveTransactions c ;;
  handleReconnection_resume activeTransactions.

Definition handleBootNotification (c : string) (payload : JSON) : M JSON :=
  match BootNotificationRequestSchema payload with
  | None => throw (ZodError "Invalid input")
  | Some validated =>
      OcppService.registerChargePoint
        {| rg_cpId := c;
           rg_vendor := Some (bn_chargePointVendor validated);
           rg_model := Some (bn_chargePointModel validated);
           rg_firmwareVersion := bn_firmwareVersion validated;
           rg_serialNumber := bn_chargePointSerialNumber validated;
           rg_additionalInfo := Some payload |} ;;;
      now <- newDate ;;
      ret (JObj [("status", JStr "Accepted");
                 ("currentTime", JStr (toISOString now));
                 ("interval", JNum 300)])
  end.

Definition handleStopTransaction (c : string) (payload : JSON) : M JSON :=
  match StopTransactionRequestSchema payload with
  | None => throw (ZodError "Invalid input")
  | Some validated =>
      OcppService.stopTransaction
        {| st_transactionId := Some (sr_transactionId validated);
           st_cpId := c;
           st_connectorId := None;
           st_idTag := sr_idTag validated;
           st_meterStop := Some (sr_meterStop validated);
           st_stopReason := sr_reason validated |} ;;;
      ret (JObj [("idTagInfo", JObj [("status", JStr "Accepted")])])
  end.

End OcppController.

(* ================================================================== *)
(** ** [SimpleOcppServer] *)

Module SimpleOcppServer.

(** The seven handler methods the dispatcher calls on the controller it
    was constructed with. *)
Record Handlers := {
  handleBootNotification : string -> JSON -> M JSON;
  handleHeartbeat : string -> JSON -> M JSON;
  handleAuthorize : string -> JSON -> M JSON;
  handleStartTransaction : string -> JSON -> M JSON;
  handleStopTransaction : string -> JSON -> M JSON;
  handleStatusNotification : string -> JSON -> M JSON;
  handleMeterValues : string -> JSON -> M JSON
}.

Definition extractCpId (url : string) : string :=
  let parts := filter nonempty (split_slash url) in
  str_or (nth_error parts 2) "unknown".

Definition unsupported (action : JSON) : M JSON :=
  throw (Error ("Unsupported action: " +++ js_String action)).

(** The [switch] compares with [===], so a value that is not a string
    falls to [default]. *)
Definition handleAction (h : Handlers) (c : string) (action : JSON)
    (payload : JSON) : M JSON :=
  match action with
  | JStr a =>
      if (a =? "BootNotification")%string then handleBootNotification h c payload
      else if (a =? "Heartbeat")%string then handleHeartbeat h c payload
      else if (a =? "Authorize")%string then handleAuthorize h c payload
      else if (a =? "StartTransaction")%string then handleStartTransaction h c payload
      else if (a =? "StopTransaction")%string then handleStopTransaction h c payload
      else if (a =? "StatusNotification")%string then handleStatusNotification h c payload
      else if (a =? "MeterValues")%string then handleMeterValues h c payload
      else unsupported action
  | _ => unsupported action
  end.

(** The frames handed to [ws.send], before [JSON.stringify]. *)
Definition sendCallResult (uniqueId : JSON) (payload : JSON) : JSON :=
  JArr [JNum 3; uniqueId; payload].

Definition sendError (uniqueId errorCode description : string) : JSON :=
  JArr [JNum 4; JStr uniqueId; JStr errorCode; JStr description; JObj []].

(** [handleMessage]; [parsed] is what [JSON.parse(raw)] returned or
    threw, [userData_cpId] the identity stored on the socket. The result
    lists the frames sent. *)
Definition handleMessage (h : Handlers) (userData_cpId : option string)
    (parsed : Exn + JSON) (w : World) : list JSON * World :=
  let c := str_or userData_cpId "unknown" in
  match parsed with
  | inl e => ([sendError "unknown" "InternalError" (exn_message e)], w)
  | inr (JArr (messageType :: uniqueId :: action :: rest)) =>
      match messageType with
      | JNum 2 =>
          match handleAction h c action (js_or (hd_error rest) (JObj [])) w with
          | (Return response, w') => ([sendCallResult uniqueId response], w')
          | (Throw e, w') =>
              ([sendError "unknown" "InternalError" (exn_message e)], w')
          end
      | _ => ([], w)
      end
  | inr _ =>
      ([sendError "unknown" "InvalidMessage" "Invalid OCPP message format"], w)
  end.

(** The [open] hook: the identity kept on the socket and the world
    after both calls have settled. *)
Definition open (url : string) (w : World) : string * World :=
  let c := extractCpId url in
  let w1 := swallow (OcppService.setChargePointStatus c "Online") w in
  let w2 := swallow (OcppController.handleReconnection c) w1 in
  (c, w2).

(** The [close] hook. *)
Definition close (userData_cpId : option string) (w : World) : World :=
  let c := str_or userData_cpId "unknown" in
  let w1 := swallow (OcppService.updateLastSeen c) w in
  swallow (OcppService.setChargePointStatus c "Offline") w1.

End SimpleOcppServer.

(* ================================================================== *)
(** ** Requests served one at a time *)

(** The calls that reach the database or the queue. [exec] runs one of
    them to its end, result or throw, before the next one starts. *)
Inductive Request : Type :=
| CallRegisterChargePoint (data : RegisterData)
| CallUpdateLastSeen (c : string)
| CallSetChargePointStatus (c : string) (s : string)
| CallStartTransaction (data : CreateTransactionData)
| CallStopTransaction (data : StopTransactionData)
| CallResumeTransaction (id : Z)
| CallGetActiveTransactions (c : string)
| CallHandleMeterValues (c : string) (payload : JSON)
| CallHandleReconnection (c : string)
| OpenConnection (url : string)
| CloseConnection (userData_cpId : option string).

Definition exec (r : Request) (w : World) : World :=
  match r with
  | CallRegisterChargePoint data => swallow (OcppService.registerChargePoint data) w
  | CallUpdateLastSeen c => swallow (OcppService.updateLastSeen c) w
  | CallSetChargePointStatus c s => swallow (OcppService.setChargePointStatus c s) w
  | CallStartTransaction data => swallow (OcppService.startTransaction data) w
  | CallStopTransaction data => swallow (OcppService.stopTransaction data) w
  | CallResumeTransaction id => swallow (OcppService.resumeTransaction id) w
  | CallGetActiveTransactions c => swallow (OcppService.getActiveTransactions c) w
  | CallHandleMeterValues c payload => swallow (OcppController.handleMeterValues c payload) w
  | CallHandleReconnection c => swallow (OcppController.handleReconnection c) w
  | OpenConnection url => snd (SimpleOcppServer.open url w)
  | CloseConnection u => SimpleOcppServer.close u w
  end.

Definition run (rs : list Request) (w : World) : World :=
  fold_left (fun acc r => exec r acc) rs w.

(* ================================================================== *)
(** ** Predicates on states *)

(** The row is an active transaction of connector [n] of charge point [c]. *)
Definition active_on (c : string) (n : Z) (t : Transaction) : bool :=
  (cpId t =? c)%string && (connectorId t =? n) && (status t =? "active")%string.

(** The row is an active transaction of charge point [c]. *)
Definition active_of (c : string) (t : Transaction) : bool :=
  (cpId t =? c)%string && (status t =? "active")%string.

(** The row is an active transaction of charge point [c] started with
    [tag]. *)
Definition active_with (c : string) (tag : string) (t : Transaction) : bool :=
  (cpId t =? c)%string && (idTag t =? tag)%string && (status t =? "active")%string.

(** At most one active transaction per connector. *)
Definition exclusive (txs : list Transaction) : Prop :=
  forall c n, (List.length (filter (active_on c n) txs) <= 1)%nat.

(** What the primary keys and the sequence guarantee: no two rows under
    one key, and no transaction id the sequence has yet to give. *)
Definition keyed (w : World) : Prop :=
  NoDup (map transactionId (transactions w))
  /\ NoDup (map cp_cpId (chargePoints w))
  /\ Forall (fun id => id < transaction_id_seq w) (map transactionId (transactions w)).

(** [w'] has the rows of [w] under the same keys, and a sequence that
    did not go back. *)
Definition same_keys (w w' : World) : Prop :=
  map transactionId (transactions w') = map transactionId (transactions w)
  /\ map cp_cpId (chargePoints w') = map cp_cpId (chargePoints w)
  /\ transaction_id_seq w <= transaction_id_seq w'.

Definition registered (c : string) (w : World) : bool :=
  existsb (is_cp c) (chargePoints w).

(** The most recently started row of a list, the earliest in the list
    among equals; what "most-recently-started" selects. *)
Fixpoint most_recent (l : list Transaction) : option Transaction :=
  match l with
  | [] => None
  | t :: rest =>
      match most_recent rest with
      | None => Some t
      | Some r => if startTimestamp r <=? startTimestamp t then Some t else Some r
      end
  end.

(** The outcome of a search for the transaction to stop. *)
Definition resolved (found : option Transaction) : Outcome Z :=
  match found with
  | Some t => Return (transactionId t)
  | None => Throw (Error "No active transaction found to stop")
  end.

(** One row after a resume at [now]. *)
Definition resume_row (now : Z) (t : Transaction) : Transaction :=
  apply_update
    {| set_meterStop := None; set_stopTimestamp := None; set_stopReason := None;
       set_status := None;
       set_additionalInfo :=
         Some (OcppService.resumed_info now
                 (match additionalInfo t with Some o => o | None => [] end)) |}
    t.

(** One row after [stopTransaction data] at [now]. *)
Definition stop_row (data : StopTransactionData) (now : Z) (t : Transaction)
  : Transaction :=
  apply_update
    {| set_meterStop := st_meterStop data;
       set_stopTimestamp := Some now;
       set_stopReason := Some (str_or (st_stopReason data) "Local");
       set_status := Some "completed";
       set_additionalInfo := Some (json_of_stop data) |}
    t.

(** The table after the rows named [id] went through [f]. *)
Definition rewrite_id (id : Z) (f : Transaction -> Transaction)
    (txs : list Transaction) : list Transaction :=
  map (fun x => if has_id id x then f x else x) txs.

(** The rows listed by [ids] resumed in that order, the first at clock
    reading [r]. *)
Fixpoint resume_each (clk : nat -> Z) (r : nat) (ids : list Z)
    (txs : list Transaction) : list Transaction :=
  match ids with
  | [] => txs
  | id :: rest => resume_each clk (S r) rest (rewrite_id id (resume_row (clk r)) txs)
  end.

(** The flat reading of one sampled value under one entry. *)
Definition reading_of (mv : MeterValue) (sv : SampledValue) : FlatReading :=
  {| fr_timestamp := mv_timestamp mv;
     fr_value := sv_value sv;
     fr_measurand := sv_measurand sv;
     fr_phase := sv_phase sv;
     fr_unit := sv_unit sv |}.

(** [a] is listed before [b] when [b] was not started after [a]. *)
Definition not_older (a b : Transaction) : Prop :=
  startTimestamp b <= startTimestamp a.

(** The place of [id] in a list of ids. *)
Fixpoint position (id : Z) (ids : list Z) : option nat :=
  match ids with
  | [] => None
  | x :: rest => if x =? id then Some O else option_map S (position id rest)
  end.

(** The table once the rows named by [ids] were resumed in that order,
    the first at clock reading [r], one reading per row. *)
Definition resumed_table (clk : nat -> Z) (r : nat) (ids : list Z)
    (txs : list Transaction) : list Transaction :=
  map (fun t =>
         match position (transactionId t) ids with
         | Some k => resume_row (clk (r + k)%nat) t
         | None => t
         end) txs.

(** The loop of [handleReconnection]. *)
Definition resume_loop (l : list Transaction) : M unit :=
  forEach (fun t => OcppService.resumeTransaction (transactionId t) ;;; ret tt) l.

(** The seven actions of the dispatcher. *)
Definition implemented : list string :=
  ["BootNotification"; "Heartbeat"; "Authorize"; "StartTransaction";
   "StopTransaction"; "StatusNotification"; "MeterValues"].

(* ================================================================== *)
(** ** How the service changes the transactions table *)

(** The three shapes of a write to [transactions]: none, an [update] by
    id that leaves [status] alone or sets it to [completed], and the
    [create] of a row on a connector without active transaction. *)
Inductive tx_change (txs : list Transaction) : list Transaction -> Prop :=
| tx_same : tx_change txs txs
| tx_updated (id : Z) (u : TransactionUpdate) :
    set_status u = None \/ set_status u = Some "completed" ->
    tx_change txs (rewrite_id id (apply_update u) txs)
| tx_created (row : Transaction) :
    filter (active_on (cpId row) (connectorId row)) txs = [] ->
    tx_change txs (txs ++ [row]).

Inductive tx_changes : list Transaction -> list Transaction -> Prop :=
| changes_refl (txs : list Transaction) : tx_changes txs txs
| changes_step (txs txs' txs'' : list Transaction) :
    tx_change txs txs' -> tx_changes txs' txs'' -> tx_changes txs txs''.

(** A row and what became of it: same key, and a status that stayed or
    became [completed]. *)
Definition keeps (t t' : Transaction) : Prop :=
  transactionId t' = transactionId t
  /\ (status t' = status t \/ status t' = "completed").

(** The old rows, each with what became of it, then the new rows. *)
Definition grows (txs txs' : list Transaction) : Prop :=
  exists upd news, txs' = upd ++ news /\ Forall2 keeps txs upd.

(** The rows a search of [stopTransaction] may return for [data]: active
    rows of the charge point, on the connector if one is given, else with
    the idTag if a non-empty one is given. *)
Definition stop_criteria (data : StopTransactionData) (t : Transaction) : Prop :=
  cpId t = st_cpId data
  /\ status t = "active"
  /\ match st_connectorId data with
     | Some n => connectorId t = n
     | None =>
         match st_idTag data with
         | Some tag => tag = "" \/ idTag t = tag
         | None => True
         end
     end.

(* ================================================================== *)
(** ** Sample data, after the repository's test suite *)

Definition sample_clock (k : nat) : Z := 1758536814000 + 1000 * Z.of_nat k.

Definition boot_CP001 : RegisterData :=
  {| rg_cpId := "CP001"; rg_vendor := Some "TestVendor";
     rg_model := Some "TestModel"; rg_firmwareVersion := Some "1.0.0";
     rg_serialNumber := Some "SN123456"; rg_additionalInfo := None |}.

Definition boot_CP002 : RegisterData :=
  {| rg_cpId := "CP002"; rg_vendor := Some "TestVendor";
     rg_model := Some "TestModel"; rg_firmwareVersion := None;
     rg_serialNumber := None; rg_additionalInfo := None |}.

Definition start_RFID123456 : CreateTransactionData :=
  {| ct_cpId := "CP001"; ct_connectorId := 1; ct_idTag := "RFID123456";
     ct_meterStart := Some 1000; ct_startTimestamp := 1758536800000 |}.

Definition start_DIFFERENT_RFID : CreateTransactionData :=
  {| ct_cpId := "CP001"; ct_connectorId := 1; ct_idTag := "DIFFERENT_RFID";
     ct_meterStart := Some 500; ct_startTimestamp := 1758536801000 |}.

Definition start_connector2 : CreateTransactionData :=
  {| ct_cpId := "CP001"; ct_connectorId := 2; ct_idTag := "RFID789012";
     ct_meterStart := Some 2000; ct_startTimestamp := 1758536805000 |}.

(** A registered charge point, no transaction yet. *)
Definition w_booted : World :=
  run [CallRegisterChargePoint boot_CP001; CallRegisterChargePoint boot_CP002]
      (init sample_clock).

(** Transaction 1 active on connector 1. *)
Definition w_charging : World :=
  run [CallStartTransaction start_RFID123456] w_booted.

(** A stop that names transaction 0 and the tag of transaction 1. *)
Definition stop_zero : StopTransactionData :=
  {| st_transactionId := Some 0; st_cpId := "CP001"; st_connectorId := None;
     st_idTag := Some "RFID123456"; st_meterStop := Some 2000;
     st_stopReason := Some "Local" |}.

(** A stop without id or connector, with an empty tag. *)
Definition stop_empty_tag : StopTransactionData :=
  {| st_transactionId := None; st_cpId := "CP001"; st_connectorId := None;
     st_idTag := Some ""; st_meterStop := Some 2000; st_stopReason := None |}.

(** The stop of the repository's test, by id. *)
Definition stop_by_id : StopTransactionData :=
  {| st_transactionId := Some 1; st_cpId := "CP001"; st_connectorId := None;
     st_idTag := None; st_meterStop := Some 2000; st_stopReason := Some "Local" |}.

(** A later stop of the same transaction with other figures. *)
Definition stop_again : StopTransactionData :=
  {| st_transactionId := Some 1; st_cpId := "CP001"; st_connectorId := None;
     st_idTag := None; st_meterStop := Some 9999; st_stopReason := Some "Remote" |}.

(** A stop by connector. *)
Definition stop_connector1 : StopTransactionData :=
  {| st_transactionId := None; st_cpId := "CP001"; st_connectorId := Some 1;
     st_idTag := None; st_meterStop := Some 2000; st_stopReason := None |}.

(** A stop that names transaction 2 while its connector and tag are
    those of transaction 1. *)
Definition stop_id2_of_connector1 : StopTransactionData :=
  {| st_transactionId := Some 2; st_cpId := "CP001"; st_connectorId := Some 1;
     st_idTag := Some "RFID123456"; st_meterStop := Some 2500;
     st_stopReason := None |}.

(** A stop by tag. *)
Definition stop_tag_RFID789012 : StopTransactionData :=
  {| st_transactionId := None; st_cpId := "CP001"; st_connectorId := None;
     st_idTag := Some "RFID789012"; st_meterStop := None;
     st_stopReason := Some "Remote" |}.

(** Transaction 1 stopped. *)
Definition w_stopped : World :=
  run [CallStopTransaction stop_by_id] w_charging.

(** The MeterValues payload of the controller's test: two entries, with
    two readings and one. *)
Definition payload_2_and_1 : JSON :=
  JObj [("connectorId", JNum 1);
        ("meterValue",
         JArr [JObj [("timestamp", JStr "2025-09-22T10:26:54.000Z");
                     ("sampledValue",
                      JArr [JObj [("value", JStr "1500");
                                  ("measurand", JStr "Energy.Active.Import.Register")];
                            JObj [("value", JStr "22.1");
                                  ("measurand", JStr "Voltage");
                                  ("phase", JStr "L1")]])];
               JObj [("timestamp", JStr "2025-09-22T10:27:54.000Z");
                     ("sampledValue",
                      JArr [JObj [("value", JStr "1600");
                                  ("measurand", JStr "Energy.Active.Import.Register")]])]])].

(** Transactions 1 and 2 active on connectors 1 and 2. *)
Definition w_two_active : World :=
  run [CallStartTransaction start_connector2] w_charging.

(** The same, once the row of transaction 1 is gone. *)
Definition w_row_1_gone : World :=
  set_transactions (filter (fun t => negb (has_id 1 t)) (transactions w_two_active))
                   w_two_active.

(* ================================================================== *)
(** ** Further predicates and sample data *)

(** The string has no [/]. *)
Fixpoint no_slash (s : string) : bool :=
  match s with
  | EmptyString => true
  | String c rest => negb (Ascii.eqb c "/"%char) && no_slash rest
  end.

(** Every transaction belongs to a charge point that has a row: what the
    foreign key of [transactions] guarantees. *)
Definition referenced (w : World) : Prop :=
  Forall (fun t => registered (cpId t) w = true) (transactions w).

(** The row that [startTransaction data] inserts under the key [id]. *)
Definition started_row (data : CreateTransactionData) (id : Z) : Transaction :=
  {| transactionId := id; cpId := ct_cpId data;
     connectorId := ct_connectorId data; idTag := ct_idTag data;
     meterStart := ct_meterStart data;
     startTimestamp := ct_startTimestamp data;
     meterStop := None; stopTimestamp := None; stopReason := None;
     stopIdTag := None; status := "active";
     additionalInfo := Some (json_of_start data) |}.

(** The value under [reconnectionCount] in the bag of a row. *)
Definition reconnectionCount (t : Transaction) : option JSON :=
  match additionalInfo t with
  | Some o => obj_get "reconnectionCount" o
  | None => None
  end.

(** [id] resumed [n] times in a row. *)
Definition resume_times (n : nat) (id : Z) (w : World) : World :=
  Nat.iter n (swallow (OcppService.resumeTransaction id)) w.

(** The BootNotification payload of the controller's test. *)
Definition payload_boot : JSON :=
  JObj [("chargePointVendor", JStr "TestVendor");
        ("chargePointModel", JStr "TestModel");
        ("firmwareVersion", JStr "1.0.0");
        ("chargePointSerialNumber", JStr "SN123456")].

(** A StopTransaction payload for transaction 1. *)
Definition payload_stop_1 : JSON :=
  JObj [("transactionId", JNum 1);
        ("meterStop", JNum 2000);
        ("timestamp", JStr "2025-09-22T10:30:00.000Z");
        ("reason", JStr "Local")].

(** The same without [transactionId]. *)
Definition payload_stop_no_id : JSON :=
  JObj [("meterStop", JNum 2000);
        ("timestamp", JStr "2025-09-22T10:30:00.000Z");
        ("reason", JStr "Local");
        ("idTag", JStr "RFID123456")].

(** The handlers of [OcppController] embedded above, as the server calls
    them; [other] stands for the remaining four, which are embedded
    further down over [Backend] or with the reading of timestamps as a
    parameter. *)
Definition controller (other : string -> JSON -> M JSON)
  : SimpleOcppServer.Handlers :=
  {| SimpleOcppServer.handleBootNotification := OcppController.handleBootNotification;
     SimpleOcppServer.handleHeartbeat := other;
     SimpleOcppServer.handleAuthorize := other;
     SimpleOcppServer.handleStartTransaction := other;
     SimpleOcppServer.handleStopTransaction := OcppController.handleStopTransaction;
     SimpleOcppServer.handleStatusNotification := other;
     SimpleOcppServer.handleMeterValues := OcppController.handleMeterValues |}.

(** A handler that answers with the empty object and writes nothing. *)
Definition answers_empty (c : string) (payload : JSON) : M JSON := ret (JObj []).

(* ================================================================== *)
(** * Heartbeats, status notifications and authorizations *)

(** ** The tables and queues beside those of [World] *)

(** Rows of [heartbeats], [authorizations] and [status_notifications],
    with the columns the service writes. *)
Record Heartbeat := {
  hb_id : Z;
  hb_cpId : string;
  hb_timestamp : Z
}.

Record Authorization := {
  au_id : Z;
  au_cpId : string;
  au_idTag : string;
  au_status : string;
  au_expiryDate : option Z;
  au_timestamp : Z
}.

Record StatusNotification := {
  sn_id : Z;
  sn_cpId : string;
  sn_connectorId : Z;
  sn_status : string;
  sn_errorCode : option string;
  sn_info : option string;
  sn_vendorId : option string;
  sn_vendorErrorCode : option string;
  sn_timestamp : Z;
  sn_additionalInfo : option JSON
}.

(** The job data of [QueueService.ts]. *)
Record HeartbeatJob := {
  hj_cpId : string;
  hj_timestamp : string
}.

Record StatusNotificationJob := {
  sj_cpId : string;
  sj_connectorId : Z;
  sj_status : string;
  sj_errorCode : option string;
  sj_info : option string;
  sj_vendorId : option string;
  sj_vendorErrorCode : option string;
  sj_timestamp : string;
  sj_additionalInfo : option JSON
}.

(** The argument of [recordStatusNotification]. *)
Record StatusNotificationData := {
  sd_cpId : string;
  sd_connectorId : Z;
  sd_status : string;
  sd_errorCode : option string;
  sd_info : option string;
  sd_vendorId : option string;
  sd_vendorErrorCode : option string;
  sd_additionalInfo : option JSON
}.

(** A row of [meter_values]. *)
Record MeterValueRow := {
  mrow_id : Z;
  mrow_cpId : string;
  mrow_connectorId : Z;
  mrow_transactionId : option Z;
  mrow_timestamp : Z;
  mrow_value : string;
  mrow_context : option string;
  mrow_format : option string;
  mrow_measurand : option string;
  mrow_phase : option string;
  mrow_location : option string;
  mrow_unit : option string
}.

(** The world, with the four tables, their [SERIAL] sequences and the
    two queues added. *)
Record Backend := {
  core : World;
  heartbeats : list Heartbeat;
  heartbeats_id_seq : Z;
  authorizations : list Authorization;
  authorizations_id_seq : Z;
  statusNotifications : list StatusNotification;
  status_notifications_id_seq : Z;
  meterValues : list MeterValueRow;
  meter_values_id_seq : Z;
  heartbeatQueue : list (BullJob HeartbeatJob);
  statusNotificationQueue : list (BullJob StatusNotificationJob)
}.

Definition set_core (w : World) (b : Backend) : Backend :=
  {| core := w;
     heartbeats := heartbeats b; heartbeats_id_seq := heartbeats_id_seq b;
     authorizations := authorizations b;
     authorizations_id_seq := authorizations_id_seq b;
     statusNotifications := statusNotifications b;
     status_notifications_id_seq := status_notifications_id_seq b;
     meterValues := meterValues b;
     meter_values_id_seq := meter_values_id_seq b;
     heartbeatQueue := heartbeatQueue b;
     statusNotificationQueue := statusNotificationQueue b |}.

(** The outcome of an [INSERT] into [heartbeats]: the sequence moves on,
    and the row is there when [row] is one. *)
Definition insert_heartbeat (row : option Heartbeat) (b : Backend) : Backend :=
  {| core := core b;
     heartbeats :=
       match row with Some r => heartbeats b ++ [r] | None => heartbeats b end;
     heartbeats_id_seq := heartbeats_id_seq b + 1;
     authorizations := authorizations b;
     authorizations_id_seq := authorizations_id_seq b;
     statusNotifications := statusNotifications b;
     status_notifications_id_seq := status_notifications_id_seq b;
     meterValues := meterValues b;
     meter_values_id_seq := meter_values_id_seq b;
     heartbeatQueue := heartbeatQueue b;
     statusNotificationQueue := statusNotificationQueue b |}.

Definition insert_authorization (row : option Authorization) (b : Backend)
  : Backend :=
  {| core := core b;
     heartbeats := heartbeats b; heartbeats_id_seq := heartbeats_id_seq b;
     authorizations :=
       match row with
       | Some r => authorizations b ++ [r]
       | None => authorizations b
       end;
     authorizations_id_seq := authorizations_id_seq b + 1;
     statusNotifications := statusNotifications b;
     status_notifications_id_seq := status_notifications_id_seq b;
     meterValues := meterValues b;
     meter_values_id_seq := meter_values_id_seq b;
     heartbeatQueue := heartbeatQueue b;
     statusNotificationQueue := statusNotificationQueue b |}.

Definition insert_statusNotification (row : option StatusNotification)
    (b : Backend) : Backend :=
  {| core := core b;
     heartbeats := heartbeats b; heartbeats_id_seq := heartbeats_id_seq b;
     authorizations := authorizations b;
     authorizations_id_seq := authorizations_id_seq b;
     statusNotifications :=
       match row with
       | Some r => statusNotifications b ++ [r]
       | None => statusNotifications b
       end;
     status_notifications_id_seq := status_notifications_id_seq b + 1;
     meterValues := meterValues b;
     meter_values_id_seq := meter_values_id_seq b;
     heartbeatQueue := heartbeatQueue b;
     statusNotificationQueue := statusNotificationQueue b |}.

Definition set_heartbeatQueue (q : list (BullJob HeartbeatJob)) (b : Backend)
  : Backend :=
  {| core := core b;
     heartbeats := heartbeats b; heartbeats_id_seq := heartbeats_id_seq b;
     authorizations := authorizations b;
     authorizations_id_seq := authorizations_id_seq b;
     statusNotifications := statusNotifications b;
     status_notifications_id_seq := status_notifications_id_seq b;
     meterValues := meterValues b;
     meter_values_id_seq := meter_values_id_seq b;
     heartbeatQueue := q;
     statusNotificationQueue := statusNotificationQueue b |}.

Definition set_statusNotificationQueue
    (q : list (BullJob StatusNotificationJob)) (b : Backend) : Backend :=
  {| core := core b;
     heartbeats := heartbeats b; heartbeats_id_seq := heartbeats_id_seq b;
     authorizations := authorizations b;
     authorizations_id_seq := authorizations_id_seq b;
     statusNotifications := statusNotifications b;
     status_notifications_id_seq := status_notifications_id_seq b;
     meterValues := meterValues b;
     meter_values_id_seq := meter_values_id_seq b;
     heartbeatQueue := heartbeatQueue b;
     statusNotificationQueue := q |}.

(** The outcome of a multi-row [INSERT] into [meter_values]: the
    sequence has given one id per row, and the rows are there when the
    statement went through. *)
Definition insert_meterValues (n : nat) (rows : list MeterValueRow)
    (b : Backend) : Backend :=
  {| core := core b;
     heartbeats := heartbeats b; heartbeats_id_seq := heartbeats_id_seq b;
     authorizations := authorizations b;
     authorizations_id_seq := authorizations_id_seq b;
     statusNotifications := statusNotifications b;
     status_notifications_id_seq := status_notifications_id_seq b;
     meterValues := meterValues b ++ rows;
     meter_values_id_seq := meter_values_id_seq b + Z.of_nat n;
     heartbeatQueue := heartbeatQueue b;
     statusNotificationQueue := statusNotificationQueue b |}.

(** The four tables empty and the queues idle around a world. *)
Definition backend_of (w : World) : Backend :=
  {| core := w;
     heartbeats := []; heartbeats_id_seq := 1;
     authorizations := []; authorizations_id_seq := 1;
     statusNotifications := []; status_notifications_id_seq := 1;
     meterValues := []; meter_values_id_seq := 1;
     heartbeatQueue := []; statusNotificationQueue := [] |}.

(** ** The monad over [Backend] *)

Definition MB (A : Type) : Type := Backend -> Outcome A * Backend.

Definition retB {A} (a : A) : MB A := fun b => (Return a, b).

Definition throwB {A} (e : Exn) : MB A := fun b => (Throw e, b).

Definition bindB {A C} (m : MB A) (f : A -> MB C) : MB C :=
  fun b =>
    match m b with
    | (Return a, b') => f a b'
    | (Throw e, b') => (Throw e, b')
    end.

(** A call that works on the tables of [World]. *)
Definition lift {A} (m : M A) : MB A :=
  fun b =>
    match m (core b) with
    | (r, w') => (r, set_core w' b)
    end.

Declare Scope backend_scope.
Delimit Scope backend_scope with backend.
Notation "x <- m ;; k" := (bindB m (fun x => k))
  (at level 61, m at next level, right associativity) : backend_scope.
Notation "m ;;; k" := (bindB m (fun _ => k))
  (at level 61, right associativity) : backend_scope.

(** ** The Prisma client over the three tables *)

(** Error P2003 on the foreign key [name]. *)
Definition foreign_key_violated (name : string) : Exn :=
  PrismaClientKnownRequestError "P2003"
    ("Foreign key constraint violated: `" +++ name +++ " (index)`").

Module heartbeat.

(** [INSERT INTO heartbeats]: the key comes from the sequence, and
    [heartbeats_cp_id_fkey] wants a row of [charge_points]. *)
Definition create (c : string) (ts : Z) : MB Heartbeat :=
  fun b =>
    if existsb (is_cp c) (chargePoints (core b)) then
      let row := {| hb_id := heartbeats_id_seq b; hb_cpId := c;
                    hb_timestamp := ts |} in
      (Return row, insert_heartbeat (Some row) b)
    else (Throw (foreign_key_violated "heartbeats_cp_id_fkey"),
          insert_heartbeat None b).

End heartbeat.

Module authorization.

Definition create (c tag st : string) (expiry : option Z) (ts : Z)
  : MB Authorization :=
  fun b =>
    if existsb (is_cp c) (chargePoints (core b)) then
      let row := {| au_id := authorizations_id_seq b; au_cpId := c;
                    au_idTag := tag; au_status := st;
                    au_expiryDate := expiry; au_timestamp := ts |} in
      (Return row, insert_authorization (Some row) b)
    else (Throw (foreign_key_violated "authorizations_cp_id_fkey"),
          insert_authorization None b).

End authorization.

Module statusNotification.

Definition create (data : StatusNotificationData) (ts : Z)
  : MB StatusNotification :=
  fun b =>
    if existsb (is_cp (sd_cpId data)) (chargePoints (core b)) then
      let row := {| sn_id := status_notifications_id_seq b;
                    sn_cpId := sd_cpId data;
                    sn_connectorId := sd_connectorId data;
                    sn_status := sd_status data;
                    sn_errorCode := sd_errorCode data;
                    sn_info := sd_info data;
                    sn_vendorId := sd_vendorId data;
                    sn_vendorErrorCode := sd_vendorErrorCode data;
                    sn_timestamp := ts;
                    sn_additionalInfo := sd_additionalInfo data |} in
      (Return row, insert_statusNotification (Some row) b)
    else (Throw (foreign_key_violated "status_notifications_cp_id_fkey"),
          insert_statusNotification None b).

End statusNotification.

(** ** [OcppService]: heartbeats, authorizations, status notifications *)

Definition recordHeartbeat (c : string) : MB unit :=
  (now <- lift newDate ;;
   heartbeat.create c now ;;;
   lift (OcppService.updateLastSeen c) ;;;
   retB tt)%backend.

Definition recordStatusNotification (data : StatusNotificationData)
  : MB StatusNotification :=
  (now <- lift newDate ;;
   statusNotification.create data now)%backend.

(** ** [QueueService]: the other two queues *)

Definition queueHeartbeat (data : HeartbeatJob) : MB (BullJob HeartbeatJob) :=
  fun b =>
    let job :=
      {| bj_name := "process-heartbeat"; bj_data := data;
         bj_attempts := 3; bj_backoffType := "exponential";
         bj_backoffDelay := 2000 |} in
    (Return job, set_heartbeatQueue (heartbeatQueue b ++ [job]) b).

Definition queueStatusNotification (data : StatusNotificationJob)
  : MB (BullJob StatusNotificationJob) :=
  fun b =>
    let job :=
      {| bj_name := "process-status-notification"; bj_data := data;
         bj_attempts := 3; bj_backoffType := "exponential";
         bj_backoffDelay := 2000 |} in
    (Return job,
     set_statusNotificationQueue (statusNotificationQueue b ++ [job]) b).

(** ** [QueueProcessor]: the callbacks of the two queues *)

(** [try { await f } catch (error) { log; throw error }] is [f]. *)
Definition processHeartbeat (job : BullJob HeartbeatJob) : MB unit :=
  recordHeartbeat (hj_cpId (bj_data job)).

Definition processStatusNotification (job : BullJob StatusNotificationJob)
  : MB unit :=
  (recordStatusNotification
     {| sd_cpId := sj_cpId (bj_data job);
        sd_connectorId := sj_connectorId (bj_data job);
        sd_status := sj_status (bj_data job);
        sd_errorCode := sj_errorCode (bj_data job);
        sd_info := sj_info (bj_data job);
        sd_vendorId := sj_vendorId (bj_data job);
        sd_vendorErrorCode := sj_vendorErrorCode (bj_data job);
        sd_additionalInfo := sj_additionalInfo (bj_data job) |} ;;;
   retB tt)%backend.

(** ** The schemas of Heartbeat, Authorize and StatusNotification *)

(** [z.object({})]: any object, its members dropped. *)
Definition HeartbeatRequestSchema (v : JSON) : option unit :=
  match v with
  | JObj _ => Some tt
  | _ => None
  end.

Record AuthorizeRequest := {
  ar_idTag : string
}.

Definition AuthorizeRequestSchema (v : JSON) : option AuthorizeRequest :=
  match v with
  | JObj o =>
      match z_string (obj_get "idTag" o) with
      | Some tag => Some {| ar_idTag := tag |}
      | None => None
      end
  | _ => None
  end.

Record StatusNotificationRequest := {
  snr_connectorId : Z;
  snr_errorCode : string;
  snr_status : string;
  snr_timestamp : option string;
  snr_info : option string;
  snr_vendorId : option string;
  snr_vendorErrorCode : option string
}.

Definition StatusNotificationRequestSchema (v : JSON)
  : option StatusNotificationRequest :=
  match v with
  | JObj o =>
      match z_number (obj_get "connectorId" o),
            z_string (obj_get "errorCode" o),
            z_string (obj_get "status" o),
            z_optional z_string (obj_get "timestamp" o),
            z_optional z_string (obj_get "info" o),
            z_optional z_string (obj_get "vendorId" o),
            z_optional z_string (obj_get "vendorErrorCode" o) with
      | Some conn, Some code, Some st, Some ts, Some info, Some vendor,
        Some vcode =>
          Some {| snr_connectorId := conn; snr_errorCode := code;
                  snr_status := st; snr_timestamp := ts; snr_info := info;
                  snr_vendorId := vendor; snr_vendorErrorCode := vcode |}
      | _, _, _, _, _, _, _ => None
      end
  | _ => None
  end.

(** ** [OcppController]: the handlers of the three actions *)

Definition handleHeartbeat (c : string) (payload : JSON) : MB JSON :=
  match HeartbeatRequestSchema payload with
  | None => throwB (ZodError "Invalid input")
  | Some _ =>
      (queued <- lift newDate ;;
       queueHeartbeat {| hj_cpId := c; hj_timestamp := toISOString queued |} ;;;
       now <- lift newDate ;;
       retB (JObj [("currentTime", JStr (toISOString now))]))%backend
  end.

Definition handleStatusNotification (c : string) (payload : JSON) : MB JSON :=
  match StatusNotificationRequestSchema payload with
  | None => throwB (ZodError "Invalid input")
  | Some validated =>
      (now <- lift newDate ;;
       queueStatusNotification
         {| sj_cpId := c;
            sj_connectorId := snr_connectorId validated;
            sj_status := snr_status validated;
            sj_errorCode := Some (snr_errorCode validated);
            sj_info := snr_info validated;
            sj_vendorId := snr_vendorId validated;
            sj_vendorErrorCode := snr_vendorErrorCode validated;
            sj_timestamp := toISOString now;
            sj_additionalInfo := Some payload |} ;;;
       retB (JObj []))%backend
  end.

Section Authorize.

(** [d.setHours(d.getHours() + 24)] on the instant [d]: the same time of
    day one calendar day later in the zone of the server. Which instant
    that is depends on the zone, so it stays a parameter. *)
Variable setHours_plus_24 : Z -> Z.

Definition authorize (c : string) (tag : string) : MB Authorization :=
  (created <- lift newDate ;;
   let expiryDate := setHours_plus_24 created in
   now <- lift newDate ;;
   authorization.create c tag "Accepted" (Some expiryDate) now)%backend.

Definition handleAuthorize (c : string) (payload : JSON) : MB JSON :=
  match AuthorizeRequestSchema payload with
  | None => throwB (ZodError "Invalid input")
  | Some validated =>
      (authorize c (ar_idTag validated) ;;;
       now <- lift newDate ;;
       retB (JObj [("idTagInfo",
                    JObj [("status", JStr "Accepted");
                          ("expiryDate",
                           JStr (toISOString (now + 24 * 60 * 60 * 1000)))])]))%backend
  end.

End Authorize.

(** A StatusNotification payload that carries a timestamp of its own. *)
Definition payload_status : JSON :=
  JObj [("connectorId", JNum 1);
        ("errorCode", JStr "NoError");
        ("status", JStr "Charging");
        ("timestamp", JStr "2020-01-01T00:00:00.000Z")].

(** A heartbeat job of CP001 that was queued long ago. *)
Definition job_heartbeat_CP001 : BullJob HeartbeatJob :=
  {| bj_name := "process-heartbeat";
     bj_data := {| hj_cpId := "CP001";
                   hj_timestamp := "2020-01-01T00:00:00.000Z" |};
     bj_attempts := 3; bj_backoffType := "exponential";
     bj_backoffDelay := 2000 |}.

(** A StopTransaction payload with transactionId 0 and the tag of
    transaction 1. *)
Definition payload_stop_zero : JSON :=
  JObj [("transactionId", JNum 0);
        ("meterStop", JNum 2000);
        ("timestamp", JStr "2025-09-22T10:30:00.000Z");
        ("idTag", JStr "RFID123456")].

(* ================================================================== *)
(** * The handlers that read a timestamp *)

(** ** Meter values in the database *)

(** One element of [data] in [meterValue.createMany]. *)
Record MeterValueData := {
  mvd_cpId : string;
  mvd_connectorId : Z;
  mvd_transactionId : option Z;
  mvd_timestamp : Z;
  mvd_value : string;
  mvd_context : option string;
  mvd_format : option string;
  mvd_measurand : option string;
  mvd_phase : option string;
  mvd_location : option string;
  mvd_unit : option string
}.

(** The rows a multi-row [INSERT] makes of [records], the first under
    the key [id]. *)
Fixpoint numbered (id : Z) (records : list MeterValueData)
  : list MeterValueRow :=
  match records with
  | [] => []
  | r :: rest =>
      {| mrow_id := id; mrow_cpId := mvd_cpId r;
         mrow_connectorId := mvd_connectorId r;
         mrow_transactionId := mvd_transactionId r;
         mrow_timestamp := mvd_timestamp r; mrow_value := mvd_value r;
         mrow_context := mvd_context r; mrow_format := mvd_format r;
         mrow_measurand := mvd_measurand r; mrow_phase := mvd_phase r;
         mrow_location := mvd_location r; mrow_unit := mvd_unit r |}
      :: numbered (id + 1) rest
  end.

Module meterValue.

(** [createMany({ data })]: one [INSERT] for all rows, so all rows or
    none. [meter_values_cp_id_fkey] wants a row of [charge_points] and
    [meter_values_transaction_id_fkey] a row of [transactions] when a
    transaction is named; the sequence gives an id to every row before
    the keys are checked. The result is the count. *)
Definition createMany (data : list MeterValueData) : MB Z :=
  fun b =>
    let n := List.length data in
    if negb (forallb (fun r => existsb (is_cp (mvd_cpId r))
                                       (chargePoints (core b))) data)
    then (Throw (foreign_key_violated "meter_values_cp_id_fkey"),
          insert_meterValues n [] b)
    else if negb (forallb
                    (fun r =>
                       match mvd_transactionId r with
                       | Some id => existsb (has_id id) (transactions (core b))
                       | None => true
                       end) data)
    then (Throw (foreign_key_violated "meter_values_transaction_id_fkey"),
          insert_meterValues n [] b)
    else (Return (Z.of_nat n),
          insert_meterValues n (numbered (meter_values_id_seq b) data) b).

End meterValue.

(** One element of [data.meterValues] in [recordMeterValues]. *)
Record MeterReading := {
  rd_timestamp : Z;
  rd_value : string;
  rd_context : option string;
  rd_format : option string;
  rd_measurand : option string;
  rd_phase : option string;
  rd_location : option string;
  rd_unit : option string
}.

(** The argument of [recordMeterValues]. *)
Record MeterValuesData := {
  mvs_cpId : string;
  mvs_connectorId : Z;
  mvs_transactionId : option Z;
  mvs_meterValues : list MeterReading
}.

Definition recordMeterValues (data : MeterValuesData) : MB Z :=
  let records :=
    map (fun mv =>
           {| mvd_cpId := mvs_cpId data;
              mvd_connectorId := mvs_connectorId data;
              mvd_transactionId := mvs_transactionId data;
              mvd_timestamp := rd_timestamp mv;
              mvd_value := rd_value mv;
              mvd_context := rd_context mv;
              mvd_format := rd_format mv;
              mvd_measurand := rd_measurand mv;
              mvd_phase := rd_phase mv;
              mvd_location := rd_location mv;
              mvd_unit := rd_unit mv |})
        (mvs_meterValues data) in
  meterValue.createMany records.

(** ** The StartTransaction schema *)

Record StartTransactionRequest := {
  str_connectorId : Z;
  str_idTag : string;
  str_meterStart : Z;
  str_reservationId : option Z;
  str_timestamp : string
}.

Definition StartTransactionRequestSchema (v : JSON)
  : option StartTransactionRequest :=
  match v with
  | JObj o =>
      match z_number (obj_get "connectorId" o),
            z_string (obj_get "idTag" o),
            z_number (obj_get "meterStart" o),
            z_optional z_number (obj_get "reservationId" o),
            z_string (obj_get "timestamp" o) with
      | Some conn, Some tag, Some mStart, Some reservation, Some ts =>
          Some {| str_connectorId := conn; str_idTag := tag;
                  str_meterStart := mStart; str_reservationId := reservation;
                  str_timestamp := ts |}
      | _, _, _, _, _ => None
      end
  | _ => None
  end.

Section Timestamps.

(** [new Date(s)] on a timestamp [Date] can read, as the ISO 8601
    timestamps of the protocol are: the instant it denotes. A string
    [Date] cannot read gives an invalid [Date], which has no epoch value
    and is outside this model. *)
Variable Date_of_string : string -> Z.

Definition handleStartTransaction (c : string) (payload : JSON) : M JSON :=
  match StartTransactionRequestSchema payload with
  | None => throw (ZodError "Invalid input")
  | Some validated =>
      transaction <-
        OcppService.startTransaction
          {| ct_cpId := c;
             ct_connectorId := str_connectorId validated;
             ct_idTag := str_idTag validated;
             ct_meterStart := Some (str_meterStart validated);
             ct_startTimestamp := Date_of_string (str_timestamp validated) |} ;;
      ret (JObj [("transactionId", JNum (transactionId transaction));
                 ("idTagInfo", JObj [("status", JStr "Accepted")])])
  end.

(** The callback of the meter-values queue. The readings of a job have
    the members the controller gave them; the spread keeps them and the
    timestamp becomes a [Date]. *)
Definition processMeterValues (job : BullJob MeterValuesJob) : MB unit :=
  let meterValues :=
    map (fun mv =>
           {| rd_timestamp := Date_of_string (fr_timestamp mv);
              rd_value := fr_value mv;
              rd_context := None;
              rd_format := None;
              rd_measurand := fr_measurand mv;
              rd_phase := fr_phase mv;
              rd_location := None;
              rd_unit := fr_unit mv |})
        (job_meterValues (bj_data job)) in
  (recordMeterValues
     {| mvs_cpId := job_cpId (bj_data job);
        mvs_connectorId := job_connectorId (bj_data job);
        mvs_transactionId := job_transactionId (bj_data job);
        mvs_meterValues := meterValues |} ;;;
   retB tt)%backend.

End Timestamps.

(** A StartTransaction payload for connector 2. *)
Definition payload_start : JSON :=
  JObj [("connectorId", JNum 2);
        ("idTag", JStr "RFID123456");
        ("meterStart", JNum 1000);
        ("timestamp", JStr "2025-09-22T10:26:40.000Z")].

(** The instants of the timestamps in the sample payloads. *)
Definition sample_Date_of_string (s : string) : Z :=
  if (s =? "2025-09-22T10:26:40.000Z")%string then 1758536800000
  else if (s =? "2025-09-22T10:26:54.000Z")%string then 1758536814000
  else if (s =? "2025-09-22T10:27:54.000Z")%string then 1758536874000
  else 0.

(** A meter-values job of CP001 for transaction 1, with the readings of
    the payload of two entries. *)
Definition job_2_and_1 : BullJob MeterValuesJob :=
  {| bj_name := "process-meter-values";
     bj_data :=
       {| job_cpId := "CP001"; job_connectorId := 1;
          job_transactionId := Some 1;
          job_meterValues :=
            OcppController.flatten
              (match MeterValuesRequestSchema payload_2_and_1 with
               | Some validated => mvr_meterValue validated
               | None => []
               end) |};
     bj_attempts := 3; bj_backoffType := "exponential";
     bj_backoffDelay := 2000 |}.

(* ================================================================== *)
(** * Properties *)

(** ** Bookkeeping lemmas *)

Lemma matches_start_where c n t :
  matches {| where_cpId := Some c; where_connectorId := Some n;
             where_idTag := None; where_status := Some "active" |} t
  = active_on c n t.
Proof.
  unfold matches, active_on; simpl. now rewrite andb_true_r.
Qed.

Lemma matches_active_of c t :
  matches {| where_cpId := Some c; where_connectorId := None;
             where_idTag := None; where_status := Some "active" |} t
  = active_of c t.
Proof.
  unfold matches, active_of; simpl. now rewrite !andb_true_r.
Qed.

Lemma matches_active_with c tag t :
  matches {| where_cpId := Some c; where_connectorId := None;
             where_idTag := Some tag; where_status := Some "active" |} t
  = active_with c tag t.
Proof.
  unfold matches, active_with; simpl. now rewrite andb_true_r.
Qed.

Lemma start_lookup_eq data w :
  OcppService.startTransaction_lookup data w
  = (Return (hd_error (filter (active_on (ct_cpId data) (ct_connectorId data))
                              (transactions w))), w).
Proof.
  unfold OcppService.startTransaction_lookup, prisma.transaction.findFirst.
  simpl. f_equal. f_equal. f_equal.
  apply filter_ext. intro t. apply matches_start_where.
Qed.

Lemma startTransaction_eq data w :
  OcppService.startTransaction data w
  = OcppService.startTransaction_decide data
      (hd_error (filter (active_on (ct_cpId data) (ct_connectorId data))
                        (transactions w))) w.
Proof.
  unfold OcppService.startTransaction, bind. now rewrite start_lookup_eq.
Qed.

(** Under exclusivity the lookup of a connector has one possible answer. *)
Lemma exclusive_lookup txs c n t :
  exclusive txs -> In t txs -> active_on c n t = true ->
  filter (active_on c n) txs = [t].
Proof.
  intros Hex Hin Hact.
  assert (Hf : In t (filter (active_on c n) txs)) by (apply filter_In; auto).
  specialize (Hex c n).
  destruct (filter (active_on c n) txs) as [|a [|b l]]; simpl in *.
  - contradiction.
  - destruct Hf as [->|[]]. reflexivity.
  - lia.
Qed.

Lemma active_on_created c n tag mStart start info id :
  active_on c n
    {| transactionId := id; cpId := c; connectorId := n; idTag := tag;
       meterStart := mStart; startTimestamp := start; meterStop := None;
       stopTimestamp := None; stopReason := None; stopIdTag := None;
       status := "active"; additionalInfo := info |} = true.
Proof.
  unfold active_on; simpl. now rewrite String.eqb_refl, Z.eqb_refl.
Qed.

(** ** C2: idempotent start *)

(** A start under the tag of the active transaction the lookup finds. *)
Lemma start_replay w data t :
  exclusive (transactions w) ->
  In t (transactions w) ->
  active_on (ct_cpId data) (ct_connectorId data) t = true ->
  idTag t = ct_idTag data ->
  OcppService.startTransaction data w = (Return t, w).
Proof.
  intros Hex Hin Hact Htag.
  rewrite startTransaction_eq, (exclusive_lookup _ _ _ _ Hex Hin Hact). simpl.
  rewrite Htag, String.eqb_refl. reflexivity.
Qed.


(** A start under another tag than the active transaction the lookup
    finds. *)
Lemma start_conflict w data t :
  exclusive (transactions w) ->
  In t (transactions w) ->
  active_on (ct_cpId data) (ct_connectorId data) t = true ->
  idTag t <> ct_idTag data ->
  OcppService.startTransaction data w
  = (Throw (Error ("Connector " +++ show_Z (ct_connectorId data)
                     +++ " already has an active transaction")), w).
Proof.
  intros Hex Hin Hact Htag.
  rewrite startTransaction_eq, (exclusive_lookup _ _ _ _ Hex Hin Hact). simpl.
  apply String.eqb_neq in Htag. rewrite Htag. reflexivity.
Qed.



Lemma exclusive_w_booted : exclusive (transactions w_booted).
Proof. intros c n. simpl. lia. Qed.


(** ** C3: conflict detection *)



(* ================================================================== *)
(** ** Every call changes the table in one of three ways *)

Lemma tx_changes_one txs txs' : tx_change txs txs' -> tx_changes txs txs'.
Proof. intro H. eapply changes_step; [exact H | apply changes_refl]. Qed.

Lemma tx_changes_trans txs1 txs2 txs3 :
  tx_changes txs1 txs2 -> tx_changes txs2 txs3 -> tx_changes txs1 txs3.
Proof.
  induction 1 as [|a b c Hab Hbc IH]; intro H; [exact H|].
  eapply changes_step; [exact Hab | exact (IH H)].
Qed.

Lemma hd_insert_desc t l :
  hd_error (insert_desc t l)
  = match hd_error l with
    | None => Some t
    | Some x => if startTimestamp x <=? startTimestamp t then Some t else Some x
    end.
Proof.
  destruct l as [|x l]; simpl; [reflexivity|].
  destruct (startTimestamp x <=? startTimestamp t); reflexivity.
Qed.

(** The first row of the descending sort is the most recently started. *)
Lemma hd_sort_desc l : hd_error (sort_desc l) = most_recent l.
Proof.
  induction l as [|t l IH]; simpl; [reflexivity|].
  rewrite hd_insert_desc, IH. reflexivity.
Qed.

Lemma stopTransaction_search_eq data w :
  OcppService.stopTransaction_search data w
  = (resolved (most_recent (filter (matches (OcppService.stop_where data))
                                   (transactions w))), w).
Proof.
  unfold OcppService.stopTransaction_search, bind, prisma.transaction.findFirst.
  simpl. rewrite hd_sort_desc.
  destruct (most_recent _); reflexivity.
Qed.

(** A stop that names no transaction, or transaction 0, searches. *)
Lemma stopTransaction_resolve_search data :
  st_transactionId data = None \/ st_transactionId data = Some 0 ->
  OcppService.stopTransaction_resolve data = OcppService.stopTransaction_search data.
Proof.
  unfold OcppService.stopTransaction_resolve. now intros [-> | ->].
Qed.

Lemma stopTransaction_resolve_world data w :
  snd (OcppService.stopTransaction_resolve data w) = w.
Proof.
  unfold OcppService.stopTransaction_resolve.
  destruct (st_transactionId data) as [n|];
    [destruct (n =? 0)|]; try reflexivity;
    now rewrite stopTransaction_search_eq.
Qed.

Lemma update_changes id u w :
  set_status u = None \/ set_status u = Some "completed" ->
  tx_change (transactions w) (transactions (snd (prisma.transaction.update id u w))).
Proof.
  intro Hu. unfold prisma.transaction.update.
  destruct (find (has_id id) (transactions w)); simpl.
  - now apply tx_updated.
  - apply tx_same.
Qed.

Lemma stopTransaction_changes data w :
  tx_change (transactions w)
            (transactions (snd (OcppService.stopTransaction data w))).
Proof.
  unfold OcppService.stopTransaction, bind.
  pose proof (stopTransaction_resolve_world data w) as Hw.
  destruct (OcppService.stopTransaction_resolve data w) as [[id|e] w1];
    simpl in Hw; subst w1; simpl.
  - apply (update_changes id _ (set_reads (S (reads w)) w)). now right.
  - apply tx_same.
Qed.

Lemma resumeTransaction_changes id w :
  tx_change (transactions w)
            (transactions (snd (OcppService.resumeTransaction id w))).
Proof.
  unfold OcppService.resumeTransaction, bind, prisma.transaction.findUnique.
  simpl. destruct (find (has_id id) (transactions w)) as [t|]; simpl.
  - apply (update_changes id _ (set_reads (S (reads w)) w)). now left.
  - apply tx_same.
Qed.

Lemma startTransaction_changes data w :
  tx_change (transactions w)
            (transactions (snd (OcppService.startTransaction data w))).
Proof.
  rewrite startTransaction_eq.
  destruct (filter (active_on (ct_cpId data) (ct_connectorId data)) (transactions w))
    as [|e l] eqn:Hf; simpl.
  - unfold prisma.transaction.create.
    destruct (existsb _ _); simpl; [|apply tx_same].
    apply tx_created. exact Hf.
  - destruct (idTag e =? ct_idTag data)%string; apply tx_same.
Qed.

Lemma forEach_resume_changes l w :
  tx_changes (transactions w)
    (transactions
       (snd (forEach (fun t => OcppService.resumeTransaction (transactionId t) ;;; ret tt)
                     l w))).
Proof.
  revert w. induction l as [|t l IH]; intro w; simpl.
  - apply changes_refl.
  - unfold bind at 1. unfold bind at 1.
    pose proof (resumeTransaction_changes (transactionId t) w) as Hstep.
    destruct (OcppService.resumeTransaction (transactionId t) w) as [[r|e] w1];
      simpl in *.
    + eapply changes_step; [exact Hstep | apply IH].
    + now apply tx_changes_one.
Qed.

Lemma handleReconnection_resume_changes l w :
  tx_changes (transactions w)
    (transactions (snd (OcppController.handleReconnection_resume l w))).
Proof.
  unfold OcppController.handleReconnection_resume.
  unfold bind at 1.
  destruct (0 <? Z.of_nat (List.length l)).
  - pose proof (forEach_resume_changes l w) as H.
    destruct (forEach _ l w) as [[[]|e] w1]; exact H.
  - apply changes_refl.
Qed.

Lemma handleReconnection_changes c w :
  tx_changes (transactions w)
    (transactions (snd (OcppController.handleReconnection c w))).
Proof.
  unfold OcppController.handleReconnection, bind at 1.
  unfold OcppService.getActiveTransactions, prisma.transaction.findMany.
  apply handleReconnection_resume_changes.
Qed.

Lemma setChargePointStatus_transactions c s w :
  transactions (snd (OcppService.setChargePointStatus c s w)) = transactions w.
Proof.
  unfold OcppService.setChargePointStatus.
  destruct (c =? "unknown")%string; unfold bind.
  - reflexivity.
  - unfold prisma.chargePoint.update.
    destruct (find (is_cp c) (chargePoints w)); reflexivity.
Qed.

Lemma updateLastSeen_transactions c w :
  transactions (snd (OcppService.updateLastSeen c w)) = transactions w.
Proof.
  unfold OcppService.updateLastSeen, bind, prisma.chargePoint.update. simpl.
  destruct (find (is_cp c) (chargePoints w)); reflexivity.
Qed.

Lemma registerChargePoint_transactions data w :
  transactions (snd (OcppService.registerChargePoint data w)) = transactions w.
Proof.
  unfold OcppService.registerChargePoint, bind, prisma.chargePoint.upsert. simpl.
  destruct (find (is_cp (rg_cpId data)) (chargePoints w)); reflexivity.
Qed.

Lemma handleMeterValues_transactions c payload w :
  transactions (snd (OcppController.handleMeterValues c payload w)) = transactions w.
Proof.
  unfold OcppController.handleMeterValues.
  destruct (MeterValuesRequestSchema payload); reflexivity.
Qed.

(** Whatever the request, the table it leaves is reached from the one
    it found by writes of the three shapes. *)
Lemma exec_changes r w :
  tx_changes (transactions w) (transactions (exec r w)).
Proof.
  destruct r; unfold exec, swallow.
  - rewrite registerChargePoint_transactions. apply changes_refl.
  - rewrite updateLastSeen_transactions. apply changes_refl.
  - rewrite setChargePointStatus_transactions. apply changes_refl.
  - apply tx_changes_one, startTransaction_changes.
  - apply tx_changes_one, stopTransaction_changes.
  - apply tx_changes_one, resumeTransaction_changes.
  - apply changes_refl.
  - rewrite handleMeterValues_transactions. apply changes_refl.
  - apply handleReconnection_changes.
  - unfold SimpleOcppServer.open, swallow. simpl.
    rewrite <- (setChargePointStatus_transactions (SimpleOcppServer.extractCpId url)
                  "Online" w) at 1.
    apply handleReconnection_changes.
  - unfold SimpleOcppServer.close, swallow.
    rewrite setChargePointStatus_transactions, updateLastSeen_transactions.
    apply changes_refl.
Qed.

(* ================================================================== *)
(** ** C1: exclusivity per connector *)

Lemma active_on_true c n t :
  active_on c n t = true <-> cpId t = c /\ connectorId t = n /\ status t = "active".
Proof.
  unfold active_on. rewrite !andb_true_iff, !String.eqb_eq, Z.eqb_eq. tauto.
Qed.

Lemma active_on_updated c n u t :
  set_status u = None \/ set_status u = Some "completed" ->
  active_on c n (apply_update u t) = true -> active_on c n t = true.
Proof.
  intros [Hu|Hu]; unfold active_on, apply_update; simpl; rewrite Hu; simpl.
  - trivial.
  - rewrite andb_false_r. discriminate.
Qed.

Lemma filter_rewrite_le c n id u txs :
  set_status u = None \/ set_status u = Some "completed" ->
  (List.length (filter (active_on c n) (rewrite_id id (apply_update u) txs))
   <= List.length (filter (active_on c n) txs))%nat.
Proof.
  intro Hu. induction txs as [|t txs IH]; simpl; [lia|].
  destruct (has_id id t).
  - destruct (active_on c n (apply_update u t)) eqn:E.
    + rewrite (active_on_updated c n u t Hu E). simpl. lia.
    + destruct (active_on c n t); simpl; lia.
  - destruct (active_on c n t); simpl; lia.
Qed.

Lemma tx_change_exclusive txs txs' :
  tx_change txs txs' -> exclusive txs -> exclusive txs'.
Proof.
  intros [|id u Hu|row Hfree] Hex c n.
  - apply Hex.
  - specialize (Hex c n). pose proof (filter_rewrite_le c n id u txs Hu). lia.
  - rewrite filter_app, length_app. simpl.
    destruct (active_on c n row) eqn:E; simpl.
    + apply active_on_true in E. destruct E as (<- & <- & _).
      rewrite Hfree. simpl. lia.
    + specialize (Hex c n). lia.
Qed.

Lemma tx_changes_exclusive txs txs' :
  tx_changes txs txs' -> exclusive txs -> exclusive txs'.
Proof.
  induction 1 as [|a b c Hab Hbc IH]; intro Hex; [exact Hex|].
  apply IH. exact (tx_change_exclusive a b Hab Hex).
Qed.

(** Served one at a time, the requests keep connectors exclusive. *)
Lemma exec_exclusive r w :
  exclusive (transactions w) -> exclusive (transactions (exec r w)).
Proof. apply tx_changes_exclusive, exec_changes. Qed.

Lemma run_exclusive rs w :
  exclusive (transactions w) -> exclusive (transactions (run rs w)).
Proof.
  revert w. induction rs as [|r rs IH]; intros w Hex; simpl; [exact Hex|].
  apply IH, exec_exclusive, Hex.
Qed.

Lemma sequential_exclusive rs clk :
  exclusive (transactions (run rs (init clk))).
Proof. apply run_exclusive. intros c n. simpl. lia. Qed.

(** C1. The exclusivity of active transactions per connector rests on
    the lookup of [startTransaction] alone: the table accepts a second
    active row for a connector. Two starts for connector 1 of CP001 whose
    lookups both run before either [create] (each is answered "none" and
    leaves the world as it is) end with transactions 1 and 2 both active
    on that connector. *)
Theorem startTransaction_race_two_active :
  exclusive (transactions w_booted)
  /\ OcppService.startTransaction_lookup start_RFID123456 w_booted
     = (Return None, w_booted)
  /\ OcppService.startTransaction_lookup start_DIFFERENT_RFID w_booted
     = (Return None, w_booted)
  /\ (let w1 := snd (OcppService.startTransaction_decide start_RFID123456 None w_booted) in
      let w2 := snd (OcppService.startTransaction_decide start_DIFFERENT_RFID None w1) in
      map (fun t => (transactionId t, idTag t, status t))
          (filter (active_on "CP001" 1) (transactions w2))
      = [(1, "RFID123456", "active"); (2, "DIFFERENT_RFID", "active")]
      /\ ~ exclusive (transactions w2)).
Proof.
  split; [exact exclusive_w_booted|].
  split; [reflexivity|]. split; [reflexivity|].
  split; [reflexivity|].
  intro Hex. specialize (Hex "CP001" 1). vm_compute in Hex. lia.
Qed.

(* ================================================================== *)
(** ** C4 and C5: which transaction a stop resolves to *)

Lemma most_recent_none l : most_recent l = None -> l = [].
Proof.
  destruct l as [|t l]; simpl; [reflexivity|].
  destruct (most_recent l) as [r|]; [|discriminate].
  destruct (startTimestamp r <=? startTimestamp t); discriminate.
Qed.

(** [most_recent] returns a row of the list that no row of the list
    was started after. *)
Lemma most_recent_latest l t :
  most_recent l = Some t ->
  In t l /\ forall x, In x l -> startTimestamp x <= startTimestamp t.
Proof.
  revert t. induction l as [|a l IH]; intros t H; simpl in H; [discriminate|].
  destruct (most_recent l) as [r|] eqn:Er.
  - destruct (IH r eq_refl) as [Hin Hmax].
    destruct (startTimestamp r <=? startTimestamp a) eqn:Hc; injection H as <-.
    + apply Z.leb_le in Hc. split; [now left|].
      intros x [<-|Hx]; [lia|]. specialize (Hmax x Hx). lia.
    + apply Z.leb_gt in Hc. split; [now right|].
      intros x [<-|Hx]; [lia|]. now apply Hmax.
  - injection H as <-. apply most_recent_none in Er. subst l.
    split; [now left|]. intros x [<-|[]]. lia.
Qed.

Lemma stop_where_connector data n :
  st_connectorId data = Some n ->
  OcppService.stop_where data
  = {| where_cpId := Some (st_cpId data); where_connectorId := Some n;
       where_idTag := None; where_status := Some "active" |}.
Proof. intro H. unfold OcppService.stop_where. now rewrite H. Qed.

Lemma stop_where_tag data tag :
  st_connectorId data = None -> st_idTag data = Some tag -> tag <> "" ->
  OcppService.stop_where data
  = {| where_cpId := Some (st_cpId data); where_connectorId := None;
       where_idTag := Some tag; where_status := Some "active" |}.
Proof.
  intros Hc Ht Hne. unfold OcppService.stop_where. rewrite Hc, Ht.
  unfold nonempty. apply String.eqb_neq in Hne. now rewrite Hne.
Qed.

Lemma stop_where_bare data :
  st_connectorId data = None ->
  st_idTag data = None \/ st_idTag data = Some "" ->
  OcppService.stop_where data
  = {| where_cpId := Some (st_cpId data); where_connectorId := None;
       where_idTag := None; where_status := Some "active" |}.
Proof.
  intros Hc [Ht|Ht]; unfold OcppService.stop_where; now rewrite Hc, Ht.
Qed.

Lemma stopTransaction_after_resolve data w id :
  fst (OcppService.stopTransaction_resolve data w) = Return id ->
  OcppService.stopTransaction data w
  = prisma.transaction.update id
      {| set_meterStop := st_meterStop data;
         set_stopTimestamp := Some (clock w (reads w));
         set_stopReason := Some (str_or (st_stopReason data) "Local");
         set_status := Some "completed";
         set_additionalInfo := Some (json_of_stop data) |}
      (set_reads (S (reads w)) w).
Proof.
  intro H. unfold OcppService.stopTransaction, bind.
  pose proof (stopTransaction_resolve_world data w) as Hw.
  destruct (OcppService.stopTransaction_resolve data w) as [r w1].
  simpl in H, Hw. subst. reflexivity.
Qed.

(** C4, as the code has it. The transaction to stop is (1) the one named
    by an explicit transactionId other than 0, whatever connectorId and
    idTag say; (2) without id, or with id 0, the most recently started
    active transaction of (cpId, connectorId) when a connectorId is given;
    (3) else the most recently started active transaction of (cpId, idTag)
    when a non-empty idTag is given; (4) else the most recently started
    active transaction of the charge point; a search that finds nothing
    throws [No active transaction found to stop]. The row resolved to gets status
    [completed], the clock reading as stop timestamp, the given meterStop
    (the column is left alone when none is given) and the given stop
    reason, [Local] when none is given. *)
Theorem stop_resolution_precedence (data : StopTransactionData) (w : World) :
  (forall id,
      st_transactionId data = Some id -> id <> 0 ->
      OcppService.stopTransaction_resolve data w = (Return id, w))
  /\ (forall n,
        st_transactionId data = None \/ st_transactionId data = Some 0 ->
        st_connectorId data = Some n ->
        OcppService.stopTransaction_resolve data w
        = (resolved (most_recent (filter (active_on (st_cpId data) n)
                                         (transactions w))), w))
  /\ (forall tag,
        st_transactionId data = None \/ st_transactionId data = Some 0 ->
        st_connectorId data = None ->
        st_idTag data = Some tag -> tag <> "" ->
        OcppService.stopTransaction_resolve data w
        = (resolved (most_recent (filter (active_with (st_cpId data) tag)
                                         (transactions w))), w))
  /\ (st_transactionId data = None \/ st_transactionId data = Some 0 ->
      st_connectorId data = None ->
      st_idTag data = None \/ st_idTag data = Some "" ->
      OcppService.stopTransaction_resolve data w
      = (resolved (most_recent (filter (active_of (st_cpId data))
                                       (transactions w))), w))
  /\ (forall id t,
        fst (OcppService.stopTransaction_resolve data w) = Return id ->
        find (has_id id) (transactions w) = Some t ->
        let now := clock w (reads w) in
        let t' := stop_row data now t in
        OcppService.stopTransaction data w
        = (Return t',
           set_transactions (rewrite_id id (stop_row data now) (transactions w))
                            (set_reads (S (reads w)) w))
        /\ status t' = "completed"
        /\ stopTimestamp t' = Some now
        /\ meterStop t' = keep (st_meterStop data) (meterStop t)
        /\ stopReason t' = Some (str_or (st_stopReason data) "Local")
        /\ (st_stopReason data = None -> stopReason t' = Some "Local")).
Proof.
  split; [|split; [|split; [|split]]].
  - intros id Hid Hnz. unfold OcppService.stopTransaction_resolve.
    rewrite Hid. apply Z.eqb_neq in Hnz. now rewrite Hnz.
  - intros n Hid Hconn.
    rewrite (stopTransaction_resolve_search data Hid), stopTransaction_search_eq.
    rewrite (stop_where_connector data n Hconn).
    do 3 f_equal. apply filter_ext. intro t. apply matches_start_where.
  - intros tag Hid Hconn Htag Hne.
    rewrite (stopTransaction_resolve_search data Hid), stopTransaction_search_eq.
    rewrite (stop_where_tag data tag Hconn Htag Hne).
    do 3 f_equal. apply filter_ext. intro t. apply matches_active_with.
  - intros Hid Hconn Htag.
    rewrite (stopTransaction_resolve_search data Hid), stopTransaction_search_eq.
    rewrite (stop_where_bare data Hconn Htag).
    do 3 f_equal. apply filter_ext. intro t. apply matches_active_of.
  - intros id t Hres Hfind now t'.
    split; [|split; [|split; [|split; [|split]]]]; try reflexivity.
    + rewrite (stopTransaction_after_resolve data w id Hres).
      unfold prisma.transaction.update. simpl. rewrite Hfind. reflexivity.
    + intro Hr. simpl. now rewrite Hr.
Qed.

Lemma stop_resolution_precedence_witness :
  OcppService.stopTransaction_resolve stop_id2_of_connector1 w_two_active
  = (Return 2, w_two_active)
  /\ OcppService.stopTransaction_resolve stop_connector1 w_two_active
     = (Return 1, w_two_active)
  /\ OcppService.stopTransaction_resolve stop_tag_RFID789012 w_two_active
     = (Return 2, w_two_active)
  /\ (exists t' w',
         OcppService.stopTransaction stop_connector1 w_two_active = (Return t', w')
         /\ transactionId t' = 1
         /\ status t' = "completed"
         /\ stopReason t' = Some "Local").
Proof.
  destruct (stop_resolution_precedence stop_id2_of_connector1 w_two_active)
    as (Hid & _).
  destruct (stop_resolution_precedence stop_connector1 w_two_active)
    as (_ & Hconn & _ & _ & Hstop).
  destruct (stop_resolution_precedence stop_tag_RFID789012 w_two_active)
    as (_ & _ & Htag & _).
  split; [apply Hid; [reflexivity | discriminate]|].
  split; [apply (Hconn 1); [left; reflexivity | reflexivity]|].
  split; [apply (Htag "RFID789012");
          [left; reflexivity | reflexivity | reflexivity | discriminate]|].
  edestruct (Hstop 1) as (Heq & Hst & _ & _ & _ & Hlocal);
    [reflexivity | reflexivity |].
  eexists. eexists. split; [exact Heq|].
  split; [reflexivity|]. split; [exact Hst|]. apply Hlocal. reflexivity.
Defined.

(** Where C4 as written fails: a stop that names transactionId 0 is not
    resolved by that id but by its tag, and a stop whose idTag is the
    empty string is not resolved by that tag (no active transaction
    carries it) but to the latest active transaction of the charge
    point. *)
Lemma stop_zero_id_and_empty_tag_search :
  (st_transactionId stop_zero = Some 0
   /\ OcppService.stopTransaction_resolve stop_zero w_charging
      = (Return 1, w_charging))
  /\ (st_idTag stop_empty_tag = Some ""
      /\ filter (active_with "CP001" "") (transactions w_charging) = []
      /\ OcppService.stopTransaction_resolve stop_empty_tag w_charging
         = (Return 1, w_charging)).
Proof. repeat split. Qed.

Lemma filter_nothing {A} (f : A -> bool) l :
  (forall x, In x l -> f x = false) -> filter f l = [].
Proof.
  induction l as [|a l IH]; intro H; simpl; [reflexivity|].
  rewrite (H a (or_introl eq_refl)). apply IH. intros x Hx. apply H. now right.
Qed.

Lemma matches_stop_where data t :
  matches (OcppService.stop_where data) t = true <-> stop_criteria data t.
Proof.
  unfold matches, OcppService.stop_where, stop_criteria; simpl.
  destruct (st_connectorId data) as [n|]; simpl.
  - rewrite !andb_true_iff, !String.eqb_eq, Z.eqb_eq. tauto.
  - destruct (st_idTag data) as [tag|]; simpl.
    + unfold nonempty. destruct (tag =? "")%string eqn:E; simpl.
      * apply String.eqb_eq in E.
        rewrite !andb_true_iff, !String.eqb_eq. tauto.
      * apply String.eqb_neq in E.
        rewrite !andb_true_iff, !String.eqb_eq. tauto.
    + rewrite !andb_true_iff, !String.eqb_eq. tauto.
Qed.



(* ================================================================== *)
(** ** C6: the status of a transaction *)

Lemma keeps_refl t : keeps t t.
Proof. split; [reflexivity | now left]. Qed.

Lemma keeps_trans a b c : keeps a b -> keeps b c -> keeps a c.
Proof.
  intros [Hi1 Hs1] [Hi2 Hs2]. split; [congruence|].
  destruct Hs2 as [Hs2|Hs2]; [|now right].
  destruct Hs1 as [Hs1|Hs1]; [left | right]; congruence.
Qed.

Lemma Forall2_keeps_refl l : Forall2 keeps l l.
Proof. induction l; constructor; auto using keeps_refl. Qed.

Lemma Forall2_keeps_trans l1 l2 l3 :
  Forall2 keeps l1 l2 -> Forall2 keeps l2 l3 -> Forall2 keeps l1 l3.
Proof.
  intro H. revert l3. induction H as [|a b l1 l2 Hab H12 IH]; intros l3 H23.
  - inversion H23. constructor.
  - inversion H23 as [|b' c l2' l3' Hbc H23']; subst.
    constructor; [eapply keeps_trans; eassumption | now apply IH].
Qed.

Lemma keeps_updated id u t :
  set_status u = None \/ set_status u = Some "completed" ->
  keeps t (if has_id id t then apply_update u t else t).
Proof.
  intro Hu. destruct (has_id id t); [|apply keeps_refl].
  split; [reflexivity|]. simpl.
  destruct Hu as [-> | ->]; [now left | now right].
Qed.

Lemma tx_change_grows txs txs' : tx_change txs txs' -> grows txs txs'.
Proof.
  intros [|id u Hu|row _].
  - exists txs, []. split; [now rewrite app_nil_r | apply Forall2_keeps_refl].
  - exists (rewrite_id id (apply_update u) txs), [].
    split; [now rewrite app_nil_r|].
    unfold rewrite_id. induction txs as [|t txs IH]; simpl; constructor.
    + now apply keeps_updated.
    + exact IH.
  - exists txs, [row]. split; [reflexivity | apply Forall2_keeps_refl].
Qed.

Lemma grows_trans a b c : grows a b -> grows b c -> grows a c.
Proof.
  intros (u1 & n1 & -> & H1) (u2 & n2 & -> & H2).
  apply Forall2_app_inv_l in H2. destruct H2 as (u2a & u2b & Ha & Hb & ->).
  exists u2a, (u2b ++ n2). split; [now rewrite app_assoc|].
  eapply Forall2_keeps_trans; eassumption.
Qed.

Lemma tx_changes_grows txs txs' : tx_changes txs txs' -> grows txs txs'.
Proof.
  induction 1 as [txs|a b c Hab Hbc IH].
  - exists txs, []. split; [now rewrite app_nil_r | apply Forall2_keeps_refl].
  - eapply grows_trans; [apply tx_change_grows; exact Hab | exact IH].
Qed.

Lemma find_has_id_present id l t :
  In t l -> transactionId t = id -> exists t1, find (has_id id) l = Some t1.
Proof.
  intros Hin Hid.
  destruct (find (has_id id) l) as [t1|] eqn:E; [now exists t1|].
  pose proof (find_none _ _ E t Hin) as Hn.
  unfold has_id in Hn. rewrite Hid, Z.eqb_refl in Hn. discriminate.
Qed.

Lemma resumeTransaction_status id w :
  map status (transactions (snd (OcppService.resumeTransaction id w)))
  = map status (transactions w).
Proof.
  unfold OcppService.resumeTransaction, bind, prisma.transaction.findUnique.
  simpl. destruct (find (has_id id) (transactions w)) as [t|] eqn:E;
    [|reflexivity].
  unfold prisma.transaction.update. simpl. rewrite E. simpl.
  rewrite map_map. apply map_ext. intro x. now destruct (has_id id x).
Qed.

(** C6, as the code has it. Whatever the request, every row of the table
    is still there afterwards under the same transactionId, with the
    status it had or with [completed]: nothing sets a status back to
    [active]. [resumeTransaction] changes no status. A stop that has to
    search completes a transaction that was active. (A stop by explicit
    transactionId asks nothing of the status it finds.) *)
Theorem status_never_reverses :
  (forall r w, grows (transactions w) (transactions (exec r w)))
  /\ (forall id w,
        map status (transactions (snd (OcppService.resumeTransaction id w)))
        = map status (transactions w))
  /\ (forall data w t w',
        st_transactionId data = None \/ st_transactionId data = Some 0 ->
        OcppService.stopTransaction data w = (Return t, w') ->
        status t = "completed"
        /\ exists t0, In t0 (transactions w)
                      /\ transactionId t0 = transactionId t
                      /\ status t0 = "active").
Proof.
  split; [|split].
  - intros r w. apply tx_changes_grows, exec_changes.
  - apply resumeTransaction_status.
  - intros data w t w' Hid Hstop.
    unfold OcppService.stopTransaction, bind in Hstop.
    rewrite (stopTransaction_resolve_search data Hid) in Hstop.
    rewrite stopTransaction_search_eq in Hstop.
    destruct (most_recent _) as [t0|] eqn:Er; simpl in Hstop; [|discriminate].
    apply most_recent_latest in Er. destruct Er as [Hin _].
    apply filter_In in Hin. destruct Hin as [Hin Hm].
    apply matches_stop_where in Hm. destruct Hm as (_ & Hact & _).
    unfold prisma.transaction.update in Hstop. simpl in Hstop.
    destruct (find_has_id_present (transactionId t0) _ t0 Hin eq_refl) as [t1 E].
    rewrite E in Hstop. injection Hstop as <- _.
    split; [reflexivity|].
    exists t0. split; [exact Hin|]. split; [|exact Hact].
    apply find_some in E. destruct E as [_ E]. unfold has_id in E.
    apply Z.eqb_eq in E. simpl. now rewrite E.
Qed.

Lemma status_never_reverses_witness :
  (exists t0, In t0 (transactions w_two_active)
              /\ transactionId t0 = 1 /\ status t0 = "active")
  /\ grows (transactions w_stopped)
           (transactions (exec (CallStartTransaction start_RFID123456) w_stopped)).
Proof.
  destruct status_never_reverses as (Hgrow & _ & Hsearch).
  split.
  - destruct (OcppService.stopTransaction stop_connector1 w_two_active)
      as [[t|e] w'] eqn:E; [|discriminate E].
    destruct (Hsearch stop_connector1 w_two_active t w') as (_ & t0 & Hin & Hid & Hact);
      [left; reflexivity | exact E |].
    exists t0. split; [exact Hin|]. split; [|exact Hact].
    rewrite Hid. injection E as <- _. reflexivity.
  - apply Hgrow.
Defined.

(** Where C6 as written fails: transaction 1 is completed, with meter
    stop 2000 and reason [Local]; a second stop that names it succeeds,
    and the row, still completed, now carries meter stop 9999, reason
    [Remote] and a later stop timestamp. *)
Lemma second_stop_completes_again :
  (exists t, transactions w_stopped = [t]
             /\ transactionId t = 1 /\ status t = "completed"
             /\ meterStop t = Some 2000 /\ stopReason t = Some "Local"
             /\ stopTimestamp t = Some (sample_clock 4))
  /\ (exists t' w',
         OcppService.stopTransaction stop_again w_stopped = (Return t', w')
         /\ transactions w' = [t']
         /\ transactionId t' = 1 /\ status t' = "completed"
         /\ meterStop t' = Some 9999 /\ stopReason t' = Some "Remote"
         /\ stopTimestamp t' = Some (sample_clock 5)).
Proof.
  split.
  - eexists. repeat split.
  - eexists. eexists. repeat split.
Qed.

(* ================================================================== *)
(** ** C7: flattening of MeterValues *)

Lemma flatten_cons mv rest :
  OcppController.flatten (mv :: rest)
  = map (reading_of mv) (mv_sampledValue mv) ++ OcppController.flatten rest.
Proof. reflexivity. Qed.

Lemma flatten_length meterValue :
  List.length (OcppController.flatten meterValue)
  = list_sum (map (fun mv => List.length (mv_sampledValue mv)) meterValue).
Proof.
  induction meterValue as [|mv rest IH]; [reflexivity|].
  rewrite flatten_cons, length_app, length_map, IH. reflexivity.
Qed.

Lemma flatten_In meterValue r :
  In r (OcppController.flatten meterValue)
  <-> exists mv sv,
        In mv meterValue /\ In sv (mv_sampledValue mv) /\ r = reading_of mv sv.
Proof.
  unfold OcppController.flatten. rewrite in_flat_map. split.
  - intros (mv & Hmv & Hr). apply in_map_iff in Hr.
    destruct Hr as (sv & <- & Hsv). now exists mv, sv.
  - intros (mv & sv & Hmv & Hsv & ->). exists mv. split; [exact Hmv|].
    apply in_map_iff. now exists sv.
Qed.

(** C7. For a payload that passes the schema, [handleMeterValues] puts
    one job on the queue and answers with the empty object; the readings
    of the job are, entry after entry and sample after sample, one flat
    reading per (entry, sampled value) pair with the timestamp of the
    entry: their number is the sum of the numbers of samples, and two
    entries of two samples and one give three readings. *)
Theorem meterValues_flattening (c : string) (payload : JSON)
    (validated : MeterValuesRequest) (w : World) :
  MeterValuesRequestSchema payload = Some validated ->
  exists job,
    OcppController.handleMeterValues c payload w
    = (Return (JObj []), set_meterValuesQueue (meterValuesQueue w ++ [job]) w)
    /\ job_cpId (bj_data job) = c
    /\ job_meterValues (bj_data job)
       = List.concat (map (fun mv => map (reading_of mv) (mv_sampledValue mv))
                     (mvr_meterValue validated))
    /\ List.length (job_meterValues (bj_data job))
       = list_sum (map (fun mv => List.length (mv_sampledValue mv))
                       (mvr_meterValue validated))
    /\ (forall r,
           In r (job_meterValues (bj_data job))
           <-> exists mv sv,
                 In mv (mvr_meterValue validated)
                 /\ In sv (mv_sampledValue mv)
                 /\ r = reading_of mv sv)
    /\ (forall mv sv,
           In mv (mvr_meterValue validated) -> In sv (mv_sampledValue mv) ->
           fr_timestamp (reading_of mv sv) = mv_timestamp mv)
    /\ (forall mv1 mv2,
           mvr_meterValue validated = [mv1; mv2] ->
           List.length (mv_sampledValue mv1) = 2%nat ->
           List.length (mv_sampledValue mv2) = 1%nat ->
           List.length (job_meterValues (bj_data job)) = 3%nat).
Proof.
  intro Hparse. unfold OcppController.handleMeterValues. rewrite Hparse.
  eexists. split; [reflexivity|]. simpl bj_data. simpl job_meterValues.
  simpl job_cpId.
  split; [reflexivity|].
  split; [apply flat_map_concat_map|].
  split; [apply flatten_length|].
  split; [apply flatten_In|].
  split; [reflexivity|].
  intros mv1 mv2 Hmv H1 H2.
  rewrite flatten_length, Hmv. simpl. rewrite H1, H2. reflexivity.
Qed.

Lemma meterValues_flattening_witness :
  exists validated job,
    MeterValuesRequestSchema payload_2_and_1 = Some validated
    /\ OcppController.handleMeterValues "CP001" payload_2_and_1 w_booted
       = (Return (JObj []), set_meterValuesQueue [job] w_booted)
    /\ map (fun r => (fr_timestamp r, fr_value r)) (job_meterValues (bj_data job))
       = [("2025-09-22T10:26:54.000Z", "1500");
          ("2025-09-22T10:26:54.000Z", "22.1");
          ("2025-09-22T10:27:54.000Z", "1600")].
Proof.
  destruct (MeterValuesRequestSchema payload_2_and_1) as [validated|] eqn:Hp;
    [|discriminate Hp].
  destruct (meterValues_flattening "CP001" payload_2_and_1 validated w_booted Hp)
    as (job & Hrun & _ & Hflat & _).
  exists validated, job. split; [reflexivity|]. split; [exact Hrun|].
  rewrite Hflat. injection Hp as <-. reflexivity.
Defined.

(* ================================================================== *)
(** ** C9: dispatch of actions *)

(** Each of the seven actions goes to its handler, and to that one only. *)
Lemma handleAction_dispatch h c payload :
  SimpleOcppServer.handleAction h c (JStr "BootNotification") payload
  = SimpleOcppServer.handleBootNotification h c payload
  /\ SimpleOcppServer.handleAction h c (JStr "Heartbeat") payload
     = SimpleOcppServer.handleHeartbeat h c payload
  /\ SimpleOcppServer.handleAction h c (JStr "Authorize") payload
     = SimpleOcppServer.handleAuthorize h c payload
  /\ SimpleOcppServer.handleAction h c (JStr "StartTransaction") payload
     = SimpleOcppServer.handleStartTransaction h c payload
  /\ SimpleOcppServer.handleAction h c (JStr "StopTransaction") payload
     = SimpleOcppServer.handleStopTransaction h c payload
  /\ SimpleOcppServer.handleAction h c (JStr "StatusNotification") payload
     = SimpleOcppServer.handleStatusNotification h c payload
  /\ SimpleOcppServer.handleAction h c (JStr "MeterValues") payload
     = SimpleOcppServer.handleMeterValues h c payload.
Proof. repeat split. Qed.

(** Any other action string throws an [Error] that names it. *)
Lemma handleAction_unknown h c a payload w :
  ~ In a implemented ->
  SimpleOcppServer.handleAction h c (JStr a) payload w
  = (Throw (Error ("Unsupported action: " +++ a)), w).
Proof.
  intro Hnot. unfold SimpleOcppServer.handleAction.
  repeat match goal with
         | |- context [(a =? ?s)%string] =>
             destruct (String.eqb_spec a s) as [->|_];
             [exfalso; apply Hnot; unfold implemented; simpl; tauto|]
         end.
  reflexivity.
Qed.

(** Whatever a handler throws is sent with the same error code and the
    same fixed id as an unknown action. *)
Lemma handleMessage_throw_is_InternalError h u uniqueId action payload w e w' :
  SimpleOcppServer.handleAction h (str_or u "unknown") action
    (js_or (Some payload) (JObj [])) w
  = (Throw e, w') ->
  SimpleOcppServer.handleMessage h u
    (inr (JArr [JNum 2; uniqueId; action; payload])) w
  = ([SimpleOcppServer.sendError "unknown" "InternalError" (exn_message e)], w').
Proof.
  intro H. unfold SimpleOcppServer.handleMessage. simpl hd_error.
  rewrite H. reflexivity.
Qed.

(** C9, at a failing input. A call of [DataTransfer], which is not one
    of the seven actions, makes the dispatcher throw a plain [Error]
    naming the action; on the wire it is a CALLERROR whose error code is
    [InternalError], the code of every uncaught failure, and whose id is
    the fixed string [unknown] instead of the id of the call. *)
Theorem unknown_action_sent_as_InternalError (h : SimpleOcppServer.Handlers)
    (c : string) (uniqueId payload : JSON) (w : World) :
  SimpleOcppServer.handleAction h c (JStr "DataTransfer") payload w
  = (Throw (Error "Unsupported action: DataTransfer"), w)
  /\ SimpleOcppServer.handleMessage h (Some c)
       (inr (JArr [JNum 2; uniqueId; JStr "DataTransfer"; payload])) w
     = ([JArr [JNum 4; JStr "unknown"; JStr "InternalError";
               JStr "Unsupported action: DataTransfer"; JObj []]], w).
Proof. split; reflexivity. Qed.

(* ================================================================== *)
(** ** C10: the identity [unknown] *)

Lemma map_with_status_all s cps :
  Forall (fun p => cp_status p = Some s) (map (with_status s) cps).
Proof. induction cps; simpl; constructor; auto. Qed.

Lemma not_named c cps :
  ~ In c (map cp_cpId cps) -> forall x, In x cps -> is_cp c x = false.
Proof.
  intros Hnot x Hx. unfold is_cp. apply String.eqb_neq. intros Heq.
  apply Hnot. rewrite <- Heq. now apply in_map.
Qed.

(** Under the primary key, an update by cpId touches the one row of
    that name. *)
Lemma update_one_row c f cps p :
  NoDup (map cp_cpId cps) -> In p cps -> cp_cpId p = c ->
  exists l1 l2,
    cps = l1 ++ p :: l2
    /\ find (is_cp c) cps = Some p
    /\ map (fun x => if is_cp c x then f x else x) cps = l1 ++ f p :: l2.
Proof.
  induction cps as [|a cps IH]; intros Hnd Hin Hc; [contradiction|].
  simpl in Hnd. inversion Hnd as [|k ks Hnotin Hnd']; subst k ks.
  destruct Hin as [->|Hin].
  - exists [], cps. simpl. unfold is_cp at 1 3. rewrite Hc, String.eqb_refl.
    repeat split. f_equal.
    rewrite <- (map_id cps) at 2. apply map_ext_in. intros x Hx.
    rewrite <- Hc. now rewrite (not_named _ _ Hnotin x Hx).
  - destruct (IH Hnd' Hin Hc) as (l1 & l2 & Hsplit & Hfind & Hmap).
    assert (Ha : is_cp c a = false).
    { unfold is_cp. apply String.eqb_neq. intro Heq. apply Hnotin.
      rewrite Heq, <- Hc. now apply in_map. }
    exists (a :: l1), l2. simpl. rewrite Ha, Hfind, Hmap, Hsplit.
    repeat split.
Qed.

Lemma find_is_cp_absent c cps :
  (forall p, In p cps -> cp_cpId p <> c) -> find (is_cp c) cps = None.
Proof.
  intro H. induction cps as [|a cps IH]; simpl; [reflexivity|].
  unfold is_cp at 1. destruct (String.eqb_spec (cp_cpId a) c) as [E|_].
  - exfalso. exact (H a (or_introl eq_refl) E).
  - apply IH. intros p Hp. apply H. now right.
Qed.

Lemma resumeTransaction_chargePoints id w :
  chargePoints (snd (OcppService.resumeTransaction id w)) = chargePoints w.
Proof.
  unfold OcppService.resumeTransaction, bind, prisma.transaction.findUnique.
  simpl. destruct (find (has_id id) (transactions w)) as [t|] eqn:E;
    [|reflexivity].
  unfold prisma.transaction.update. simpl. rewrite E. reflexivity.
Qed.

Lemma forEach_resume_chargePoints l w :
  chargePoints
    (snd (forEach (fun t => OcppService.resumeTransaction (transactionId t) ;;; ret tt)
                  l w))
  = chargePoints w.
Proof.
  revert w. induction l as [|t l IH]; intro w; simpl; [reflexivity|].
  unfold bind at 1. unfold bind at 1.
  pose proof (resumeTransaction_chargePoints (transactionId t) w) as Hstep.
  destruct (OcppService.resumeTransaction (transactionId t) w) as [[r|e] w1];
    simpl in *.
  - now rewrite IH.
  - exact Hstep.
Qed.

Lemma handleReconnection_chargePoints c w :
  chargePoints (snd (OcppController.handleReconnection c w)) = chargePoints w.
Proof.
  unfold OcppController.handleReconnection, bind at 1.
  unfold OcppService.getActiveTransactions, prisma.transaction.findMany.
  unfold OcppController.handleReconnection_resume, bind at 1.
  destruct (0 <? Z.of_nat (List.length _)); [|reflexivity].
  match goal with
  | |- context [forEach ?f ?l w] =>
      pose proof (forEach_resume_chargePoints l w) as H;
      destruct (forEach f l w) as [[[]|e] w1]; exact H
  end.
Qed.

Lemma updateLastSeen_status c w :
  map cp_status (chargePoints (snd (OcppService.updateLastSeen c w)))
  = map cp_status (chargePoints w).
Proof.
  unfold OcppService.updateLastSeen, bind, prisma.chargePoint.update. simpl.
  destruct (find (is_cp c) (chargePoints w)); [|reflexivity]. simpl.
  rewrite map_map. apply map_ext. intro x. now destruct (is_cp c x).
Qed.

(** C10. [setChargePointStatus] with the identity [unknown] sets the
    status of every row of [charge_points]; with any other identity it
    sets the status of the one row of that name and of no other (and
    throws, changing nothing, when there is no such row). So for a
    connection whose URL gives no identity, the [open] hook leaves every
    charge point [Online] and the [close] hook every charge point
    [Offline]. *)
Theorem unknown_identity_reaches_every_charge_point :
  (forall s w,
      OcppService.setChargePointStatus "unknown" s w
      = (Return (inl (Z.of_nat (List.length (chargePoints w)))),
         set_chargePoints (map (with_status s) (chargePoints w)) w)
      /\ Forall (fun p => cp_status p = Some s)
                (chargePoints (snd (OcppService.setChargePointStatus "unknown" s w))))
  /\ (forall c s w p,
        c <> "unknown" ->
        NoDup (map cp_cpId (chargePoints w)) ->
        In p (chargePoints w) -> cp_cpId p = c ->
        exists l1 l2,
          chargePoints w = l1 ++ p :: l2
          /\ OcppService.setChargePointStatus c s w
             = (Return (inr (with_status s p)),
                set_chargePoints (l1 ++ with_status s p :: l2) w))
  /\ (forall c s w,
        c <> "unknown" ->
        (forall p, In p (chargePoints w) -> cp_cpId p <> c) ->
        OcppService.setChargePointStatus c s w = (Throw P2025, w))
  /\ (forall url w,
        SimpleOcppServer.extractCpId url = "unknown" ->
        fst (SimpleOcppServer.open url w) = "unknown"
        /\ Forall (fun p => cp_status p = Some "Online")
                  (chargePoints (snd (SimpleOcppServer.open url w)))
        /\ Forall (fun p => cp_status p = Some "Offline")
                  (chargePoints
                     (SimpleOcppServer.close
                        (Some (fst (SimpleOcppServer.open url w)))
                        (snd (SimpleOcppServer.open url w))))).
Proof.
  split; [|split; [|split]].
  - intros s w. split; [reflexivity|]. simpl. apply map_with_status_all.
  - intros c s w p Hc Hnd Hin Hp.
    destruct (update_one_row c (with_status s) (chargePoints w) p Hnd Hin Hp)
      as (l1 & l2 & Hsplit & Hfind & Hmap).
    exists l1, l2. split; [exact Hsplit|].
    unfold OcppService.setChargePointStatus.
    apply String.eqb_neq in Hc. rewrite Hc.
    unfold bind, prisma.chargePoint.update. rewrite Hfind, Hmap. reflexivity.
  - intros c s w Hc Hnone.
    unfold OcppService.setChargePointStatus.
    apply String.eqb_neq in Hc. rewrite Hc.
    unfold bind, prisma.chargePoint.update.
    now rewrite (find_is_cp_absent c _ Hnone).
  - intros url w Hurl. unfold SimpleOcppServer.open. simpl fst. simpl snd.
    rewrite Hurl. split; [reflexivity|]. split.
    + unfold swallow at 1. rewrite handleReconnection_chargePoints.
      unfold swallow. simpl. apply map_with_status_all.
    + unfold SimpleOcppServer.close. simpl str_or.
      unfold swallow at 1. simpl. apply map_with_status_all.
Qed.

Lemma unknown_identity_reaches_every_charge_point_witness :
  SimpleOcppServer.extractCpId "/v1/CP001" = "unknown"
  /\ map (fun p => (cp_cpId p, cp_status p))
         (chargePoints (snd (SimpleOcppServer.open "/v1/CP001" w_booted)))
     = [("CP001", Some "Online"); ("CP002", Some "Online")]
  /\ Forall (fun p => cp_status p = Some "Offline")
            (chargePoints
               (SimpleOcppServer.close (Some "unknown")
                  (snd (SimpleOcppServer.open "/v1/CP001" w_booted))))
  /\ map (fun p => (cp_cpId p, cp_status p))
         (chargePoints (snd (OcppService.setChargePointStatus "CP002" "Offline" w_booted)))
     = [("CP001", Some "Available"); ("CP002", Some "Offline")].
Proof.
  destruct unknown_identity_reaches_every_charge_point as (_ & Hone & _ & Hhooks).
  destruct (Hhooks "/v1/CP001" w_booted eq_refl) as (Hid & _ & Hoff).
  split; [reflexivity|]. split; [reflexivity|]. split.
  - rewrite Hid in Hoff. exact Hoff.
  - edestruct (Hone "CP002" "Offline" w_booted) as (l1 & l2 & _ & Hrun);
      [discriminate | | right; left; reflexivity | reflexivity |].
    + simpl. repeat constructor; simpl; intuition discriminate.
    + reflexivity.
Defined.

(* ================================================================== *)
(** ** C8: reconnection *)

Lemma insert_desc_perm t l : Permutation (insert_desc t l) (t :: l).
Proof.
  induction l as [|x l IH]; simpl; [apply Permutation_refl|].
  destruct (startTimestamp x <=? startTimestamp t); [apply Permutation_refl|].
  eapply perm_trans; [apply perm_skip, IH | apply perm_swap].
Qed.

Lemma sort_desc_perm l : Permutation (sort_desc l) l.
Proof.
  induction l as [|t l IH]; simpl; [apply perm_nil|].
  eapply perm_trans; [apply insert_desc_perm | apply perm_skip, IH].
Qed.

Lemma insert_desc_sorted t l :
  StronglySorted not_older l -> StronglySorted not_older (insert_desc t l).
Proof.
  induction l as [|x l IH]; intro Hs; simpl.
  - constructor; constructor.
  - inversion Hs as [|x' l' Hl Hx]; subst.
    destruct (startTimestamp x <=? startTimestamp t) eqn:E.
    + apply Z.leb_le in E. constructor; [exact Hs|].
      constructor; [exact E|].
      eapply Forall_impl; [|exact Hx]. unfold not_older. intros a Ha. lia.
    + apply Z.leb_gt in E. constructor; [now apply IH|].
      eapply Permutation_Forall; [apply Permutation_sym, insert_desc_perm|].
      constructor; [unfold not_older; lia | exact Hx].
Qed.

Lemma sort_desc_sorted l : StronglySorted not_older (sort_desc l).
Proof.
  induction l as [|t l IH]; simpl; [constructor|].
  now apply insert_desc_sorted.
Qed.

Lemma getActiveTransactions_eq c w :
  OcppService.getActiveTransactions c w
  = (Return (sort_desc (filter (active_of c) (transactions w))), w).
Proof.
  unfold OcppService.getActiveTransactions, prisma.transaction.findMany. simpl.
  do 3 f_equal. apply filter_ext. intro t. apply matches_active_of.
Qed.

Lemma unique_by_id l x y :
  NoDup (map transactionId l) -> In x l -> In y l ->
  transactionId x = transactionId y -> x = y.
Proof.
  induction l as [|a l IH]; intros Hnd Hx Hy Heq; [contradiction|].
  simpl in Hnd. inversion Hnd as [|k ks Hnotin Hnd']; subst.
  destruct Hx as [->|Hx], Hy as [->|Hy].
  - reflexivity.
  - exfalso. apply Hnotin. rewrite Heq. now apply in_map.
  - exfalso. apply Hnotin. rewrite <- Heq. now apply in_map.
  - now apply IH.
Qed.

Lemma rewrite_id_ids id f txs :
  (forall t, transactionId (f t) = transactionId t) ->
  map transactionId (rewrite_id id f txs) = map transactionId txs.
Proof.
  intro Hf. unfold rewrite_id. rewrite map_map. apply map_ext.
  intro x. destruct (has_id id x); [apply Hf | reflexivity].
Qed.

Lemma resume_each_ids clk r ids txs :
  map transactionId (resume_each clk r ids txs) = map transactionId txs.
Proof.
  revert r txs. induction ids as [|id ids IH]; intros r txs; simpl; [reflexivity|].
  rewrite IH. now apply rewrite_id_ids.
Qed.

(** One resume of a row that is there. *)
Lemma resumeTransaction_present id w :
  NoDup (map transactionId (transactions w)) ->
  In id (map transactionId (transactions w)) ->
  exists t,
    find (has_id id) (transactions w) = Some t
    /\ OcppService.resumeTransaction id w
       = (Return (resume_row (clock w (reads w)) t),
          set_transactions
            (rewrite_id id (resume_row (clock w (reads w))) (transactions w))
            (set_reads (S (reads w)) w)).
Proof.
  intros Hnd Hin. apply in_map_iff in Hin. destruct Hin as (t0 & Hid & Hin0).
  destruct (find_has_id_present id _ t0 Hin0 Hid) as [t E].
  exists t. split; [exact E|].
  unfold OcppService.resumeTransaction, bind, prisma.transaction.findUnique.
  simpl. rewrite E. unfold prisma.transaction.update. simpl. rewrite E.
  f_equal. unfold set_transactions. simpl. f_equal.
  unfold rewrite_id. apply map_ext_in. intros x Hx.
  destruct (has_id id x) eqn:Hx_id; [|reflexivity].
  apply find_some in E. destruct E as [Ht Ht_id].
  unfold has_id in *. apply Z.eqb_eq in Hx_id, Ht_id.
  assert (x = t) as -> by (apply (unique_by_id _ _ _ Hnd Hx Ht); congruence).
  reflexivity.
Qed.

(** One resume of a row that is not there. *)
Lemma resumeTransaction_missing id w :
  ~ In id (map transactionId (transactions w)) ->
  OcppService.resumeTransaction id w
  = (Throw (Error ("Transaction " +++ show_Z id +++ " not found")), w).
Proof.
  intro Hnot.
  unfold OcppService.resumeTransaction, bind, prisma.transaction.findUnique.
  simpl. destruct (find (has_id id) (transactions w)) as [t|] eqn:E;
    [|reflexivity].
  exfalso. apply find_some in E. destruct E as [Hin Hid].
  apply Hnot. apply in_map_iff. exists t. split; [|exact Hin].
  unfold has_id in Hid. now apply Z.eqb_eq.
Qed.

Lemma resume_loop_cons t l w :
  resume_loop (t :: l) w
  = match OcppService.resumeTransaction (transactionId t) w with
    | (Return _, w1) => resume_loop l w1
    | (Throw e, w1) => (Throw e, w1)
    end.
Proof.
  unfold resume_loop. simpl. unfold bind at 1. unfold bind at 1.
  destruct (OcppService.resumeTransaction (transactionId t) w) as [[r|e] w1];
    reflexivity.
Qed.

(** The loop over rows that are all there resumes each in turn, one
    clock reading per row. *)
Lemma resume_loop_present l w :
  NoDup (map transactionId (transactions w)) ->
  (forall t, In t l -> In (transactionId t) (map transactionId (transactions w))) ->
  resume_loop l w
  = (Return tt,
     set_transactions
       (resume_each (clock w) (reads w) (map transactionId l) (transactions w))
       (set_reads (reads w + List.length l) w)).
Proof.
  revert w. induction l as [|t l IH]; intros w Hnd Hall.
  - unfold resume_loop. simpl. unfold ret. f_equal.
    destruct w. unfold set_transactions, set_reads. simpl. f_equal. lia.
  - rewrite resume_loop_cons.
    destruct (resumeTransaction_present (transactionId t) w Hnd
                (Hall t (or_introl eq_refl))) as (t1 & _ & ->).
    rewrite IH.
    + simpl. f_equal. unfold set_transactions, set_reads. simpl. f_equal. lia.
    + simpl. now rewrite rewrite_id_ids.
    + intros x Hx. simpl. rewrite rewrite_id_ids by reflexivity.
      apply Hall. now right.
Qed.

Lemma resume_loop_app l1 l2 w :
  resume_loop (l1 ++ l2) w
  = match resume_loop l1 w with
    | (Return _, w1) => resume_loop l2 w1
    | (Throw e, w1) => (Throw e, w1)
    end.
Proof.
  revert w. induction l1 as [|t l1 IH]; intro w; [reflexivity|].
  simpl app. rewrite !resume_loop_cons.
  destruct (OcppService.resumeTransaction (transactionId t) w) as [[r|e] w1];
    [apply IH | reflexivity].
Qed.

Lemma handleReconnection_resume_eq l w :
  OcppController.handleReconnection_resume l w
  = match resume_loop l w with
    | (Return _, w1) => (Return l, w1)
    | (Throw e, w1) => (Throw e, w1)
    end.
Proof.
  unfold OcppController.handleReconnection_resume, bind at 1.
  fold (resume_loop l).
  destruct l as [|t l]; [reflexivity|].
  replace (0 <? Z.of_nat (List.length (t :: l))) with true
    by (symmetry; apply Z.ltb_lt; simpl; lia).
  destruct (resume_loop (t :: l) w) as [[[]|e] w1]; reflexivity.
Qed.

Lemma obj_get_set_same k v o : obj_get k (obj_set k v o) = Some v.
Proof.
  induction o as [|[k' v'] o IH]; simpl.
  - now rewrite String.eqb_refl.
  - destruct (k' =? k)%string eqn:E; simpl.
    + now rewrite String.eqb_refl.
    + now rewrite E.
Qed.

Lemma obj_get_set_other k k' v o :
  k' <> k -> obj_get k' (obj_set k v o) = obj_get k' o.
Proof.
  intro Hne. induction o as [|[k0 v0] o IH]; simpl.
  - apply not_eq_sym, String.eqb_neq in Hne. now rewrite Hne.
  - destruct (k0 =? k)%string eqn:E; simpl.
    + apply String.eqb_eq in E. subst k0.
      apply not_eq_sym, String.eqb_neq in Hne. now rewrite Hne.
    + destruct (k0 =? k')%string; [reflexivity | exact IH].
Qed.

(** What one resume writes into the bag: the timestamp, the counter one
    up (1 when there was none), every other member as it was. *)
Lemma resumed_info_merge now o :
  obj_get "reconnectedAt" (OcppService.resumed_info now o)
  = Some (JStr (toISOString now))
  /\ (obj_get "reconnectionCount" o = None ->
      obj_get "reconnectionCount" (OcppService.resumed_info now o) = Some (JNum 1))
  /\ (forall n, obj_get "reconnectionCount" o = Some (JNum n) ->
      obj_get "reconnectionCount" (OcppService.resumed_info now o)
      = Some (JNum (n + 1)))
  /\ (forall k, k <> "reconnectedAt" -> k <> "reconnectionCount" ->
      obj_get k (OcppService.resumed_info now o) = obj_get k o).
Proof.
  unfold OcppService.resumed_info. repeat split.
  - rewrite obj_get_set_other by discriminate. apply obj_get_set_same.
  - intro H. now rewrite obj_get_set_same, H.
  - intros n H. rewrite obj_get_set_same, H. simpl.
    destruct (Z.eqb_spec n 0) as [->|_]; reflexivity.
  - intros k H1 H2. now rewrite !obj_get_set_other.
Qed.

Lemma position_none id ids : position id ids = None <-> ~ In id ids.
Proof.
  induction ids as [|x ids IH]; simpl; [tauto|].
  destruct (Z.eqb_spec x id) as [->|Hne].
  - split; [discriminate | intro H; exfalso; apply H; now left].
  - destruct (position id ids); simpl.
    + split; [discriminate|]. intro H. exfalso. apply H. right.
      apply Decidable.not_not; [|intro Hn; now apply IH in Hn].
      unfold Decidable.decidable. destruct (in_dec Z.eq_dec id ids); tauto.
    + split; [|reflexivity]. intros _ [H|H]; [contradiction|].
      now apply (proj1 IH).
Qed.

Lemma resume_each_rows clk r ids txs :
  NoDup ids -> resume_each clk r ids txs = resumed_table clk r ids txs.
Proof.
  revert r txs. induction ids as [|id ids IH]; intros r txs Hnd.
  - unfold resumed_table. simpl. now rewrite map_id.
  - inversion Hnd as [|x l Hnotin Hnd']; subst. simpl resume_each.
    rewrite (IH _ _ Hnd'). unfold resumed_table, rewrite_id.
    rewrite map_map. apply map_ext. intro t. simpl position.
    unfold has_id. rewrite (Z.eqb_sym (transactionId t) id).
    destruct (Z.eqb_spec id (transactionId t)) as [E|E].
    + replace (transactionId (resume_row (clk r) t)) with id by exact E.
      apply position_none in Hnotin. rewrite Hnotin.
      now rewrite Nat.add_0_r.
    + destruct (position (transactionId t) ids); simpl; [|reflexivity].
      now rewrite Nat.add_succ_r.
Qed.

Lemma NoDup_ids_filter f txs :
  NoDup (map transactionId txs) -> NoDup (map transactionId (filter f txs)).
Proof.
  induction txs as [|t txs IH]; intro Hnd; simpl; [constructor|].
  simpl in Hnd. inversion Hnd as [|x l Hnotin Hnd']; subst.
  destruct (f t); simpl; [|now apply IH].
  constructor; [|now apply IH].
  intro Hin. apply Hnotin. apply in_map_iff in Hin.
  destruct Hin as (y & Hy & Hiny). apply filter_In in Hiny.
  rewrite <- Hy. apply in_map. tauto.
Qed.

Lemma listed_ids_NoDup c txs :
  NoDup (map transactionId txs) ->
  NoDup (map transactionId (sort_desc (filter (active_of c) txs))).
Proof.
  intro Hnd.
  eapply Permutation_NoDup;
    [apply Permutation_map, Permutation_sym, sort_desc_perm|].
  now apply NoDup_ids_filter.
Qed.

Lemma listed_In c txs t :
  In t (sort_desc (filter (active_of c) txs)) <-> In t txs /\ active_of c t = true.
Proof.
  rewrite <- filter_In. split; apply Permutation_in;
    [apply sort_desc_perm | apply Permutation_sym, sort_desc_perm].
Qed.

(** C8. Under the primary key of [transactions]: the reconnection of
    [c] fetches its active transactions, all of them, latest start
    first; left alone, it returns that list after resuming each row in
    that order, one clock reading per row, and touches no other row (a
    resumed row keeps its status and gets the bag of [resumed_info]:
    timestamp merged in, counter one up, 1 when absent); and when the
    resume of the row listed after [pre] throws (for one, because the row
    has gone since the list was fetched: [Transaction N not found]), the
    same error leaves [handleReconnection], the rows of [pre] stay
    resumed and nothing is taken back. *)
Theorem reconnection_resumes_in_order (c : string) (w : World) :
  NoDup (map transactionId (transactions w)) ->
  let listed := sort_desc (filter (active_of c) (transactions w)) in
  OcppService.getActiveTransactions c w = (Return listed, w)
  /\ Permutation listed (filter (active_of c) (transactions w))
  /\ StronglySorted not_older listed
  /\ OcppController.handleReconnection c w
     = (Return listed,
        set_transactions
          (resumed_table (clock w) (reads w) (map transactionId listed)
                         (transactions w))
          (set_reads (reads w + List.length listed) w))
  /\ (forall t, In t (transactions w) ->
        (position (transactionId t) (map transactionId listed) = None
         <-> active_of c t = false))
  /\ (forall now t,
        status (resume_row now t) = status t
        /\ additionalInfo (resume_row now t)
           = Some (OcppService.resumed_info now
                     (match additionalInfo t with Some o => o | None => [] end)))
  /\ (forall now o,
        obj_get "reconnectedAt" (OcppService.resumed_info now o)
        = Some (JStr (toISOString now))
        /\ (obj_get "reconnectionCount" o = None ->
            obj_get "reconnectionCount" (OcppService.resumed_info now o)
            = Some (JNum 1))
        /\ (forall n, obj_get "reconnectionCount" o = Some (JNum n) ->
            obj_get "reconnectionCount" (OcppService.resumed_info now o)
            = Some (JNum (n + 1)))
        /\ (forall k, k <> "reconnectedAt" -> k <> "reconnectionCount" ->
            obj_get k (OcppService.resumed_info now o) = obj_get k o))
  /\ (forall pre t post w' w1 e w2,
        listed = pre ++ t :: post ->
        resume_loop pre w' = (Return tt, w1) ->
        OcppService.resumeTransaction (transactionId t) w1 = (Throw e, w2) ->
        OcppController.handleReconnection_resume listed w' = (Throw e, w2))
  /\ (forall pre t post w',
        listed = pre ++ t :: post ->
        NoDup (map transactionId (transactions w')) ->
        (forall p, In p pre ->
                   In (transactionId p) (map transactionId (transactions w'))) ->
        ~ In (transactionId t) (map transactionId (transactions w')) ->
        OcppController.handleReconnection_resume listed w'
        = (Throw (Error ("Transaction " +++ show_Z (transactionId t)
                           +++ " not found")),
           set_transactions
             (resumed_table (clock w') (reads w') (map transactionId pre)
                            (transactions w'))
             (set_reads (reads w' + List.length pre) w'))).
Proof.
  intros Hnd listed.
  assert (Hids : NoDup (map transactionId listed))
    by (now apply listed_ids_NoDup).
  split; [apply getActiveTransactions_eq|].
  split; [apply sort_desc_perm|].
  split; [apply sort_desc_sorted|].
  split; [|split; [|split; [|split; [|split]]]].
  - unfold OcppController.handleReconnection, bind at 1.
    rewrite getActiveTransactions_eq. fold listed.
    rewrite handleReconnection_resume_eq, resume_loop_present.
    + now rewrite resume_each_rows.
    + exact Hnd.
    + intros t Ht. apply listed_In in Ht. apply in_map. tauto.
  - intros t Ht. rewrite position_none. split.
    + intro Hnot. destruct (active_of c t) eqn:E; [|reflexivity].
      exfalso. apply Hnot, in_map, listed_In. tauto.
    + intros Hf Hin. apply in_map_iff in Hin. destruct Hin as (t2 & Hid & Hin2).
      apply listed_In in Hin2. destruct Hin2 as [Hin2 Hact].
      assert (t2 = t) by (now apply (unique_by_id _ _ _ Hnd Hin2 Ht)).
      congruence.
  - intros now t. split; reflexivity.
  - intros now o. apply resumed_info_merge.
  - intros pre t post w' w1 e w2 Hsplit Hpre Hthrow.
    rewrite handleReconnection_resume_eq, Hsplit, resume_loop_app, Hpre.
    rewrite resume_loop_cons, Hthrow. reflexivity.
  - intros pre t post w' Hsplit Hnd' Hpre Hgone.
    rewrite handleReconnection_resume_eq, Hsplit, resume_loop_app.
    rewrite (resume_loop_present pre w' Hnd' Hpre).
    rewrite resume_loop_cons, resumeTransaction_missing.
    + rewrite resume_each_rows; [reflexivity|].
      rewrite Hsplit, map_app in Hids. now apply NoDup_app_remove_r in Hids.
    + simpl. now rewrite resume_each_ids.
Qed.

Lemma keyed_w_two_active : NoDup (map transactionId (transactions w_two_active)).
Proof.
  simpl. repeat constructor; simpl; intuition discriminate.
Qed.

Lemma reconnection_resumes_in_order_witness :
  let listed := sort_desc (filter (active_of "CP001") (transactions w_two_active)) in
  let counter t :=
    (transactionId t, status t,
     match additionalInfo t with
     | Some o => obj_get "reconnectionCount" o
     | None => None
     end) in
  map transactionId listed = [2; 1]
  /\ (exists w',
         OcppController.handleReconnection "CP001" w_two_active = (Return listed, w')
         /\ map counter (transactions w')
            = [(1, "active", Some (JNum 1)); (2, "active", Some (JNum 1))])
  /\ (exists w',
         OcppController.handleReconnection_resume listed w_row_1_gone
         = (Throw (Error "Transaction 1 not found"), w')
         /\ map counter (transactions w') = [(2, "active", Some (JNum 1))]).
Proof.
  intros listed counter.
  destruct (reconnection_resumes_in_order "CP001" w_two_active keyed_w_two_active)
    as (_ & _ & _ & Hrun & _ & _ & _ & _ & Hgone).
  split; [reflexivity|]. split.
  - eexists. split; [exact Hrun|]. reflexivity.
  - eexists. split.
    + refine (Hgone [_] _ [] w_row_1_gone eq_refl _ _ _).
      * simpl. repeat constructor; simpl; intuition discriminate.
      * intros p [<-|[]]. simpl. now left.
      * simpl. intuition discriminate.
    + reflexivity.
Defined.

(* ================================================================== *)
(** ** The primary keys hold in every state reached *)

Lemma same_keys_refl w : same_keys w w.
Proof. split; [reflexivity|]. split; [reflexivity | lia]. Qed.

Lemma same_keys_trans w1 w2 w3 :
  same_keys w1 w2 -> same_keys w2 w3 -> same_keys w1 w3.
Proof.
  intros (Ht1 & Hc1 & Hs1) (Ht2 & Hc2 & Hs2).
  split; [congruence|]. split; [congruence | lia].
Qed.

Lemma keyed_same_keys w w' : keyed w -> same_keys w w' -> keyed w'.
Proof.
  intros (Ht & Hc & Hs) (Et & Ec & Es). unfold keyed. rewrite Et, Ec.
  split; [exact Ht|]. split; [exact Hc|].
  eapply Forall_impl; [|exact Hs]. intros id Hid. simpl in Hid. lia.
Qed.

Lemma chargePoint_update_same_keys c change w :
  (forall p, cp_cpId (change p) = cp_cpId p) ->
  same_keys w (snd (prisma.chargePoint.update c change w)).
Proof.
  intro Hch. unfold prisma.chargePoint.update.
  destruct (find (is_cp c) (chargePoints w)); simpl; [|apply same_keys_refl].
  split; [reflexivity|]. split; [|simpl; lia].
  simpl. rewrite map_map. apply map_ext.
  intro x. destruct (is_cp c x); [apply Hch | reflexivity].
Qed.

Lemma transaction_update_same_keys id u w :
  same_keys w (snd (prisma.transaction.update id u w)).
Proof.
  unfold prisma.transaction.update.
  destruct (find (has_id id) (transactions w)); simpl; [|apply same_keys_refl].
  split; [|split; [reflexivity | simpl; lia]].
  simpl. now apply (rewrite_id_ids id (apply_update u)).
Qed.

Lemma updateLastSeen_same_keys c w :
  same_keys w (snd (OcppService.updateLastSeen c w)).
Proof.
  unfold OcppService.updateLastSeen, bind. simpl.
  apply (chargePoint_update_same_keys c _ (set_reads (S (reads w)) w)).
  reflexivity.
Qed.

Lemma setChargePointStatus_same_keys c s w :
  same_keys w (snd (OcppService.setChargePointStatus c s w)).
Proof.
  unfold OcppService.setChargePointStatus.
  destruct (c =? "unknown")%string; unfold bind.
  - simpl. split; [reflexivity|]. split; [|simpl; lia].
    simpl. now rewrite map_map.
  - pose proof (chargePoint_update_same_keys c (with_status s) w
                  (fun p => eq_refl)) as H.
    destruct (prisma.chargePoint.update c (with_status s) w) as [[p|e] w1];
      exact H.
Qed.

Lemma stopTransaction_same_keys data w :
  same_keys w (snd (OcppService.stopTransaction data w)).
Proof.
  unfold OcppService.stopTransaction, bind.
  pose proof (stopTransaction_resolve_world data w) as Hw.
  destruct (OcppService.stopTransaction_resolve data w) as [[id|e] w1];
    simpl in Hw; subst w1; simpl; [|apply same_keys_refl].
  apply (transaction_update_same_keys id _ (set_reads (S (reads w)) w)).
Qed.

Lemma resumeTransaction_same_keys id w :
  same_keys w (snd (OcppService.resumeTransaction id w)).
Proof.
  unfold OcppService.resumeTransaction, bind, prisma.transaction.findUnique.
  simpl. destruct (find (has_id id) (transactions w)); simpl;
    [|apply same_keys_refl].
  apply (transaction_update_same_keys id _ (set_reads (S (reads w)) w)).
Qed.

Lemma resume_loop_same_keys l w : same_keys w (snd (resume_loop l w)).
Proof.
  revert w. induction l as [|t l IH]; intro w; [apply same_keys_refl|].
  rewrite resume_loop_cons.
  pose proof (resumeTransaction_same_keys (transactionId t) w) as H.
  destruct (OcppService.resumeTransaction (transactionId t) w) as [[r|e] w1];
    simpl in *; [|exact H].
  eapply same_keys_trans; [exact H | apply IH].
Qed.

Lemma handleReconnection_same_keys c w :
  same_keys w (snd (OcppController.handleReconnection c w)).
Proof.
  unfold OcppController.handleReconnection, bind at 1.
  rewrite getActiveTransactions_eq, handleReconnection_resume_eq.
  pose proof (resume_loop_same_keys
                (sort_desc (filter (active_of c) (transactions w))) w) as H.
  destruct (resume_loop _ w) as [[r|e] w1]; exact H.
Qed.

Lemma handleMeterValues_same_keys c payload w :
  same_keys w (snd (OcppController.handleMeterValues c payload w)).
Proof.
  unfold OcppController.handleMeterValues.
  destruct (MeterValuesRequestSchema payload); [|apply same_keys_refl].
  split; [reflexivity|]. split; [reflexivity | simpl; lia].
Qed.

Lemma NoDup_snoc {A} (l : list A) (a : A) :
  NoDup l -> ~ In a l -> NoDup (l ++ [a]).
Proof.
  intros Hnd Hnot.
  apply (Permutation_NoDup (Permutation_cons_append l a)).
  now constructor.
Qed.

Lemma registerChargePoint_keyed data w :
  keyed w -> keyed (snd (OcppService.registerChargePoint data w)).
Proof.
  intros (Ht & Hc & Hs).
  unfold OcppService.registerChargePoint, bind, prisma.chargePoint.upsert. simpl.
  destruct (find (is_cp (rg_cpId data)) (chargePoints w)) eqn:E; simpl.
  - repeat split; simpl; [exact Ht | | exact Hs].
    rewrite map_map.
    erewrite map_ext; [exact Hc|].
    intro x. simpl. now destruct (is_cp (rg_cpId data) x).
  - repeat split; simpl; [exact Ht | | exact Hs].
    rewrite map_app. simpl. apply NoDup_snoc; [exact Hc|].
    intro Hin. apply in_map_iff in Hin. destruct Hin as (x & Hx & Hin).
    pose proof (find_none _ _ E x Hin) as Hn. unfold is_cp in Hn.
    rewrite Hx, String.eqb_refl in Hn. discriminate.
Qed.

Lemma startTransaction_keyed data w :
  keyed w -> keyed (snd (OcppService.startTransaction data w)).
Proof.
  intros (Ht & Hc & Hs). rewrite startTransaction_eq.
  destruct (hd_error _) as [e|]; simpl.
  - destruct (idTag e =? ct_idTag data)%string; simpl; repeat split; assumption.
  - unfold prisma.transaction.create.
    destruct (existsb _ _); simpl; repeat split; simpl; try assumption.
    + rewrite map_app. simpl. apply NoDup_snoc; [exact Ht|].
      intro Hin. rewrite Forall_forall in Hs. specialize (Hs _ Hin). lia.
    + rewrite map_app. apply Forall_app. split.
      * eapply Forall_impl; [|exact Hs]. intros id Hid. simpl in Hid. lia.
      * simpl. constructor; [simpl; lia | constructor].
    + eapply Forall_impl; [|exact Hs]. intros id Hid. simpl in Hid. lia.
Qed.

(** Whatever the request, the keys stay keys. *)
Lemma exec_keyed r w : keyed w -> keyed (exec r w).
Proof.
  intro Hk. destruct r; unfold exec, swallow.
  - now apply registerChargePoint_keyed.
  - eapply keyed_same_keys; [exact Hk | apply updateLastSeen_same_keys].
  - eapply keyed_same_keys; [exact Hk | apply setChargePointStatus_same_keys].
  - now apply startTransaction_keyed.
  - eapply keyed_same_keys; [exact Hk | apply stopTransaction_same_keys].
  - eapply keyed_same_keys; [exact Hk | apply resumeTransaction_same_keys].
  - rewrite getActiveTransactions_eq. exact Hk.
  - eapply keyed_same_keys; [exact Hk | apply handleMeterValues_same_keys].
  - eapply keyed_same_keys; [exact Hk | apply handleReconnection_same_keys].
  - unfold SimpleOcppServer.open, swallow. simpl.
    eapply keyed_same_keys; [exact Hk|].
    eapply same_keys_trans;
      [apply setChargePointStatus_same_keys | apply handleReconnection_same_keys].
  - unfold SimpleOcppServer.close, swallow.
    eapply keyed_same_keys; [exact Hk|].
    eapply same_keys_trans;
      [apply updateLastSeen_same_keys | apply setChargePointStatus_same_keys].
Qed.

Lemma run_keyed rs w : keyed w -> keyed (run rs w).
Proof.
  revert w. induction rs as [|r rs IH]; intros w Hk; simpl; [exact Hk|].
  apply IH, exec_keyed, Hk.
Qed.

(** Served one at a time from the empty database, the requests only
    reach states with exclusive connectors and sound keys. *)
Lemma sequential_states rs clk :
  exclusive (transactions (run rs (init clk))) /\ keyed (run rs (init clk)).
Proof.
  split; [apply sequential_exclusive|].
  apply run_keyed. repeat split; simpl; constructor.
Qed.

(* ================================================================== *)
(** ** The scenarios of the specification, run *)

(** BootNotification, then a start on connector 1 with no transaction
    before: transaction 1; then the stop of transaction 1: completed. *)
Example scenario_boot_start_stop :
  exists t1 w1 t2 w2,
    OcppService.startTransaction start_RFID123456 w_booted = (Return t1, w1)
    /\ transactionId t1 = 1 /\ status t1 = "active"
    /\ OcppService.stopTransaction stop_by_id w1 = (Return t2, w2)
    /\ transactionId t2 = 1 /\ status t2 = "completed"
    /\ meterStop t2 = Some 2000
    /\ map status (transactions w2) = ["completed"].
Proof. do 4 eexists. repeat split. Qed.

(** A second start on connector 1 under another tag while the first
    transaction is active. *)
Example scenario_occupied_connector :
  OcppService.startTransaction start_DIFFERENT_RFID w_charging
  = (Throw (Error "Connector 1 already has an active transaction"), w_charging).
Proof. reflexivity. Qed.

(** Once transaction 1 is stopped the connector is free again, and the
    next start gets the next id. *)
Example scenario_restart_after_stop :
  exists t w,
    OcppService.startTransaction start_DIFFERENT_RFID w_stopped = (Return t, w)
    /\ transactionId t = 2
    /\ map status (transactions w) = ["completed"; "active"].
Proof. do 2 eexists. repeat split. Qed.

(** A start for a charge point that never booted is refused by the
    foreign key. *)
Example scenario_unregistered_charge_point :
  fst (OcppService.startTransaction start_RFID123456 (init sample_clock))
  = Throw P2003.
Proof. reflexivity. Qed.

(** The identity taken from the URL is its third non-empty segment. *)
Example extractCpId_samples :
  SimpleOcppServer.extractCpId "/v1/ocpp/CP001" = "CP001"
  /\ SimpleOcppServer.extractCpId "/v1/ocpp/CP001/" = "CP001"
  /\ SimpleOcppServer.extractCpId "/v1/CP001" = "unknown"
  /\ SimpleOcppServer.extractCpId "/v1/" = "unknown"
  /\ SimpleOcppServer.extractCpId "/v1/a/b/c" = "b".
Proof. repeat split. Qed.

(** In every state reached by requests served one at a time, a start
    replays or conflicts according to the tag of the one active
    transaction of its connector. *)
Lemma sequential_start rs clk data t :
  let w := run rs (init clk) in
  In t (transactions w) ->
  active_on (ct_cpId data) (ct_connectorId data) t = true ->
  OcppService.startTransaction data w
  = (if (idTag t =? ct_idTag data)%string
     then Return t
     else Throw (Error ("Connector " +++ show_Z (ct_connectorId data)
                          +++ " already has an active transaction")), w).
Proof.
  intros w Hin Hact.
  pose proof (sequential_exclusive rs clk) as Hex. fold w in Hex.
  destruct (String.eqb_spec (idTag t) (ct_idTag data)) as [E|E].
  - exact (start_replay w data t Hex Hin Hact E).
  - exact (start_conflict w data t Hex Hin Hact E).
Qed.

(* ================================================================== *)
(** * Further properties of the code *)

(** ** The identity taken from the URL *)

Lemma append_assoc_string a b c : (a +++ b) +++ c = a +++ (b +++ c).
Proof. induction a as [|x a IH]; simpl; [reflexivity | now rewrite IH]. Qed.

Lemma append_empty_r a : a +++ "" = a.
Proof. induction a as [|x a IH]; simpl; [reflexivity | now rewrite IH]. Qed.

Lemma split_slash_aux_last s cur :
  no_slash s = true -> split_slash_aux s cur = [cur +++ s].
Proof.
  revert cur. induction s as [|c s IH]; intros cur H; simpl in *.
  - now rewrite append_empty_r.
  - apply andb_true_iff in H. destruct H as [Hc Hs].
    apply negb_true_iff in Hc. rewrite Hc, (IH _ Hs), append_assoc_string.
    reflexivity.
Qed.

Lemma split_slash_aux_segment s rest cur :
  no_slash s = true ->
  split_slash_aux (s +++ String "/" rest) cur
  = (cur +++ s) :: split_slash_aux rest "".
Proof.
  revert cur. induction s as [|c s IH]; intros cur H; simpl in *.
  - now rewrite append_empty_r.
  - apply andb_true_iff in H. destruct H as [Hc Hs].
    apply negb_true_iff in Hc. rewrite Hc, (IH _ Hs), append_assoc_string.
    reflexivity.
Qed.

Lemma nonempty_true s : nonempty s = true <-> s <> "".
Proof.
  unfold nonempty. rewrite negb_true_iff. apply String.eqb_neq.
Qed.

(** The parts of a path of at least three segments. *)
Lemma parts_of_three a b id tail :
  no_slash a = true -> no_slash b = true -> no_slash id = true ->
  a <> "" -> b <> "" -> id <> "" ->
  (filter nonempty (split_slash ("/" +++ a +++ "/" +++ b +++ "/" +++ id))
   = [a; b; id])
  /\ (filter nonempty
        (split_slash ("/" +++ a +++ "/" +++ b +++ "/" +++ id +++ "/" +++ tail))
      = a :: b :: id :: filter nonempty (split_slash tail)).
Proof.
  intros Ha Hb Hi Na Nb Ni.
  apply nonempty_true in Na, Nb, Ni.
  unfold split_slash. split.
  - change ("/" +++ a +++ "/" +++ b +++ "/" +++ id)
      with ("" +++ String "/" (a +++ String "/" (b +++ String "/" id))).
    rewrite split_slash_aux_segment by reflexivity.
    rewrite (split_slash_aux_segment a _ "" Ha).
    rewrite (split_slash_aux_segment b _ "" Hb).
    rewrite (split_slash_aux_last id "" Hi).
    simpl. now rewrite Na, Nb, Ni.
  - change ("/" +++ a +++ "/" +++ b +++ "/" +++ id +++ "/" +++ tail)
      with ("" +++ String "/"
               (a +++ String "/" (b +++ String "/" (id +++ String "/" tail)))).
    rewrite split_slash_aux_segment by reflexivity.
    rewrite (split_slash_aux_segment a _ "" Ha).
    rewrite (split_slash_aux_segment b _ "" Hb).
    rewrite (split_slash_aux_segment id _ "" Hi).
    simpl. now rewrite Na, Nb, Ni.
Qed.

(** X1. The identity of a connection is the third non-empty segment of
    its path, whatever follows it: a URL made of two non-empty segments
    and an identity gives that identity back, with or without a tail. The
    identity is never the empty string, and a path of two segments only,
    as [/v1/CP001], has the identity [unknown]. *)
Theorem extractCpId_third_segment (a b id : string) :
  no_slash a = true -> no_slash b = true -> no_slash id = true ->
  a <> "" -> b <> "" -> id <> "" ->
  SimpleOcppServer.extractCpId ("/" +++ a +++ "/" +++ b +++ "/" +++ id) = id
  /\ (forall tail,
        SimpleOcppServer.extractCpId
          ("/" +++ a +++ "/" +++ b +++ "/" +++ id +++ "/" +++ tail) = id)
  /\ SimpleOcppServer.extractCpId ("/" +++ a +++ "/" +++ b) = "unknown"
  /\ SimpleOcppServer.extractCpId ("/" +++ a +++ "/" +++ b +++ "/") = "unknown"
  /\ (forall url, SimpleOcppServer.extractCpId url <> "").
Proof.
  intros Ha Hb Hi Na Nb Ni.
  destruct (parts_of_three a b id "" Ha Hb Hi Na Nb Ni) as [H3 _].
  apply nonempty_true in Ni.
  split; [|split; [|split; [|split]]].
  - unfold SimpleOcppServer.extractCpId. rewrite H3. simpl. now rewrite Ni.
  - intro tail.
    destruct (parts_of_three a b id tail Ha Hb Hi Na Nb (proj1 (nonempty_true id) Ni))
      as [_ H4].
    unfold SimpleOcppServer.extractCpId. rewrite H4. simpl. now rewrite Ni.
  - unfold SimpleOcppServer.extractCpId, split_slash.
    change ("/" +++ a +++ "/" +++ b) with ("" +++ String "/" (a +++ String "/" b)).
    rewrite split_slash_aux_segment by reflexivity.
    rewrite (split_slash_aux_segment a _ "" Ha), (split_slash_aux_last b "" Hb).
    simpl. apply nonempty_true in Na, Nb. now rewrite Na, Nb.
  - unfold SimpleOcppServer.extractCpId, split_slash.
    change ("/" +++ a +++ "/" +++ b +++ "/")
      with ("" +++ String "/" (a +++ String "/" (b +++ String "/" ""))).
    rewrite split_slash_aux_segment by reflexivity.
    rewrite (split_slash_aux_segment a _ "" Ha), (split_slash_aux_segment b _ "" Hb).
    simpl. apply nonempty_true in Na, Nb. now rewrite Na, Nb.
  - intro url. unfold SimpleOcppServer.extractCpId, str_or.
    destruct (nth_error _ 2) as [x|]; [|discriminate].
    destruct (nonempty x) eqn:E; [|discriminate].
    now apply nonempty_true.
Qed.

Lemma extractCpId_third_segment_witness :
  SimpleOcppServer.extractCpId "/v1/ocpp/CP001" = "CP001"
  /\ SimpleOcppServer.extractCpId "/v1/ocpp/CP001/extra/parts" = "CP001"
  /\ SimpleOcppServer.extractCpId "/v1/ocpp" = "unknown".
Proof.
  destruct (extractCpId_third_segment "v1" "ocpp" "CP001")
    as (H1 & H2 & H3 & _); try reflexivity; try discriminate.
  split; [exact H1|]. split; [exact (H2 "extra/parts") | exact H3].
Defined.

(** ** Frames in, frames out *)

(** X2. A message that is not a CALL of at least three elements never
    reaches a handler and leaves the world as it is: a text that does not
    parse is answered with an [InternalError] frame, a value that is not
    an array of three elements or more with an [InvalidMessage] frame,
    both under the id [unknown]; an array whose first element is not the
    number 2 (a CALLRESULT, a CALLERROR, anything else) is answered with
    nothing at all. *)
Theorem handleMessage_not_a_call (h : SimpleOcppServer.Handlers)
    (u : option string) (w : World) :
  (forall e,
      SimpleOcppServer.handleMessage h u (inl e) w
      = ([JArr [JNum 4; JStr "unknown"; JStr "InternalError";
                JStr (exn_message e); JObj []]], w))
  /\ (forall v,
        (forall items, v = JArr items -> (List.length items < 3)%nat) ->
        SimpleOcppServer.handleMessage h u (inr v) w
        = ([JArr [JNum 4; JStr "unknown"; JStr "InvalidMessage";
                  JStr "Invalid OCPP message format"; JObj []]], w))
  /\ (forall messageType uniqueId action rest,
        messageType <> JNum 2 ->
        SimpleOcppServer.handleMessage h u
          (inr (JArr (messageType :: uniqueId :: action :: rest))) w
        = ([], w)).
Proof.
  split; [|split].
  - reflexivity.
  - intros v Hshort. unfold SimpleOcppServer.handleMessage.
    destruct v as [| | | |items|]; try reflexivity.
    specialize (Hshort items eq_refl).
    destruct items as [|x1 [|x2 [|x3 rest]]]; try reflexivity.
    simpl in Hshort. lia.
  - intros messageType uniqueId action rest Hty.
    unfold SimpleOcppServer.handleMessage.
    destruct messageType as [| |n| | |]; try reflexivity.
    destruct n as [|p|p]; try reflexivity.
    destruct p as [p|p|]; try reflexivity.
    destruct p as [p|p|]; try reflexivity.
    exfalso. now apply Hty.
Qed.

Lemma handleMessage_not_a_call_witness :
  SimpleOcppServer.handleMessage (controller answers_empty) (Some "CP001")
    (inr (JArr [JNum 2; JStr "42"])) w_charging
  = ([JArr [JNum 4; JStr "unknown"; JStr "InvalidMessage";
            JStr "Invalid OCPP message format"; JObj []]], w_charging)
  /\ SimpleOcppServer.handleMessage (controller answers_empty) (Some "CP001")
       (inr (JArr [JNum 3; JStr "42"; JObj []])) w_charging
     = ([], w_charging).
Proof.
  destruct (handleMessage_not_a_call (controller answers_empty) (Some "CP001")
              w_charging) as (_ & Hshort & Hother).
  split.
  - apply Hshort. intros items E. injection E as <-. simpl. lia.
  - apply Hother. discriminate.
Defined.

(** A CALL, in terms of the dispatcher. *)
Lemma handleMessage_call h u uniqueId action rest w :
  SimpleOcppServer.handleMessage h u
    (inr (JArr (JNum 2 :: uniqueId :: action :: rest))) w
  = match SimpleOcppServer.handleAction h (str_or u "unknown") action
            (js_or (hd_error rest) (JObj [])) w with
    | (Return response, w') => ([JArr [JNum 3; uniqueId; response]], w')
    | (Throw e, w') =>
        ([JArr [JNum 4; JStr "unknown"; JStr "InternalError";
                JStr (exn_message e); JObj []]], w')
    end.
Proof. reflexivity. Qed.

(** ** Registration *)

Lemma registered_find c w :
  registered c w = false <-> find (is_cp c) (chargePoints w) = None.
Proof.
  unfold registered. induction (chargePoints w) as [|x l IH]; simpl.
  - tauto.
  - destruct (is_cp c x); simpl; [split; discriminate | exact IH].
Qed.

Lemma find_is_cp_found c cps p :
  find (is_cp c) cps = Some p -> cp_cpId p = c /\ In p cps.
Proof.
  intro H. apply find_some in H. destruct H as [Hin Hc].
  split; [now apply String.eqb_eq in Hc | exact Hin].
Qed.

Lemma existsb_is_cp_map c (f : ChargePoint -> ChargePoint) cps :
  (forall x, cp_cpId (f x) = cp_cpId x) ->
  existsb (is_cp c) (map f cps) = existsb (is_cp c) cps.
Proof.
  intro Hf. induction cps as [|x l IH]; simpl; [reflexivity|].
  unfold is_cp at 1 3. now rewrite Hf, IH.
Qed.

Lemma find_is_cp_map c (f : ChargePoint -> ChargePoint) cps p :
  (forall x, cp_cpId (f x) = cp_cpId x) ->
  find (is_cp c) cps = Some p ->
  find (is_cp c) (map (fun x => if is_cp c x then f x else x) cps) = Some (f p).
Proof.
  intros Hf. induction cps as [|x l IH]; simpl; [discriminate|].
  destruct (is_cp c x) eqn:E.
  - intro H. injection H as <-. simpl.
    unfold is_cp at 1. rewrite Hf. unfold is_cp in E. now rewrite E.
  - intro H. simpl. rewrite E. now apply IH.
Qed.

(** X3. [registerChargePoint] is an upsert by name. For a name without
    row it appends one row, with status [Available], the second clock
    reading as [lastSeen] and the members given. For a name that has a
    row it adds none: the row keeps its name and its status (a charge
    point that is [Offline] stays so when it boots again), takes the
    first clock reading as [lastSeen], and keeps every member the caller
    left undefined. Either way the name has a row afterwards, the rows of
    other names are still there, and neither the transactions nor the
    sequence are touched. *)
Theorem registerChargePoint_upsert (data : RegisterData) (w : World) :
  let c := rg_cpId data in
  let w' := snd (OcppService.registerChargePoint data w) in
  (registered c w = false ->
   exists row,
     OcppService.registerChargePoint data w = (Return row, w')
     /\ chargePoints w' = chargePoints w ++ [row]
     /\ cp_cpId row = c
     /\ cp_status row = Some "Available"
     /\ cp_lastSeen row = Some (clock w (S (reads w)))
     /\ cp_vendor row = rg_vendor data
     /\ cp_model row = rg_model data
     /\ cp_additionalInfo row = rg_additionalInfo data)
  /\ (forall p,
        find (is_cp c) (chargePoints w) = Some p ->
        exists row,
          OcppService.registerChargePoint data w = (Return row, w')
          /\ find (is_cp c) (chargePoints w') = Some row
          /\ map cp_cpId (chargePoints w') = map cp_cpId (chargePoints w)
          /\ cp_cpId row = c
          /\ cp_status row = cp_status p
          /\ cp_lastSeen row = Some (clock w (reads w))
          /\ cp_vendor row = keep (rg_vendor data) (cp_vendor p)
          /\ cp_model row = keep (rg_model data) (cp_model p)
          /\ cp_additionalInfo row
             = keep (rg_additionalInfo data) (cp_additionalInfo p))
  /\ registered c w' = true
  /\ (forall q, In q (chargePoints w) -> cp_cpId q <> c -> In q (chargePoints w'))
  /\ transactions w' = transactions w
  /\ transaction_id_seq w' = transaction_id_seq w
  /\ reads w' = S (S (reads w)).
Proof.
  intros c w'. subst c w'.
  unfold OcppService.registerChargePoint, bind, newDate, prisma.chargePoint.upsert.
  simpl.
  destruct (find (is_cp (rg_cpId data)) (chargePoints w)) as [p|] eqn:Hfind.
  - split; [|split; [|split; [|split]]].
    + intro Hreg. apply registered_find in Hreg. congruence.
    + intros p0 Hp0. injection Hp0 as <-.
      destruct (find_is_cp_found _ _ _ Hfind) as [Hname _].
      eexists. split; [reflexivity|]. simpl.
      split.
      { lazymatch goal with
        | |- context [map (fun x => if is_cp _ x then @?f x else x) _] =>
            apply (find_is_cp_map (rg_cpId data) f _ p);
            [reflexivity | exact Hfind]
        end. }
      split.
      { rewrite map_map. apply map_ext. intro x.
        now destruct (is_cp (rg_cpId data) x). }
      repeat (split; [first [exact Hname | reflexivity]|]). reflexivity.
    + simpl. unfold registered. simpl.
      rewrite existsb_exists.
      destruct (find_is_cp_found _ _ _ Hfind) as [Hname Hin].
      eexists. split.
      * apply in_map_iff. exists p. split; [reflexivity | exact Hin].
      * unfold is_cp in *. apply String.eqb_eq in Hname.
        simpl. rewrite Hname. simpl. exact Hname.
    + intros q Hq Hne. simpl. apply in_map_iff. exists q.
      split; [|exact Hq].
      unfold is_cp. apply String.eqb_neq in Hne. now rewrite Hne.
    + simpl. repeat split.
  - split; [|split; [|split; [|split]]].
    + intros _. eexists. split; [reflexivity|]. simpl. repeat split.
    + intros p Hp. discriminate.
    + simpl. unfold registered. simpl. rewrite existsb_app. simpl.
      unfold is_cp at 2. simpl. rewrite String.eqb_refl.
      now rewrite orb_true_r.
    + intros q Hq _. simpl. apply in_or_app. now left.
    + simpl. repeat split.
Qed.

Lemma registerChargePoint_upsert_witness :
  (exists row,
      OcppService.registerChargePoint boot_CP001 (init sample_clock)
      = (Return row, snd (OcppService.registerChargePoint boot_CP001 (init sample_clock)))
      /\ cp_status row = Some "Available")
  /\ (exists row,
        find (is_cp "CP001")
             (chargePoints
                (snd (OcppService.registerChargePoint boot_CP001
                        (swallow (OcppService.setChargePointStatus "CP001" "Offline")
                                 w_booted))))
        = Some row
        /\ cp_status row = Some "Offline").
Proof.
  split.
  - destruct (registerChargePoint_upsert boot_CP001 (init sample_clock))
      as (Hnew & _).
    destruct (Hnew eq_refl) as (row & Hrun & _ & _ & Hst & _).
    exists row. split; [exact Hrun | exact Hst].
  - destruct (registerChargePoint_upsert boot_CP001
                (swallow (OcppService.setChargePointStatus "CP001" "Offline")
                         w_booted))
      as (_ & Hold & _).
    edestruct Hold as (row & _ & Hfind & _ & _ & Hst & _); [reflexivity|].
    exists row. split; [exact Hfind | exact Hst].
Defined.

(** ** The foreign key of [transactions] *)

Lemma registered_In c w :
  registered c w = true <-> In c (map cp_cpId (chargePoints w)).
Proof.
  unfold registered. rewrite existsb_exists, in_map_iff. split.
  - intros (p & Hin & Hc). exists p. split; [|exact Hin].
    now apply String.eqb_eq in Hc.
  - intros (p & Hc & Hin). exists p. split; [exact Hin|].
    now apply String.eqb_eq.
Qed.

Lemma referenced_incl w :
  referenced w
  <-> incl (map cpId (transactions w)) (map cp_cpId (chargePoints w)).
Proof.
  unfold referenced. rewrite Forall_forall. split.
  - intros H c Hc. apply in_map_iff in Hc. destruct Hc as (t & <- & Ht).
    apply registered_In. now apply H.
  - intros H t Ht. apply registered_In, H, in_map. exact Ht.
Qed.

Lemma rewrite_id_owners id u txs :
  map cpId (rewrite_id id (apply_update u) txs) = map cpId txs.
Proof.
  unfold rewrite_id. rewrite map_map. apply map_ext. intro x.
  now destruct (has_id id x).
Qed.

Lemma tx_changes_owners txs txs' :
  tx_changes txs txs' -> exists news, map cpId txs' = map cpId txs ++ news.
Proof.
  induction 1 as [txs | txs txs' txs'' Hstep _ IH].
  - exists []. now rewrite app_nil_r.
  - destruct IH as (news & IH). destruct Hstep as [| id u _ | row _].
    + now exists news.
    + exists news. now rewrite IH, rewrite_id_owners.
    + exists (cpId row :: news). rewrite IH, map_app. simpl.
      now rewrite <- app_assoc.
Qed.

(** A call that keeps the keys keeps the owner of every transaction. *)
Lemma same_keys_owners w w' :
  same_keys w w' -> tx_changes (transactions w) (transactions w') ->
  map cpId (transactions w') = map cpId (transactions w).
Proof.
  intros (Hids & _ & _) Hch.
  destruct (tx_changes_owners _ _ Hch) as (news & Hnews).
  assert (Hlen : List.length news = 0%nat).
  { apply (f_equal (@List.length _)) in Hids, Hnews.
    rewrite !length_map in Hids. rewrite length_app, !length_map in Hnews. lia. }
  destruct news; [|discriminate]. now rewrite app_nil_r in Hnews.
Qed.

Lemma referenced_same_keys w w' :
  same_keys w w' -> tx_changes (transactions w) (transactions w') ->
  referenced w -> referenced w'.
Proof.
  intros Hk Hch Href. apply referenced_incl.
  rewrite (same_keys_owners _ _ Hk Hch).
  destruct Hk as (_ & -> & _). now apply referenced_incl.
Qed.

Lemma registerChargePoint_names data w :
  incl (map cp_cpId (chargePoints w))
       (map cp_cpId (chargePoints (snd (OcppService.registerChargePoint data w)))).
Proof.
  unfold OcppService.registerChargePoint, bind, newDate, prisma.chargePoint.upsert.
  simpl. destruct (find _ _); simpl.
  - rewrite map_map. intros c0 Hc. apply in_map_iff in Hc.
    destruct Hc as (x & <- & Hx). apply in_map_iff. exists x.
    split; [now destruct (is_cp (rg_cpId data) x) | exact Hx].
  - rewrite map_app. now apply incl_appl, incl_refl.
Qed.

Lemma registerChargePoint_referenced data w :
  referenced w -> referenced (snd (OcppService.registerChargePoint data w)).
Proof.
  intro Href. apply referenced_incl.
  rewrite registerChargePoint_transactions.
  eapply incl_tran; [now apply referenced_incl | apply registerChargePoint_names].
Qed.

Lemma startTransaction_referenced data w :
  referenced w -> referenced (snd (OcppService.startTransaction data w)).
Proof.
  intro Href. rewrite startTransaction_eq.
  destruct (hd_error _) as [e|]; simpl.
  - now destruct (idTag e =? ct_idTag data)%string.
  - unfold prisma.transaction.create.
    destruct (existsb _ _) eqn:E; simpl; [|exact Href].
    unfold referenced in *. simpl. apply Forall_app. split; [exact Href|].
    constructor; [exact E | constructor].
Qed.

Lemma exec_referenced r w : referenced w -> referenced (exec r w).
Proof.
  intro Href.
  assert (Hkeep : same_keys w (exec r w) -> referenced (exec r w)).
  { intro Hk. exact (referenced_same_keys w _ Hk (exec_changes r w) Href). }
  destruct r; unfold exec, swallow in *.
  - now apply registerChargePoint_referenced.
  - apply Hkeep, updateLastSeen_same_keys.
  - apply Hkeep, setChargePointStatus_same_keys.
  - now apply startTransaction_referenced.
  - apply Hkeep, stopTransaction_same_keys.
  - apply Hkeep, resumeTransaction_same_keys.
  - rewrite getActiveTransactions_eq. exact Href.
  - apply Hkeep, handleMeterValues_same_keys.
  - apply Hkeep, handleReconnection_same_keys.
  - apply Hkeep. unfold SimpleOcppServer.open, swallow. simpl.
    eapply same_keys_trans;
      [apply setChargePointStatus_same_keys | apply handleReconnection_same_keys].
  - apply Hkeep. unfold SimpleOcppServer.close, swallow.
    eapply same_keys_trans;
      [apply updateLastSeen_same_keys | apply setChargePointStatus_same_keys].
Qed.

(** X4. The service never leaves a transaction without its charge point:
    from a state in which every transaction belongs to a charge point
    that has a row, whatever requests are served one after the other,
    every transaction of the state reached belongs to a charge point that
    has a row. No call removes or renames a charge point, and a start
    for a name without row is refused by the foreign key. *)
Theorem run_referenced (rs : list Request) (w : World) :
  referenced w -> referenced (run rs w).
Proof.
  revert w. induction rs as [|r rs IH]; intros w Href; simpl; [exact Href|].
  apply IH, exec_referenced, Href.
Qed.

Lemma run_referenced_witness :
  referenced
    (run [CallStartTransaction
            {| ct_cpId := "CP404"; ct_connectorId := 1; ct_idTag := "RFID123456";
               ct_meterStart := Some 0; ct_startTimestamp := 1758536800000 |};
          CallStartTransaction start_RFID123456;
          CloseConnection (Some "CP001");
          CallStopTransaction stop_connector1]
         w_booted).
Proof.
  apply (run_referenced _ w_booted).
  unfold referenced. simpl. constructor.
Defined.

(** ** A start on a free connector *)

Lemma start_created data w :
  registered (ct_cpId data) w = true ->
  filter (active_on (ct_cpId data) (ct_connectorId data)) (transactions w) = [] ->
  OcppService.startTransaction data w
  = (Return (started_row data (transaction_id_seq w)),
     set_transactions
       (transactions w ++ [started_row data (transaction_id_seq w)])
       (set_transaction_id_seq (transaction_id_seq w + 1) w)).
Proof.
  intros Hreg Hfree. rewrite startTransaction_eq, Hfree. simpl.
  unfold prisma.transaction.create. unfold registered in Hreg.
  now rewrite Hreg.
Qed.

Lemma start_refused data w :
  registered (ct_cpId data) w = false ->
  filter (active_on (ct_cpId data) (ct_connectorId data)) (transactions w) = [] ->
  OcppService.startTransaction data w
  = (Throw P2003, set_transaction_id_seq (transaction_id_seq w + 1) w).
Proof.
  intros Hreg Hfree. rewrite startTransaction_eq, Hfree. simpl.
  unfold prisma.transaction.create. unfold registered in Hreg.
  now rewrite Hreg.
Qed.

Lemma filter_app_one {A} (f : A -> bool) l x :
  filter f l = [] -> f x = true -> filter f (l ++ [x]) = [x].
Proof.
  intros Hl Hx. rewrite filter_app, Hl. simpl. now rewrite Hx.
Qed.

(** X5. A start on a connector without active transaction, in a state
    with sound keys. For a registered charge point it appends one row:
    active, with the fields of the request, no stop data, and as
    transactionId the value of the sequence, which is greater than every
    id of the table; the row is then the one active transaction of the
    connector. For a charge point without row the insert is refused by
    the foreign key (P2003) and no row is written, but the id is spent:
    the sequence has moved on, so the next transaction created skips it. *)
Theorem startTransaction_free_connector (data : CreateTransactionData) (w : World) :
  keyed w ->
  filter (active_on (ct_cpId data) (ct_connectorId data)) (transactions w) = [] ->
  (registered (ct_cpId data) w = true ->
   exists row w',
     OcppService.startTransaction data w = (Return row, w')
     /\ transactions w' = transactions w ++ [row]
     /\ chargePoints w' = chargePoints w
     /\ transactionId row = transaction_id_seq w
     /\ (forall t, In t (transactions w) -> transactionId t < transactionId row)
     /\ cpId row = ct_cpId data /\ connectorId row = ct_connectorId data
     /\ idTag row = ct_idTag data /\ meterStart row = ct_meterStart data
     /\ startTimestamp row = ct_startTimestamp data
     /\ status row = "active"
     /\ meterStop row = None /\ stopTimestamp row = None /\ stopReason row = None
     /\ filter (active_on (ct_cpId data) (ct_connectorId data)) (transactions w')
        = [row])
  /\ (registered (ct_cpId data) w = false ->
      exists w',
        OcppService.startTransaction data w = (Throw P2003, w')
        /\ transactions w' = transactions w
        /\ chargePoints w' = chargePoints w
        /\ transaction_id_seq w' = transaction_id_seq w + 1
        /\ forall later w1,
             registered (ct_cpId later) w1 = true ->
             filter (active_on (ct_cpId later) (ct_connectorId later))
                    (transactions w1) = [] ->
             transaction_id_seq w' <= transaction_id_seq w1 ->
             exists row w2,
               OcppService.startTransaction later w1 = (Return row, w2)
               /\ transaction_id_seq w < transactionId row).
Proof.
  intros (Hnd & _ & Hlt) Hfree. split.
  - intro Hreg. eexists. eexists.
    split; [apply (start_created data w Hreg Hfree)|].
    simpl. repeat (split; [reflexivity|]).
    split.
    { intros t Ht. rewrite Forall_forall in Hlt. apply Hlt, in_map, Ht. }
    repeat (split; [reflexivity|]).
    apply filter_app_one; [exact Hfree | apply active_on_created].
  - intro Hreg. eexists.
    split; [apply (start_refused data w Hreg Hfree)|].
    simpl. repeat (split; [reflexivity|]).
    intros later w1 Hreg1 Hfree1 Hseq. eexists. eexists.
    split; [apply (start_created later w1 Hreg1 Hfree1)|].
    simpl. lia.
Qed.

Lemma startTransaction_free_connector_witness :
  (exists row w',
      OcppService.startTransaction start_connector2 w_charging = (Return row, w')
      /\ transactionId row = 2
      /\ filter (active_on "CP001" 2) (transactions w') = [row])
  /\ (exists w',
        OcppService.startTransaction
          {| ct_cpId := "CP404"; ct_connectorId := 1; ct_idTag := "RFID123456";
             ct_meterStart := Some 0; ct_startTimestamp := 1758536800000 |}
          w_charging
        = (Throw P2003, w')
        /\ transactions w' = transactions w_charging
        /\ transaction_id_seq w' = 3).
Proof.
  assert (Hk : keyed w_charging).
  { repeat split; simpl; repeat constructor; simpl; intuition discriminate. }
  split.
  - destruct (startTransaction_free_connector start_connector2 w_charging Hk eq_refl)
      as (Hnew & _).
    destruct (Hnew eq_refl)
      as (row & w' & Hrun & _ & _ & Hid & _ & _ & _ & _ & _ & _ & _ & _ & _ & _ & Hact).
    exists row, w'. split; [exact Hrun|]. split; [exact Hid | exact Hact].
  - destruct (startTransaction_free_connector
                {| ct_cpId := "CP404"; ct_connectorId := 1; ct_idTag := "RFID123456";
                   ct_meterStart := Some 0; ct_startTimestamp := 1758536800000 |}
                w_charging Hk eq_refl)
      as (_ & Hrefused).
    destruct (Hrefused eq_refl) as (w' & Hrun & Htx & _ & Hseq & _).
    exists w'. split; [exact Hrun|]. split; [exact Htx | exact Hseq].
Defined.

(** ** A stop frees the connector *)

Lemma find_has_id_unique txs t :
  NoDup (map transactionId txs) -> In t txs ->
  find (has_id (transactionId t)) txs = Some t.
Proof.
  intros Hnd Hin.
  destruct (find_has_id_present (transactionId t) txs t Hin eq_refl) as (t1 & H1).
  rewrite H1. f_equal.
  apply find_some in H1. destruct H1 as [Hin1 Hid1].
  unfold has_id in Hid1. apply Z.eqb_eq in Hid1.
  exact (unique_by_id txs t1 t Hnd Hin1 Hin Hid1).
Qed.

Lemma filter_filter_same {A} (f g : A -> bool) l :
  (forall x, In x l -> f x = true -> g x = true) ->
  filter f (filter g l) = filter f l.
Proof.
  induction l as [|x l IH]; intro H; simpl; [reflexivity|].
  assert (IH' : filter f (filter g l) = filter f l).
  { apply IH. intros y Hy. apply H. now right. }
  destruct (g x) eqn:Eg; simpl.
  - now rewrite IH'.
  - destruct (f x) eqn:Ef; [|exact IH'].
    specialize (H x (or_introl eq_refl) Ef). congruence.
Qed.

Lemma filter_comm {A} (f g : A -> bool) l :
  filter f (filter g l) = filter g (filter f l).
Proof.
  induction l as [|x l IH]; simpl; [reflexivity|].
  destruct (g x) eqn:Eg, (f x) eqn:Ef; simpl;
    rewrite ?Eg, ?Ef, IH; reflexivity.
Qed.

(** Once the rows named [id] are completed, the active rows of a
    connector are its active rows under other names. *)
Lemma filter_active_stopped c n id data now txs :
  filter (active_on c n) (rewrite_id id (stop_row data now) txs)
  = filter (active_on c n) (filter (fun x => negb (has_id id x)) txs).
Proof.
  unfold rewrite_id. induction txs as [|x l IH]; simpl; [reflexivity|].
  destruct (has_id id x); simpl.
  - unfold active_on at 1. simpl. rewrite andb_false_r. exact IH.
  - now rewrite IH.
Qed.

Lemma stop_by_connector data w t n :
  exclusive (transactions w) ->
  NoDup (map transactionId (transactions w)) ->
  In t (transactions w) ->
  active_on (st_cpId data) n t = true ->
  st_transactionId data = None \/ st_transactionId data = Some 0 ->
  st_connectorId data = Some n ->
  OcppService.stopTransaction data w
  = (Return (stop_row data (clock w (reads w)) t),
     set_transactions
       (rewrite_id (transactionId t) (stop_row data (clock w (reads w)))
                   (transactions w))
       (set_reads (S (reads w)) w)).
Proof.
  intros Hex Hnd Hin Hact Hid Hconn.
  assert (Hres : OcppService.stopTransaction_resolve data w
                 = (Return (transactionId t), w)).
  { rewrite (stopTransaction_resolve_search data Hid), stopTransaction_search_eq.
    rewrite (stop_where_connector data n Hconn).
    rewrite (filter_ext _ _ (matches_start_where (st_cpId data) n)).
    now rewrite (exclusive_lookup _ _ _ _ Hex Hin Hact). }
  rewrite (stopTransaction_after_resolve data w (transactionId t));
    [|now rewrite Hres].
  unfold prisma.transaction.update. simpl.
  now rewrite (find_has_id_unique _ _ Hnd Hin).
Qed.

(** X6. In a state with exclusive connectors and sound keys, a stop by
    connector (no transactionId, or 0) completes the active transaction
    of that connector and leaves the connector without active
    transaction, while the active transactions of every other connector
    are what they were. A start on the connector then creates a new
    transaction under a new id, also when it carries the idTag of the
    transaction just stopped: the replay of a start is answered with the
    old row only as long as that row is active. *)
Theorem stop_frees_connector (data : StopTransactionData) (w : World)
    (t : Transaction) (n : Z) :
  exclusive (transactions w) -> keyed w -> referenced w ->
  In t (transactions w) ->
  active_on (st_cpId data) n t = true ->
  st_transactionId data = None \/ st_transactionId data = Some 0 ->
  st_connectorId data = Some n ->
  exists w',
    OcppService.stopTransaction data w
    = (Return (stop_row data (clock w (reads w)) t), w')
    /\ filter (active_on (st_cpId data) n) (transactions w') = []
    /\ (forall c' n',
          c' <> st_cpId data \/ n' <> n ->
          filter (active_on c' n') (transactions w')
          = filter (active_on c' n') (transactions w))
    /\ (forall next,
          ct_cpId next = st_cpId data -> ct_connectorId next = n ->
          exists row w'',
            OcppService.startTransaction next w' = (Return row, w'')
            /\ transactions w'' = transactions w' ++ [row]
            /\ status row = "active"
            /\ transactionId row <> transactionId t
            /\ filter (active_on (st_cpId data) n) (transactions w'') = [row]).
Proof.
  intros Hex (Hnd & _ & Hlt) Href Hin Hact Hid Hconn.
  eexists. split; [apply (stop_by_connector data w t n Hex Hnd Hin Hact Hid Hconn)|].
  simpl transactions.
  pose proof (exclusive_lookup _ _ _ _ Hex Hin Hact) as Hone.
  assert (Hfree : filter (active_on (st_cpId data) n)
                    (rewrite_id (transactionId t)
                       (stop_row data (clock w (reads w))) (transactions w)) = []).
  { rewrite filter_active_stopped, filter_comm, Hone. simpl.
    unfold has_id. now rewrite Z.eqb_refl. }
  split; [exact Hfree|]. split.
  - intros c' n' Hother. rewrite filter_active_stopped.
    apply filter_filter_same. intros x Hx Hax.
    apply negb_true_iff. unfold has_id. apply Z.eqb_neq. intro Hsame.
    assert (x = t) by exact (unique_by_id _ x t Hnd Hx Hin Hsame). subst x.
    apply active_on_true in Hax, Hact.
    destruct Hax as (Hc1 & Hn1 & _), Hact as (Hc2 & Hn2 & _).
    destruct Hother as [Hc|Hn]; congruence.
  - intros next Hc Hn.
    assert (Hreg : registered (ct_cpId next)
                     (set_transactions
                        (rewrite_id (transactionId t)
                           (stop_row data (clock w (reads w))) (transactions w))
                        (set_reads (S (reads w)) w)) = true).
    { unfold referenced in Href. rewrite Forall_forall in Href.
      specialize (Href t Hin). apply active_on_true in Hact.
      destruct Hact as (Hct & _). rewrite Hc, <- Hct. exact Href. }
    eexists. eexists.
    split.
    { apply start_created; [exact Hreg|]. simpl transactions.
      rewrite Hc, Hn. exact Hfree. }
    simpl. split; [reflexivity|]. split; [reflexivity|]. split.
    + rewrite Forall_forall in Hlt.
      specialize (Hlt (transactionId t) (in_map _ _ _ Hin)). lia.
    + rewrite <- Hc, <- Hn. apply filter_app_one.
      * rewrite Hc, Hn. exact Hfree.
      * apply active_on_created.
Qed.

Lemma stop_frees_connector_witness :
  exists row w' w'',
    fst (OcppService.stopTransaction stop_connector1 w_charging)
    = Return (stop_row stop_connector1 (sample_clock 4) (started_row start_RFID123456 1))
    /\ w' = snd (OcppService.stopTransaction stop_connector1 w_charging)
    /\ filter (active_on "CP001" 1) (transactions w') = []
    /\ OcppService.startTransaction start_RFID123456 w' = (Return row, w'')
    /\ transactionId row <> 1.
Proof.
  assert (Hk : keyed w_charging).
  { repeat split; simpl; repeat constructor; simpl; intuition discriminate. }
  assert (Hex : exclusive (transactions w_charging)).
  { intros c n. simpl. destruct (active_on c n _); simpl; lia. }
  assert (Href : referenced w_charging).
  { unfold referenced. simpl. repeat constructor. }
  destruct (stop_frees_connector stop_connector1 w_charging
              (started_row start_RFID123456 1) 1 Hex Hk Href)
    as (w' & Hrun & Hfree & _ & Hnext);
    [left; reflexivity | reflexivity | left; reflexivity | reflexivity |].
  destruct (Hnext start_RFID123456 eq_refl eq_refl)
    as (row & w'' & Hstart & _ & _ & Hid & _).
  exists row, w', w''.
  split; [now rewrite Hrun|].
  split; [now rewrite Hrun|].
  split; [exact Hfree|]. split; [exact Hstart | exact Hid].
Defined.

(** ** Counting reconnections *)

Lemma find_rewrite_id id f txs t :
  (forall x, transactionId (f x) = transactionId x) ->
  find (has_id id) txs = Some t ->
  find (has_id id) (rewrite_id id f txs) = Some (f t).
Proof.
  intros Hf. unfold rewrite_id.
  induction txs as [|x l IH]; simpl; [discriminate|].
  destruct (has_id id x) eqn:E.
  - intro H. injection H as <-. simpl.
    unfold has_id in *. now rewrite Hf, E.
  - intro H. simpl. rewrite E. now apply IH.
Qed.

Lemma In_rewrite_id_other id f txs x :
  In x txs -> transactionId x <> id -> In x (rewrite_id id f txs).
Proof.
  intros Hin Hne. unfold rewrite_id. apply in_map_iff. exists x.
  split; [|exact Hin]. unfold has_id. apply Z.eqb_neq in Hne. now rewrite Hne.
Qed.

(** One resume under sound keys. *)
Lemma resume_once id w t :
  NoDup (map transactionId (transactions w)) ->
  find (has_id id) (transactions w) = Some t ->
  swallow (OcppService.resumeTransaction id) w
  = set_transactions
      (rewrite_id id (resume_row (clock w (reads w))) (transactions w))
      (set_reads (S (reads w)) w).
Proof.
  intros Hnd Hfind.
  destruct (find_some _ _ Hfind) as [Hin Hid].
  unfold has_id in Hid. apply Z.eqb_eq in Hid.
  destruct (resumeTransaction_present id w Hnd) as (t1 & _ & Hrun).
  { rewrite <- Hid. now apply in_map. }
  unfold swallow. now rewrite Hrun.
Qed.

Lemma reconnectionCount_resumed now t :
  (reconnectionCount t = None ->
   reconnectionCount (resume_row now t) = Some (JNum 1))
  /\ (forall k, reconnectionCount t = Some (JNum k) ->
      reconnectionCount (resume_row now t) = Some (JNum (k + 1))).
Proof.
  unfold reconnectionCount, resume_row. simpl.
  destruct (resumed_info_merge now
              (match additionalInfo t with Some o => o | None => [] end))
    as (_ & Hnone & Hnum & _).
  destruct (additionalInfo t) as [o|]; split; intros; auto; discriminate.
Qed.

(** The row named [id] after [n] resumes. *)
Lemma resume_times_row n id w t :
  NoDup (map transactionId (transactions w)) ->
  find (has_id id) (transactions w) = Some t ->
  exists t',
    find (has_id id) (transactions (resume_times n id w)) = Some t'
    /\ map transactionId (transactions (resume_times n id w))
       = map transactionId (transactions w)
    /\ reads (resume_times n id w) = (reads w + n)%nat
    /\ chargePoints (resume_times n id w) = chargePoints w
    /\ status t' = status t
    /\ (forall k,
          (reconnectionCount t = None /\ k = 0)
          \/ reconnectionCount t = Some (JNum k) ->
          (n = 0%nat /\ t' = t)
          \/ reconnectionCount t' = Some (JNum (k + Z.of_nat n)))
    /\ (forall x, In x (transactions w) -> transactionId x <> id ->
        In x (transactions (resume_times n id w))).
Proof.
  intros Hnd Hfind. induction n as [|n IH].
  - exists t. simpl. rewrite Nat.add_0_r. repeat split; auto.
  - destruct IH as (t1 & Hf1 & Hids & Hreads & Hcps & Hst & Hcount & Hothers).
    unfold resume_times in *. simpl Nat.iter.
    set (w1 := Nat.iter n (swallow (OcppService.resumeTransaction id)) w) in *.
    assert (Hnd1 : NoDup (map transactionId (transactions w1))) by now rewrite Hids.
    rewrite (resume_once id w1 t1 Hnd1 Hf1). simpl.
    exists (resume_row (clock w1 (reads w1)) t1).
    split; [now apply find_rewrite_id|].
    split; [now rewrite rewrite_id_ids|].
    split; [lia|]. split; [exact Hcps|]. split; [exact Hst|].
    split.
    + intros k Hk. right.
      destruct (reconnectionCount_resumed (clock w1 (reads w1)) t1) as [Hnone Hnum].
      destruct (Hcount k Hk) as [[-> ->] | Hc].
      * destruct Hk as [[Hk ->] | Hk]; [now rewrite (Hnone Hk)|].
        rewrite (Hnum k Hk); do 2 f_equal; lia.
      * rewrite (Hnum _ Hc); do 2 f_equal; lia.
    + intros x Hx Hne. apply In_rewrite_id_other; [now apply Hothers | exact Hne].
Qed.

Lemma reconnectionCount_stopped data now t :
  reconnectionCount (stop_row data now t) = None.
Proof.
  unfold reconnectionCount, stop_row, json_of_stop. simpl.
  destruct (st_transactionId data), (st_connectorId data), (st_idTag data),
    (st_meterStop data), (st_stopReason data); reflexivity.
Qed.

(** X7. Every resume of a transaction adds one to the [reconnectionCount]
    of its bag: after [n] resumes in a row the count is [n] when the bag
    had none, and [k + n] when it held the number [k]. The resumes leave
    the status of the row as it is, whether [active] or [completed] (a
    resume does not ask for an active transaction), take one clock
    reading each, and leave every other row and every charge point
    alone. A stop writes a new bag: the count is gone, and the next
    resume starts again at 1. *)
Theorem resume_counts (n : nat) (id : Z) (w : World) (t : Transaction) :
  NoDup (map transactionId (transactions w)) ->
  In t (transactions w) -> transactionId t = id ->
  exists t',
    find (has_id id) (transactions (resume_times n id w)) = Some t'
    /\ status t' = status t
    /\ (reconnectionCount t = None -> (0 < n)%nat ->
        reconnectionCount t' = Some (JNum (Z.of_nat n)))
    /\ (forall k, reconnectionCount t = Some (JNum k) ->
        reconnectionCount t' = Some (JNum (k + Z.of_nat n)))
    /\ reads (resume_times n id w) = (reads w + n)%nat
    /\ chargePoints (resume_times n id w) = chargePoints w
    /\ (forall x, In x (transactions w) -> transactionId x <> id ->
        In x (transactions (resume_times n id w)))
    /\ (forall data now,
          reconnectionCount (stop_row data now t') = None
          /\ forall later,
               reconnectionCount (resume_row later (stop_row data now t'))
               = Some (JNum 1)).
Proof.
  intros Hnd Hin Hid.
  assert (Hfind : find (has_id id) (transactions w) = Some t).
  { rewrite <- Hid. now apply find_has_id_unique. }
  destruct (resume_times_row n id w t Hnd Hfind)
    as (t' & Hf & _ & Hr & Hc & Hs & Hcount & Ho).
  exists t'. split; [exact Hf|]. split; [exact Hs|].
  split.
  { intros Hnone Hn. destruct (Hcount 0) as [[-> _] | H]; [now left | lia |].
    now rewrite H. }
  split.
  { intros k Hk. destruct (Hcount k) as [[-> ->] | H]; [now right | | exact H].
    rewrite Hk; do 2 f_equal; simpl; lia. }
  split; [exact Hr|]. split; [exact Hc|]. split; [exact Ho|].
  intros data now. split; [apply reconnectionCount_stopped|].
  intro later.
  apply (proj1 (reconnectionCount_resumed later (stop_row data now t'))).
  apply reconnectionCount_stopped.
Qed.

Lemma resume_counts_witness :
  exists t',
    find (has_id 1) (transactions (resume_times 3 1 w_stopped)) = Some t'
    /\ status t' = "completed"
    /\ reconnectionCount t' = Some (JNum 3).
Proof.
  assert (Hnd : NoDup (map transactionId (transactions w_stopped))).
  { simpl. repeat constructor. simpl. intuition. }
  edestruct (resume_counts 3 1 w_stopped) as (t' & Hf & Hs & Hnone & _);
    [exact Hnd | left; reflexivity | reflexivity |].
  exists t'. split; [exact Hf|]. split; [exact Hs|].
  apply Hnone; [reflexivity | lia].
Defined.

(** ** StopTransaction as the controller calls it *)

Lemma stop_by_explicit_id data w id :
  st_transactionId data = Some id -> id <> 0 ->
  OcppService.stopTransaction data w
  = prisma.transaction.update id
      {| set_meterStop := st_meterStop data;
         set_stopTimestamp := Some (clock w (reads w));
         set_stopReason := Some (str_or (st_stopReason data) "Local");
         set_status := Some "completed";
         set_additionalInfo := Some (json_of_stop data) |}
      (set_reads (S (reads w)) w).
Proof.
  intros Hid Hnz. apply stopTransaction_after_resolve.
  unfold OcppService.stopTransaction_resolve. rewrite Hid.
  apply Z.eqb_neq in Hnz. now rewrite Hnz.
Qed.

(** X8. A StopTransaction payload that passes the schema and names a
    transactionId other than 0 stops the row of that id and no other,
    with the reading of the server's clock as stop timestamp (the
    timestamp of the payload is not used) and the meterStop of the
    payload. Neither the charge point of the connection nor the status
    of the row is looked at: the row may belong to another charge point
    and may be completed already. When no row has the id, the call
    throws P2025 after its clock reading and no table changes. *)
Theorem handleStopTransaction_by_id (c : string) (payload : JSON)
    (v : StopTransactionRequest) (w : World) :
  StopTransactionRequestSchema payload = Some v ->
  sr_transactionId v <> 0 ->
  let data :=
    {| st_transactionId := Some (sr_transactionId v); st_cpId := c;
       st_connectorId := None; st_idTag := sr_idTag v;
       st_meterStop := Some (sr_meterStop v); st_stopReason := sr_reason v |} in
  let now := clock w (reads w) in
  (forall t,
      find (has_id (sr_transactionId v)) (transactions w) = Some t ->
      OcppController.handleStopTransaction c payload w
      = (Return (JObj [("idTagInfo", JObj [("status", JStr "Accepted")])]),
         set_transactions
           (rewrite_id (sr_transactionId v) (stop_row data now) (transactions w))
           (set_reads (S (reads w)) w))
      /\ status (stop_row data now t) = "completed"
      /\ stopTimestamp (stop_row data now t) = Some now
      /\ meterStop (stop_row data now t) = Some (sr_meterStop v)
      /\ cpId (stop_row data now t) = cpId t
      /\ (forall x, In x (transactions w) ->
          transactionId x <> sr_transactionId v ->
          In x (rewrite_id (sr_transactionId v) (stop_row data now)
                           (transactions w))))
  /\ (find (has_id (sr_transactionId v)) (transactions w) = None ->
      OcppController.handleStopTransaction c payload w
      = (Throw P2025, set_reads (S (reads w)) w)).
Proof.
  intros Hparse Hnz data now.
  unfold OcppController.handleStopTransaction. rewrite Hparse.
  fold data. unfold bind.
  rewrite (stop_by_explicit_id data w (sr_transactionId v) eq_refl Hnz).
  unfold prisma.transaction.update. simpl transactions.
  split.
  - intros t Hfind. rewrite Hfind. simpl.
    split; [reflexivity|]. repeat (split; [reflexivity|]).
    intros x Hx Hne. now apply In_rewrite_id_other.
  - intro Hnone. now rewrite Hnone.
Qed.

Lemma handleStopTransaction_by_id_witness :
  exists w',
    OcppController.handleStopTransaction "CP002" payload_stop_1 w_charging
    = (Return (JObj [("idTagInfo", JObj [("status", JStr "Accepted")])]), w')
    /\ map cpId (transactions w') = ["CP001"]
    /\ map status (transactions w') = ["completed"]
    /\ map stopTimestamp (transactions w') = [Some (sample_clock 4)].
Proof.
  pose proof (handleStopTransaction_by_id "CP002" payload_stop_1 _ w_charging
                eq_refl) as H.
  cbv zeta in H. destruct H as (Hfound & _); [simpl; discriminate|].
  destruct (Hfound (started_row start_RFID123456 1) eq_refl) as (Hrun & _).
  eexists. split; [exact Hrun|]. repeat split.
Defined.

(** ** Validation comes first *)

Lemma z_array_rejects {A} (p : JSON -> option A) items x :
  In x items -> p x = None -> z_array p items = None.
Proof.
  induction items as [|y l IH]; intros Hin Hx; simpl; [destruct Hin|].
  destruct Hin as [->|Hin].
  - now rewrite Hx.
  - rewrite (IH Hin Hx). now destruct (p y).
Qed.

(** X9. The three handlers validate before they act. A payload that is
    not an object fails each schema; so does a BootNotification without
    [chargePointVendor] or [chargePointModel], a StopTransaction without
    [transactionId], [meterStop] or [timestamp], and a MeterValues in
    which one entry, or one sampled value of one entry, fails its own
    schema, however many valid ones there are beside it. A payload that
    fails the schema makes the handler throw the validation error with
    the world untouched: no clock reading, no row, no job. *)
Theorem invalid_payload_changes_nothing (c : string) (payload : JSON) (w : World) :
  ((forall o, payload <> JObj o) ->
   BootNotificationRequestSchema payload = None
   /\ StopTransactionRequestSchema payload = None
   /\ MeterValuesRequestSchema payload = None)
  /\ (forall o,
        payload = JObj o ->
        (obj_get "chargePointVendor" o = None \/ obj_get "chargePointModel" o = None ->
         BootNotificationRequestSchema payload = None)
        /\ (obj_get "transactionId" o = None \/ obj_get "meterStop" o = None
            \/ obj_get "timestamp" o = None ->
            StopTransactionRequestSchema payload = None)
        /\ (forall items entry,
              obj_get "meterValue" o = Some (JArr items) ->
              In entry items ->
              MeterValueSchema entry = None ->
              MeterValuesRequestSchema payload = None)
        /\ (forall items e samples sample,
              obj_get "meterValue" o = Some (JArr items) ->
              In (JObj e) items ->
              obj_get "sampledValue" e = Some (JArr samples) ->
              In sample samples ->
              SampledValueSchema sample = None ->
              MeterValuesRequestSchema payload = None))
  /\ (BootNotificationRequestSchema payload = None ->
      exists m,
        OcppController.handleBootNotification c payload w = (Throw (ZodError m), w))
  /\ (StopTransactionRequestSchema payload = None ->
      exists m,
        OcppController.handleStopTransaction c payload w = (Throw (ZodError m), w))
  /\ (MeterValuesRequestSchema payload = None ->
      exists m,
        OcppController.handleMeterValues c payload w = (Throw (ZodError m), w)).
Proof.
  split; [|split; [|split; [|split]]].
  - intro Hno. destruct payload as [|b|n|s|l|o]; try (repeat split; reflexivity).
    exfalso. now apply (Hno o).
  - intros o ->. split; [|split; [|split]].
    + intros [H|H]; unfold BootNotificationRequestSchema; rewrite H; simpl;
        [reflexivity|].
      now destruct (z_string (obj_get "chargePointVendor" o)).
    + intros [H|[H|H]]; unfold StopTransactionRequestSchema; rewrite H; simpl.
      * now destruct (z_number (obj_get "meterStop" o)),
          (z_string (obj_get "timestamp" o)).
      * reflexivity.
      * now destruct (z_number (obj_get "meterStop" o)).
    + intros items entry Hmv Hin Hbad. unfold MeterValuesRequestSchema.
      rewrite Hmv, (z_array_rejects MeterValueSchema items entry Hin Hbad).
      now destruct (z_number (obj_get "connectorId" o)),
        (z_optional z_number (obj_get "transactionId" o)).
    + intros items e samples sample Hmv Hin Hsv Hsin Hbad.
      unfold MeterValuesRequestSchema.
      rewrite Hmv, (z_array_rejects MeterValueSchema items (JObj e) Hin).
      * now destruct (z_number (obj_get "connectorId" o)),
          (z_optional z_number (obj_get "transactionId" o)).
      * unfold MeterValueSchema.
        rewrite Hsv, (z_array_rejects SampledValueSchema samples sample Hsin Hbad).
        now destruct (z_string (obj_get "timestamp" e)).
  - intro H. unfold OcppController.handleBootNotification. rewrite H.
    eexists. reflexivity.
  - intro H. unfold OcppController.handleStopTransaction. rewrite H.
    eexists. reflexivity.
  - intro H. unfold OcppController.handleMeterValues. rewrite H.
    eexists. reflexivity.
Qed.

Lemma invalid_payload_changes_nothing_witness :
  exists m,
    OcppController.handleStopTransaction "CP001" payload_stop_no_id w_charging
    = (Throw (ZodError m), w_charging).
Proof.
  destruct (invalid_payload_changes_nothing "CP001" payload_stop_no_id w_charging)
    as (_ & Hobj & _ & Hstop & _).
  apply Hstop.
  edestruct Hobj as (_ & Hmissing & _); [reflexivity|].
  apply Hmissing. left. reflexivity.
Defined.

(** ** BootNotification as the controller calls it *)

Lemma find_app_last {A} (f : A -> bool) l x :
  find f l = None -> f x = true -> find f (l ++ [x]) = Some x.
Proof.
  induction l as [|y l IH]; simpl; intros Hl Hx; [now rewrite Hx|].
  destruct (f y); [discriminate | now apply IH].
Qed.

(** The row of the name after [registerChargePoint]. *)
Lemma registerChargePoint_row data w :
  exists row,
    OcppService.registerChargePoint data w
    = (Return row, snd (OcppService.registerChargePoint data w))
    /\ find (is_cp (rg_cpId data))
            (chargePoints (snd (OcppService.registerChargePoint data w)))
       = Some row
    /\ cp_vendor row = keep (rg_vendor data) (cp_vendor row)
    /\ cp_model row = keep (rg_model data) (cp_model row)
    /\ cp_additionalInfo row
       = keep (rg_additionalInfo data) (cp_additionalInfo row)
    /\ (registered (rg_cpId data) w = false -> cp_status row = Some "Available")
    /\ (forall p, find (is_cp (rg_cpId data)) (chargePoints w) = Some p ->
        cp_status row = cp_status p)
    /\ reads (snd (OcppService.registerChargePoint data w)) = S (S (reads w))
    /\ clock (snd (OcppService.registerChargePoint data w)) = clock w
    /\ transaction_id_seq (snd (OcppService.registerChargePoint data w))
       = transaction_id_seq w.
Proof.
  unfold OcppService.registerChargePoint, bind, newDate, prisma.chargePoint.upsert.
  simpl.
  destruct (find (is_cp (rg_cpId data)) (chargePoints w)) as [p|] eqn:Hfind.
  - eexists. split; [reflexivity|]. simpl. split.
    { lazymatch goal with
      | |- context [map (fun x => if is_cp _ x then @?f x else x) _] =>
          apply (find_is_cp_map (rg_cpId data) f _ p);
          [reflexivity | exact Hfind]
      end. }
    split; [now destruct (rg_vendor data)|].
    split; [now destruct (rg_model data)|].
    split; [now destruct (rg_additionalInfo data)|].
    split.
    { intro Hreg. apply registered_find in Hreg. congruence. }
    split; [|repeat split].
    intros p0 Hp0. now injection Hp0 as <-.
  - eexists. split; [reflexivity|]. simpl. split.
    { apply find_app_last; [exact Hfind|]. unfold is_cp. simpl.
      apply String.eqb_refl. }
    split; [now destruct (rg_vendor data)|].
    split; [now destruct (rg_model data)|].
    split; [now destruct (rg_additionalInfo data)|].
    split; [reflexivity|]. split; [|repeat split].
    intros p0 Hp0. discriminate.
Qed.

(** X10. A BootNotification that passes the schema is answered with
    [Accepted], the interval 300 and, as [currentTime], the third clock
    reading of the call in ISO format. Afterwards the identity of the
    connection has a row that carries the vendor and the model of the
    payload and the raw payload as [additionalInfo]; its status is
    [Available] when the row is new and the status it had otherwise. No
    transaction is touched, and a start for that identity on a connector
    without active transaction now succeeds. *)
Theorem handleBootNotification_accepted (c : string) (payload : JSON)
    (v : BootNotificationRequest) (w : World) :
  BootNotificationRequestSchema payload = Some v ->
  exists row w',
    OcppController.handleBootNotification c payload w
    = (Return (JObj [("status", JStr "Accepted");
                     ("currentTime",
                      JStr (toISOString (clock w (S (S (reads w))))));
                     ("interval", JNum 300)]), w')
    /\ find (is_cp c) (chargePoints w') = Some row
    /\ cp_vendor row = Some (bn_chargePointVendor v)
    /\ cp_model row = Some (bn_chargePointModel v)
    /\ cp_additionalInfo row = Some payload
    /\ (registered c w = false -> cp_status row = Some "Available")
    /\ (forall p, find (is_cp c) (chargePoints w) = Some p ->
        cp_status row = cp_status p)
    /\ transactions w' = transactions w
    /\ reads w' = S (S (S (reads w)))
    /\ (forall data,
          ct_cpId data = c ->
          filter (active_on c (ct_connectorId data)) (transactions w) = [] ->
          exists t w'',
            OcppService.startTransaction data w' = (Return t, w'')
            /\ status t = "active" /\ cpId t = c).
Proof.
  intro Hparse. unfold OcppController.handleBootNotification. rewrite Hparse.
  set (data := {| rg_cpId := c;
                  rg_vendor := Some (bn_chargePointVendor v);
                  rg_model := Some (bn_chargePointModel v);
                  rg_firmwareVersion := bn_firmwareVersion v;
                  rg_serialNumber := bn_chargePointSerialNumber v;
                  rg_additionalInfo := Some payload |}).
  destruct (registerChargePoint_row data w)
    as (row & Hrun & Hfind & Hv & Hm & Hinfo & Hnew & Hold & Hreads & Hclk & Hseq).
  pose proof (registerChargePoint_transactions data w) as Htx.
  unfold bind at 1. rewrite Hrun.
  set (w1 := snd (OcppService.registerChargePoint data w)) in *.
  unfold bind, newDate, ret. rewrite Hclk, Hreads.
  exists row. eexists. split; [reflexivity|]. simpl.
  split; [exact Hfind|]. split; [exact Hv|]. split; [exact Hm|].
  split; [exact Hinfo|]. split; [exact Hnew|]. split; [exact Hold|].
  split; [exact Htx|]. split; [reflexivity|].
  intros start Hc Hfree.
  eexists. eexists. split.
  - apply start_created.
    + unfold registered. simpl. apply existsb_exists.
      apply find_some in Hfind. exists row. rewrite Hc. exact Hfind.
    + simpl. rewrite Htx, Hc. exact Hfree.
  - split; [reflexivity | exact Hc].
Qed.

Lemma handleBootNotification_accepted_witness :
  exists row w',
    fst (OcppController.handleBootNotification "CP003" payload_boot w_charging)
    = Return (JObj [("status", JStr "Accepted");
                    ("currentTime", JStr "2025-09-22T10:27:00.000Z");
                    ("interval", JNum 300)])
    /\ w' = snd (OcppController.handleBootNotification "CP003" payload_boot w_charging)
    /\ find (is_cp "CP003") (chargePoints w') = Some row
    /\ cp_status row = Some "Available"
    /\ cp_vendor row = Some "TestVendor".
Proof.
  destruct (handleBootNotification_accepted "CP003" payload_boot _ w_charging eq_refl)
    as (row & w' & Hrun & Hfind & Hv & _ & _ & Hnew & _).
  exists row, w'. rewrite Hrun.
  split; [reflexivity|]. split; [reflexivity|]. split; [exact Hfind|].
  split; [apply Hnew; reflexivity | exact Hv].
Defined.

(** ** CALLs through the server *)

Lemma empty_object_rejected :
  BootNotificationRequestSchema (JObj []) = None
  /\ StopTransactionRequestSchema (JObj []) = None
  /\ MeterValuesRequestSchema (JObj []) = None.
Proof. repeat split. Qed.

(** The three handlers on a payload their schema refuses. *)
Lemma refused_by_schema other c a payload w :
  (a = "BootNotification" /\ BootNotificationRequestSchema payload = None)
  \/ (a = "StopTransaction" /\ StopTransactionRequestSchema payload = None)
  \/ (a = "MeterValues" /\ MeterValuesRequestSchema payload = None) ->
  exists m,
    SimpleOcppServer.handleAction (controller other) c (JStr a) payload w
    = (Throw (ZodError m), w).
Proof.
  intros [[-> H] | [[-> H] | [-> H]]]; simpl;
    [unfold OcppController.handleBootNotification
    |unfold OcppController.handleStopTransaction
    |unfold OcppController.handleMeterValues];
    rewrite H; eexists; reflexivity.
Qed.

(** X11. What a charge point gets back for a CALL of BootNotification,
    StopTransaction or MeterValues. With no payload, or a payload that
    is falsy ([null], [0], [false], the empty string), the handler is
    given the empty object, which each of the three schemas refuses; a
    payload the schema of the action refuses fares the same: one
    CALLERROR frame with the code [InternalError] and the id [unknown],
    not the id of the call, and the world stays as it was. A MeterValues
    CALL that passes is answered with one CALLRESULT frame that carries
    the id of the call and the empty object, and puts one job on the
    queue under the identity of the connection, [unknown] when the
    socket holds none. *)
Theorem controller_call_frames (other : string -> JSON -> M JSON)
    (u : option string) (uniqueId : JSON) (rest : list JSON) (w : World) :
  (forall a,
      In a ["BootNotification"; "StopTransaction"; "MeterValues"] ->
      rest = [] \/ (exists p more, rest = p :: more /\ truthy p = false) ->
      exists m,
        SimpleOcppServer.handleMessage (controller other) u
          (inr (JArr (JNum 2 :: uniqueId :: JStr a :: rest))) w
        = ([JArr [JNum 4; JStr "unknown"; JStr "InternalError"; JStr m; JObj []]],
           w))
  /\ (forall a o more,
        rest = JObj o :: more ->
        (a = "BootNotification" /\ BootNotificationRequestSchema (JObj o) = None)
        \/ (a = "StopTransaction" /\ StopTransactionRequestSchema (JObj o) = None)
        \/ (a = "MeterValues" /\ MeterValuesRequestSchema (JObj o) = None) ->
        exists m,
          SimpleOcppServer.handleMessage (controller other) u
            (inr (JArr (JNum 2 :: uniqueId :: JStr a :: rest))) w
          = ([JArr [JNum 4; JStr "unknown"; JStr "InternalError"; JStr m; JObj []]],
             w))
  /\ (forall o more v,
        rest = JObj o :: more ->
        MeterValuesRequestSchema (JObj o) = Some v ->
        exists job,
          SimpleOcppServer.handleMessage (controller other) u
            (inr (JArr (JNum 2 :: uniqueId :: JStr "MeterValues" :: rest))) w
          = ([JArr [JNum 3; uniqueId; JObj []]],
             set_meterValuesQueue (meterValuesQueue w ++ [job]) w)
          /\ job_cpId (bj_data job)
             = match u with
               | Some x => if (x =? "")%string then "unknown" else x
               | None => "unknown"
               end
          /\ job_connectorId (bj_data job) = mvr_connectorId v).
Proof.
  split; [|split].
  - intros a Ha Hrest.
    assert (Hpay : js_or (hd_error rest) (JObj []) = JObj []).
    { destruct Hrest as [-> | (p & more & -> & Hp)]; simpl; [reflexivity|].
      now rewrite Hp. }
    destruct empty_object_rejected as (Hb & Hs & Hm).
    destruct (refused_by_schema other (str_or u "unknown") a (JObj []) w) as (m & Hrun).
    { simpl in Ha. intuition (subst; auto). }
    exists m. now rewrite handleMessage_call, Hpay, Hrun.
  - intros a o more -> Hbad.
    destruct (refused_by_schema other (str_or u "unknown") a (JObj o) w Hbad)
      as (m & Hrun).
    exists m. rewrite handleMessage_call. simpl js_or. now rewrite Hrun.
  - intros o more v -> Hparse.
    eexists. rewrite handleMessage_call. simpl js_or.
    simpl SimpleOcppServer.handleAction.
    unfold OcppController.handleMeterValues. rewrite Hparse.
    split; [reflexivity|]. split; [|reflexivity].
    simpl. unfold str_or, nonempty. destruct u as [x|]; [|reflexivity].
    now destruct (x =? "")%string.
Qed.

Lemma controller_call_frames_witness :
  (exists m,
      SimpleOcppServer.handleMessage (controller answers_empty) (Some "CP001")
        (inr (JArr [JNum 2; JStr "42"; JStr "StopTransaction"])) w_charging
      = ([JArr [JNum 4; JStr "unknown"; JStr "InternalError"; JStr m; JObj []]],
         w_charging))
  /\ (exists job,
        SimpleOcppServer.handleMessage (controller answers_empty) (Some "CP001")
          (inr (JArr [JNum 2; JStr "42"; JStr "MeterValues"; payload_2_and_1]))
          w_charging
        = ([JArr [JNum 3; JStr "42"; JObj []]],
           set_meterValuesQueue (meterValuesQueue w_charging ++ [job]) w_charging)
        /\ job_cpId (bj_data job) = "CP001").
Proof.
  split.
  - destruct (controller_call_frames answers_empty (Some "CP001") (JStr "42") []
                w_charging) as (Hnone & _).
    apply Hnone; [simpl; tauto | now left].
  - destruct (controller_call_frames answers_empty (Some "CP001") (JStr "42")
                [payload_2_and_1] w_charging) as (_ & _ & Hok).
    edestruct Hok as (job & Hrun & Hc & _); [reflexivity | reflexivity |].
    exists job. split; [exact Hrun | exact Hc].
Defined.

(** ** The connection hooks for a named charge point *)

Lemma forEach_resume_status l w :
  map status
    (transactions
       (snd (forEach (fun t => OcppService.resumeTransaction (transactionId t) ;;; ret tt)
                     l w)))
  = map status (transactions w).
Proof.
  revert w. induction l as [|t l IH]; intro w; simpl; [reflexivity|].
  unfold bind at 1. unfold bind at 1.
  pose proof (resumeTransaction_status (transactionId t) w) as Hstep.
  destruct (OcppService.resumeTransaction (transactionId t) w) as [[r|e] w1];
    simpl in *.
  - now rewrite IH.
  - exact Hstep.
Qed.

Lemma handleReconnection_status c w :
  map status (transactions (snd (OcppController.handleReconnection c w)))
  = map status (transactions w).
Proof.
  unfold OcppController.handleReconnection, bind at 1.
  unfold OcppService.getActiveTransactions, prisma.transaction.findMany.
  unfold OcppController.handleReconnection_resume, bind at 1.
  destruct (0 <? Z.of_nat (List.length _)); [|reflexivity].
  match goal with
  | |- context [forEach ?f ?l w] =>
      pose proof (forEach_resume_status l w) as H;
      destruct (forEach f l w) as [[[]|e] w1]; exact H
  end.
Qed.

Lemma setChargePointStatus_named c s w p :
  c <> "unknown" -> find (is_cp c) (chargePoints w) = Some p ->
  OcppService.setChargePointStatus c s w
  = (Return (inr (with_status s p)),
     set_chargePoints
       (map (fun x => if is_cp c x then with_status s x else x) (chargePoints w))
       w).
Proof.
  intros Hc Hfind. unfold OcppService.setChargePointStatus.
  apply String.eqb_neq in Hc. rewrite Hc.
  unfold bind, prisma.chargePoint.update. now rewrite Hfind.
Qed.

Lemma setChargePointStatus_unregistered c s w :
  c <> "unknown" -> registered c w = false ->
  OcppService.setChargePointStatus c s w = (Throw P2025, w).
Proof.
  intros Hc Hreg. unfold OcppService.setChargePointStatus.
  apply String.eqb_neq in Hc. rewrite Hc.
  unfold bind, prisma.chargePoint.update.
  apply registered_find in Hreg. now rewrite Hreg.
Qed.

Lemma str_or_named c : c <> "" -> str_or (Some c) "unknown" = c.
Proof.
  intro Hc. unfold str_or. apply nonempty_true in Hc. now rewrite Hc.
Qed.

(** X12. The hooks of a connection whose identity [c] (not [unknown])
    has a row. [open] sets the status of the rows named [c] to [Online]
    and of no other, does not touch [lastSeen], and changes the status
    of no transaction. [close] sets the status of the rows named [c] to
    [Offline] and their [lastSeen] to its clock reading, leaves the other
    rows alone and writes to no transaction: the transactions that were
    active when the connection closed stay active. *)
Theorem connection_hooks_named (c : string) (p : ChargePoint) (w : World) :
  c <> "unknown" -> c <> "" ->
  find (is_cp c) (chargePoints w) = Some p ->
  (forall url,
      SimpleOcppServer.extractCpId url = c ->
      fst (SimpleOcppServer.open url w) = c
      /\ chargePoints (snd (SimpleOcppServer.open url w))
         = map (fun x => if is_cp c x then with_status "Online" x else x)
               (chargePoints w)
      /\ map status (transactions (snd (SimpleOcppServer.open url w)))
         = map status (transactions w)
      /\ map transactionId (transactions (snd (SimpleOcppServer.open url w)))
         = map transactionId (transactions w))
  /\ SimpleOcppServer.close (Some c) w
     = set_chargePoints
         (map (fun x =>
                 if is_cp c x
                 then with_status "Offline" (with_lastSeen (clock w (reads w)) x)
                 else x)
              (chargePoints w))
         (set_reads (S (reads w)) w)
  /\ find (is_cp c) (chargePoints (SimpleOcppServer.close (Some c) w))
     = Some (with_status "Offline" (with_lastSeen (clock w (reads w)) p))
  /\ (forall q, In q (chargePoints w) -> cp_cpId q <> c ->
      In q (chargePoints (SimpleOcppServer.close (Some c) w)))
  /\ transactions (SimpleOcppServer.close (Some c) w) = transactions w.
Proof.
  intros Hc Hne Hfind.
  assert (Hclose :
            SimpleOcppServer.close (Some c) w
            = set_chargePoints
                (map (fun x =>
                        if is_cp c x
                        then with_status "Offline"
                               (with_lastSeen (clock w (reads w)) x)
                        else x)
                     (chargePoints w))
                (set_reads (S (reads w)) w)).
  { unfold SimpleOcppServer.close. rewrite (str_or_named c Hne).
    unfold swallow at 2.
    unfold OcppService.updateLastSeen, bind, newDate, prisma.chargePoint.update.
    simpl. rewrite Hfind. simpl.
    unfold swallow.
    erewrite setChargePointStatus_named; [|exact Hc|].
    2: { simpl. apply (find_is_cp_map c (with_lastSeen (clock w (reads w))) _ p);
         [reflexivity | exact Hfind]. }
    simpl. unfold set_chargePoints. simpl. f_equal.
    rewrite map_map. apply map_ext. intro x.
    destruct (is_cp c x) eqn:E; [|now rewrite E].
    unfold is_cp at 1. simpl. unfold is_cp in E. now rewrite E. }
  split; [|split; [exact Hclose|]]; [|rewrite Hclose; simpl; split; [|split]].
  - intros url Hurl. unfold SimpleOcppServer.open. rewrite Hurl. simpl.
    unfold swallow at 2 4 6.
    rewrite (setChargePointStatus_named c "Online" w p Hc Hfind). simpl.
    unfold swallow.
    split; [reflexivity|].
    split; [now rewrite handleReconnection_chargePoints|].
    split; [now rewrite handleReconnection_status|].
    match goal with
    | |- context [OcppController.handleReconnection c ?w1] =>
        destruct (handleReconnection_same_keys c w1) as (Hids & _)
    end.
    exact Hids.
  - apply (find_is_cp_map c
             (fun x => with_status "Offline" (with_lastSeen (clock w (reads w)) x))
             _ p); [reflexivity | exact Hfind].
  - intros q Hq Hqc. apply in_map_iff. exists q. split; [|exact Hq].
    unfold is_cp. apply String.eqb_neq in Hqc. now rewrite Hqc.
  - reflexivity.
Qed.

Lemma connection_hooks_named_witness :
  map cp_status (chargePoints (snd (SimpleOcppServer.open "/v1/ocpp/CP001" w_charging)))
  = [Some "Online"; Some "Available"]
  /\ map cp_status (chargePoints (SimpleOcppServer.close (Some "CP001") w_charging))
     = [Some "Offline"; Some "Available"]
  /\ map status (transactions (SimpleOcppServer.close (Some "CP001") w_charging))
     = ["active"].
Proof.
  destruct (find (is_cp "CP001") (chargePoints w_charging)) as [p|] eqn:E;
    [|vm_compute in E; discriminate E].
  destruct (connection_hooks_named "CP001" p w_charging)
    as (Hopen & Hclose & _ & _ & Htx);
    [discriminate | discriminate | exact E |].
  destruct (Hopen "/v1/ocpp/CP001" eq_refl) as (_ & Hcps & _).
  rewrite Htx, Hcps, Hclose. repeat split.
Defined.

(** X13. A connection whose identity has no row creates none. In a
    state where every transaction belongs to a registered charge point,
    [open] for such an identity (not [unknown]) leaves the whole world
    as it was: the status update fails on the missing row, the failure
    is swallowed, and there is nothing to resume. [close] takes one
    clock reading and changes no table. Only BootNotification makes a
    charge point known. *)
Theorem connection_hooks_unregistered (c : string) (w : World) :
  c <> "unknown" -> c <> "" ->
  registered c w = false ->
  referenced w ->
  (forall url,
      SimpleOcppServer.extractCpId url = c ->
      SimpleOcppServer.open url w = (c, w))
  /\ SimpleOcppServer.close (Some c) w = set_reads (S (reads w)) w.
Proof.
  intros Hc Hne Hreg Href. split.
  - intros url Hurl. unfold SimpleOcppServer.open. rewrite Hurl. simpl.
    f_equal. unfold swallow.
    rewrite (setChargePointStatus_unregistered c "Online" w Hc Hreg). simpl.
    unfold OcppController.handleReconnection, bind.
    rewrite getActiveTransactions_eq.
    rewrite (filter_nothing (active_of c) (transactions w)); [reflexivity|].
    intros t Ht. unfold referenced in Href. rewrite Forall_forall in Href.
    specialize (Href t Ht). unfold active_of.
    destruct (cpId t =? c)%string eqn:E; [|reflexivity].
    apply String.eqb_eq in E. congruence.
  - unfold SimpleOcppServer.close. rewrite (str_or_named c Hne).
    unfold swallow at 2.
    unfold OcppService.updateLastSeen, bind, newDate, prisma.chargePoint.update.
    simpl. pose proof (proj1 (registered_find c w) Hreg) as Hnone.
    rewrite Hnone. simpl. unfold swallow.
    rewrite setChargePointStatus_unregistered; [reflexivity | exact Hc | exact Hreg].
Qed.

Lemma connection_hooks_unregistered_witness :
  SimpleOcppServer.open "/v1/ocpp/CP404" w_charging = ("CP404", w_charging)
  /\ SimpleOcppServer.close (Some "CP404") w_charging
     = set_reads (S (reads w_charging)) w_charging.
Proof.
  destruct (connection_hooks_unregistered "CP404" w_charging) as (Hopen & Hclose).
  - discriminate.
  - discriminate.
  - reflexivity.
  - unfold referenced. simpl. repeat constructor.
  - split; [now apply Hopen | exact Hclose].
Defined.

(** ** Heartbeats: answered at once, recorded later *)

Lemma handleHeartbeat_object c o b :
  handleHeartbeat c (JObj o) b
  = (Return (JObj [("currentTime",
                    JStr (toISOString (clock (core b) (S (reads (core b))))))]),
     set_core (set_reads (S (S (reads (core b)))) (core b))
       (set_heartbeatQueue
          (heartbeatQueue b
             ++ [{| bj_name := "process-heartbeat";
                    bj_data :=
                      {| hj_cpId := c;
                         hj_timestamp :=
                           toISOString (clock (core b) (reads (core b))) |};
                    bj_attempts := 3; bj_backoffType := "exponential";
                    bj_backoffDelay := 2000 |}])
          b)).
Proof. reflexivity. Qed.

Lemma recordHeartbeat_registered c b p :
  find (is_cp c) (chargePoints (core b)) = Some p ->
  recordHeartbeat c b
  = (Return tt,
     set_core
       (set_chargePoints
          (map (fun x =>
                  if is_cp c x
                  then with_lastSeen (clock (core b) (S (reads (core b)))) x
                  else x)
               (chargePoints (core b)))
          (set_reads (S (S (reads (core b)))) (core b)))
       (insert_heartbeat
          (Some {| hb_id := heartbeats_id_seq b; hb_cpId := c;
                   hb_timestamp := clock (core b) (reads (core b)) |})
          b)).
Proof.
  intro Hfind.
  assert (Hreg : existsb (is_cp c) (chargePoints (core b)) = true).
  { apply existsb_exists. exists p. apply find_some in Hfind. tauto. }
  unfold recordHeartbeat, bindB, lift, newDate, heartbeat.create. simpl.
  rewrite Hreg. simpl.
  unfold OcppService.updateLastSeen, bind, newDate, prisma.chargePoint.update.
  simpl. rewrite Hfind. reflexivity.
Qed.

Lemma recordHeartbeat_unregistered c b :
  registered c (core b) = false ->
  recordHeartbeat c b
  = (Throw (foreign_key_violated "heartbeats_cp_id_fkey"),
     insert_heartbeat None
       (set_core (set_reads (S (reads (core b))) (core b)) b)).
Proof.
  intro Hreg. unfold registered in Hreg.
  unfold recordHeartbeat, bindB, lift, newDate, heartbeat.create. simpl.
  now rewrite Hreg.
Qed.

(** X14. A Heartbeat CALL is answered before anything is recorded. The
    handler accepts every object as payload and refuses everything else;
    it takes two clock readings, puts one job on the heartbeat queue
    (three attempts, exponential backoff from 2000 ms) with the identity
    of the connection and the first reading as timestamp, and answers
    with the second reading as [currentTime]. It writes no row: neither
    [heartbeats] nor the [lastSeen] of the charge point change, and
    whether the charge point has a row is not looked at. *)
Theorem handleHeartbeat_deferred (c : string) (payload : JSON) (b : Backend) :
  ((forall o, payload <> JObj o) ->
   exists m, handleHeartbeat c payload b = (Throw (ZodError m), b))
  /\ (forall o,
        payload = JObj o ->
        exists job b',
          handleHeartbeat c payload b
          = (Return (JObj [("currentTime",
                            JStr (toISOString
                                    (clock (core b) (S (reads (core b))))))]),
             b')
          /\ heartbeatQueue b' = heartbeatQueue b ++ [job]
          /\ bj_name job = "process-heartbeat"
          /\ hj_cpId (bj_data job) = c
          /\ hj_timestamp (bj_data job)
             = toISOString (clock (core b) (reads (core b)))
          /\ bj_attempts job = 3
          /\ bj_backoffType job = "exponential"
          /\ bj_backoffDelay job = 2000
          /\ heartbeats b' = heartbeats b
          /\ chargePoints (core b') = chargePoints (core b)
          /\ transactions (core b') = transactions (core b)
          /\ reads (core b') = S (S (reads (core b)))).
Proof.
  split.
  - intro Hno. destruct payload as [|x|n|s|l|o];
      try (eexists; reflexivity).
    exfalso. now apply (Hno o).
  - intros o ->. eexists. eexists.
    split; [apply handleHeartbeat_object|]. simpl. repeat split.
Qed.

Lemma handleHeartbeat_deferred_witness :
  exists job b',
    handleHeartbeat "CP404" (JObj []) (backend_of w_charging)
    = (Return (JObj [("currentTime", JStr "2025-09-22T10:26:59.000Z")]), b')
    /\ heartbeatQueue b' = [job]
    /\ hj_timestamp (bj_data job) = "2025-09-22T10:26:58.000Z"
    /\ heartbeats b' = [].
Proof.
  destruct (handleHeartbeat_deferred "CP404" (JObj []) (backend_of w_charging))
    as (_ & Hobj).
  destruct (Hobj [] eq_refl)
    as (job & b' & Hrun & Hq & _ & _ & Hts & _ & _ & _ & Hhb & _).
  exists job, b'. split; [exact Hrun|]. split; [exact Hq|].
  split; [exact Hts | exact Hhb].
Defined.

(** X15. What the processor makes of a heartbeat job. For a charge
    point that has a row it appends one row to [heartbeats], with the
    next id of the sequence and its own first clock reading as
    timestamp, then sets the [lastSeen] of the charge point to its
    second reading; the status of the charge point and the transactions
    are left alone. The timestamp the job carries is not used: two jobs
    for the same charge point are processed alike. For a charge point
    without row the insert is refused by the foreign key, nothing is
    written and [lastSeen] is not touched. *)
Theorem processHeartbeat_records (job : BullJob HeartbeatJob) (b : Backend) :
  let c := hj_cpId (bj_data job) in
  (forall p,
      find (is_cp c) (chargePoints (core b)) = Some p ->
      exists b',
        processHeartbeat job b = (Return tt, b')
        /\ heartbeats b'
           = heartbeats b
               ++ [{| hb_id := heartbeats_id_seq b; hb_cpId := c;
                      hb_timestamp := clock (core b) (reads (core b)) |}]
        /\ heartbeats_id_seq b' = heartbeats_id_seq b + 1
        /\ find (is_cp c) (chargePoints (core b'))
           = Some (with_lastSeen (clock (core b) (S (reads (core b)))) p)
        /\ map cp_status (chargePoints (core b'))
           = map cp_status (chargePoints (core b))
        /\ transactions (core b') = transactions (core b))
  /\ (registered c (core b) = false ->
      exists b',
        processHeartbeat job b
        = (Throw (foreign_key_violated "heartbeats_cp_id_fkey"), b')
        /\ heartbeats b' = heartbeats b
        /\ chargePoints (core b') = chargePoints (core b)
        /\ transactions (core b') = transactions (core b))
  /\ (forall job',
        hj_cpId (bj_data job') = c ->
        processHeartbeat job' b = processHeartbeat job b).
Proof.
  intro c. split; [|split].
  - intros p Hfind. eexists.
    split; [apply (recordHeartbeat_registered c b p Hfind)|].
    simpl. split; [reflexivity|]. split; [reflexivity|].
    split.
    { apply (find_is_cp_map c
               (with_lastSeen (clock (core b) (S (reads (core b))))) _ p);
        [reflexivity | exact Hfind]. }
    split; [|reflexivity].
    rewrite map_map. apply map_ext. intro x. now destruct (is_cp c x).
  - intro Hreg. eexists.
    split; [apply (recordHeartbeat_unregistered c b Hreg)|].
    simpl. repeat split.
  - intros job' Hsame. unfold processHeartbeat. now rewrite Hsame.
Qed.

Lemma processHeartbeat_records_witness :
  exists b',
    processHeartbeat job_heartbeat_CP001 (backend_of w_charging) = (Return tt, b')
    /\ map hb_timestamp (heartbeats b') = [sample_clock 4].
Proof.
  destruct (processHeartbeat_records job_heartbeat_CP001 (backend_of w_charging))
    as (Hrec & _).
  destruct (find (is_cp "CP001") (chargePoints (core (backend_of w_charging))))
    as [p|] eqn:E; [|vm_compute in E; discriminate E].
  destruct (Hrec p E) as (b' & Hrun & Hrows & _).
  exists b'. split; [exact Hrun | now rewrite Hrows].
Defined.

(** ** Status notifications *)

Lemma recordStatusNotification_eq data b :
  recordStatusNotification data b
  = if registered (sd_cpId data) (core b)
    then
      (Return {| sn_id := status_notifications_id_seq b;
                 sn_cpId := sd_cpId data;
                 sn_connectorId := sd_connectorId data;
                 sn_status := sd_status data;
                 sn_errorCode := sd_errorCode data;
                 sn_info := sd_info data;
                 sn_vendorId := sd_vendorId data;
                 sn_vendorErrorCode := sd_vendorErrorCode data;
                 sn_timestamp := clock (core b) (reads (core b));
                 sn_additionalInfo := sd_additionalInfo data |},
       insert_statusNotification
         (Some {| sn_id := status_notifications_id_seq b;
                  sn_cpId := sd_cpId data;
                  sn_connectorId := sd_connectorId data;
                  sn_status := sd_status data;
                  sn_errorCode := sd_errorCode data;
                  sn_info := sd_info data;
                  sn_vendorId := sd_vendorId data;
                  sn_vendorErrorCode := sd_vendorErrorCode data;
                  sn_timestamp := clock (core b) (reads (core b));
                  sn_additionalInfo := sd_additionalInfo data |})
         (set_core (set_reads (S (reads (core b))) (core b)) b))
    else
      (Throw (foreign_key_violated "status_notifications_cp_id_fkey"),
       insert_statusNotification None
         (set_core (set_reads (S (reads (core b))) (core b)) b)).
Proof.
  unfold recordStatusNotification, bindB, lift, newDate,
    statusNotification.create, registered. simpl.
  now destruct (existsb _ _).
Qed.

(** X16. A StatusNotification that passes the schema is answered with
    the empty object and one job on the queue; the handler writes no
    row. The job carries the identity of the connection, the fields of
    the payload, the raw payload as [additionalInfo], and as timestamp
    the clock reading of the handler, not the [timestamp] member of the
    payload. When the processor takes the job, in whatever state, it
    appends one row to [status_notifications] with the fields of the job
    and the clock reading of the processor as timestamp (the timestamp
    of the job is not used), provided the charge point has a row; else
    the insert is refused by the foreign key. Neither step touches
    [charge_points]: the status a charge point reports never reaches the
    [status] of its row. *)
Theorem statusNotification_recorded (c : string) (payload : JSON)
    (v : StatusNotificationRequest) (b : Backend) :
  StatusNotificationRequestSchema payload = Some v ->
  exists job b1,
    handleStatusNotification c payload b = (Return (JObj []), b1)
    /\ statusNotificationQueue b1 = statusNotificationQueue b ++ [job]
    /\ bj_name job = "process-status-notification"
    /\ sj_cpId (bj_data job) = c
    /\ sj_timestamp (bj_data job) = toISOString (clock (core b) (reads (core b)))
    /\ sj_additionalInfo (bj_data job) = Some payload
    /\ statusNotifications b1 = statusNotifications b
    /\ chargePoints (core b1) = chargePoints (core b)
    /\ transactions (core b1) = transactions (core b)
    /\ (forall b2,
          registered c (core b2) = true ->
          exists row b3,
            processStatusNotification job b2 = (Return tt, b3)
            /\ statusNotifications b3 = statusNotifications b2 ++ [row]
            /\ sn_cpId row = c
            /\ sn_connectorId row = snr_connectorId v
            /\ sn_status row = snr_status v
            /\ sn_errorCode row = Some (snr_errorCode v)
            /\ sn_info row = snr_info v
            /\ sn_timestamp row = clock (core b2) (reads (core b2))
            /\ sn_additionalInfo row = Some payload
            /\ chargePoints (core b3) = chargePoints (core b2)
            /\ transactions (core b3) = transactions (core b2))
    /\ (forall b2,
          registered c (core b2) = false ->
          exists b3,
            processStatusNotification job b2
            = (Throw (foreign_key_violated "status_notifications_cp_id_fkey"), b3)
            /\ statusNotifications b3 = statusNotifications b2
            /\ chargePoints (core b3) = chargePoints (core b2)).
Proof.
  intro Hparse. unfold handleStatusNotification. rewrite Hparse.
  eexists. eexists. split; [reflexivity|]. simpl.
  repeat (split; [reflexivity|]).
  split.
  - intros b2 Hreg. unfold processStatusNotification, bindB.
    rewrite recordStatusNotification_eq. simpl sd_cpId. rewrite Hreg.
    eexists. eexists. split; [reflexivity|]. simpl. repeat split.
  - intros b2 Hreg. unfold processStatusNotification, bindB.
    rewrite recordStatusNotification_eq. simpl sd_cpId. rewrite Hreg.
    eexists. split; [reflexivity|]. simpl. repeat split.
Qed.

Lemma statusNotification_recorded_witness :
  exists job b1 row b3,
    handleStatusNotification "CP001" payload_status (backend_of w_charging)
    = (Return (JObj []), b1)
    /\ statusNotificationQueue b1 = [job]
    /\ sj_timestamp (bj_data job) = "2025-09-22T10:26:58.000Z"
    /\ processStatusNotification job b1 = (Return tt, b3)
    /\ statusNotifications b3 = [row]
    /\ sn_status row = "Charging"
    /\ sn_timestamp row = sample_clock 5
    /\ map cp_status (chargePoints (core b3)) = [Some "Available"; Some "Available"].
Proof.
  destruct (statusNotification_recorded "CP001" payload_status _
              (backend_of w_charging) eq_refl)
    as (job & b1 & Hrun & Hq & _ & _ & Hts & _ & _ & Hcps & _ & Hok & _).
  assert (Hreads : reads (core b1) = 5%nat).
  { injection Hrun as <-. reflexivity. }
  assert (Hclock : clock (core b1) = sample_clock).
  { injection Hrun as <-. reflexivity. }
  destruct (Hok b1) as (row & b3 & Hproc & Hrows & _ & _ & Hst & _ & _ & Htime & _
                        & Hcps3 & _).
  { unfold registered. rewrite Hcps. reflexivity. }
  exists job, b1, row, b3.
  split; [exact Hrun|]. split; [exact Hq|]. split; [exact Hts|].
  split; [exact Hproc|].
  split.
  { rewrite Hrows. injection Hrun as <-. reflexivity. }
  split; [exact Hst|].
  split; [now rewrite Htime, Hreads, Hclock|].
  now rewrite Hcps3, Hcps.
Defined.

(** ** Authorize *)

Lemma authorize_eq (f : Z -> Z) c tag b :
  authorize f c tag b
  = if registered c (core b)
    then
      (Return {| au_id := authorizations_id_seq b; au_cpId := c;
                 au_idTag := tag; au_status := "Accepted";
                 au_expiryDate := Some (f (clock (core b) (reads (core b))));
                 au_timestamp := clock (core b) (S (reads (core b))) |},
       insert_authorization
         (Some {| au_id := authorizations_id_seq b; au_cpId := c;
                  au_idTag := tag; au_status := "Accepted";
                  au_expiryDate := Some (f (clock (core b) (reads (core b))));
                  au_timestamp := clock (core b) (S (reads (core b))) |})
         (set_core (set_reads (S (S (reads (core b)))) (core b)) b))
    else
      (Throw (foreign_key_violated "authorizations_cp_id_fkey"),
       insert_authorization None
         (set_core (set_reads (S (S (reads (core b)))) (core b)) b)).
Proof.
  unfold authorize, bindB, lift, newDate, authorization.create, registered.
  simpl. now destruct (existsb _ _).
Qed.

(** X17. Authorize looks nothing up. A payload whose [idTag] is a
    string, whatever the string, is accepted for a charge point that has
    a row: the answer is [Accepted] with, as [expiryDate], the third
    clock reading of the call plus 24 hours, and one row goes to
    [authorizations], with status [Accepted], the tag, the second clock
    reading as timestamp and the first reading moved on by a day of the
    server's zone as expiry; every call adds a row, also for a tag
    authorized before. A payload without string [idTag] is refused with
    nothing written. For a charge point without row the insert is
    refused by the foreign key and no row is added. *)
Theorem handleAuthorize_accepts (setHours_plus_24 : Z -> Z) (c : string)
    (payload : JSON) (b : Backend) :
  (forall o,
      payload = JObj o ->
      (forall tag, obj_get "idTag" o <> Some (JStr tag)) ->
      exists m,
        handleAuthorize setHours_plus_24 c payload b = (Throw (ZodError m), b))
  /\ (forall o tag,
        payload = JObj o ->
        obj_get "idTag" o = Some (JStr tag) ->
        (registered c (core b) = true ->
         exists row b',
           handleAuthorize setHours_plus_24 c payload b
           = (Return
                (JObj [("idTagInfo",
                        JObj [("status", JStr "Accepted");
                              ("expiryDate",
                               JStr (toISOString
                                       (clock (core b) (S (S (reads (core b))))
                                        + 86400000)))])]),
              b')
           /\ authorizations b' = authorizations b ++ [row]
           /\ au_cpId row = c
           /\ au_idTag row = tag
           /\ au_status row = "Accepted"
           /\ au_expiryDate row
              = Some (setHours_plus_24 (clock (core b) (reads (core b))))
           /\ au_timestamp row = clock (core b) (S (reads (core b)))
           /\ chargePoints (core b') = chargePoints (core b)
           /\ transactions (core b') = transactions (core b)
           /\ exists row2 b'',
                handleAuthorize setHours_plus_24 c payload b'
                = (Return
                     (JObj [("idTagInfo",
                             JObj [("status", JStr "Accepted");
                                   ("expiryDate",
                                    JStr (toISOString
                                            (clock (core b')
                                                   (S (S (reads (core b'))))
                                             + 86400000)))])]),
                   b'')
                /\ authorizations b'' = authorizations b ++ [row; row2]
                /\ au_idTag row2 = tag)
        /\ (registered c (core b) = false ->
            exists b',
              handleAuthorize setHours_plus_24 c payload b
              = (Throw (foreign_key_violated "authorizations_cp_id_fkey"), b')
              /\ authorizations b' = authorizations b
              /\ chargePoints (core b') = chargePoints (core b))).
Proof.
  split.
  - intros o -> Hno. unfold handleAuthorize, AuthorizeRequestSchema.
    destruct (obj_get "idTag" o) as [[|x|n|s|l|o']|] eqn:E; simpl;
      try (eexists; reflexivity).
    exfalso. now apply (Hno s).
  - intros o tag -> Htag.
    assert (Hparse : AuthorizeRequestSchema (JObj o) = Some {| ar_idTag := tag |}).
    { unfold AuthorizeRequestSchema. now rewrite Htag. }
    unfold handleAuthorize. rewrite Hparse. simpl ar_idTag.
    split.
    + intro Hreg. unfold bindB at 1. rewrite authorize_eq, Hreg.
      eexists. eexists. split; [reflexivity|]. simpl.
      repeat (split; [reflexivity|]).
      unfold bindB at 1. rewrite authorize_eq. simpl core.
      unfold registered in *. simpl chargePoints. rewrite Hreg.
      eexists. eexists. split; [reflexivity|]. simpl.
      split.
      * rewrite <- app_assoc. reflexivity.
      * reflexivity.
    + intro Hreg. unfold bindB at 1. rewrite authorize_eq, Hreg.
      eexists. split; [reflexivity|]. simpl. repeat split.
Qed.

Lemma handleAuthorize_accepts_witness :
  exists row b',
    fst (handleAuthorize (fun d => d + 86400000) "CP001"
           (JObj [("idTag", JStr "")]) (backend_of w_charging))
    = Return (JObj [("idTagInfo",
                     JObj [("status", JStr "Accepted");
                           ("expiryDate", JStr "2025-09-23T10:27:00.000Z")])])
    /\ b' = snd (handleAuthorize (fun d => d + 86400000) "CP001"
                   (JObj [("idTag", JStr "")]) (backend_of w_charging))
    /\ authorizations b' = [row]
    /\ au_status row = "Accepted".
Proof.
  destruct (handleAuthorize_accepts (fun d => d + 86400000) "CP001"
              (JObj [("idTag", JStr "")]) (backend_of w_charging))
    as (_ & Hok).
  destruct (Hok [("idTag", JStr "")] "" eq_refl eq_refl) as (Hreg & _).
  destruct (Hreg eq_refl) as (row & b' & Hrun & Hrows & _ & _ & Hst & _).
  exists row, b'. rewrite Hrun.
  split; [reflexivity|]. split; [reflexivity|].
  split; [exact Hrows | exact Hst].
Defined.

(** ** StopTransaction with transactionId 0 *)

Lemma stop_resolve_without_connector data w :
  st_transactionId data = Some 0 ->
  st_connectorId data = None ->
  OcppService.stopTransaction_resolve data w
  = (resolved
       (most_recent
          (filter
             (match st_idTag data with
              | Some tag =>
                  if nonempty tag then active_with (st_cpId data) tag
                  else active_of (st_cpId data)
              | None => active_of (st_cpId data)
              end)
             (transactions w))), w).
Proof.
  intros Hid Hconn.
  rewrite (stopTransaction_resolve_search data (or_intror Hid)),
    stopTransaction_search_eq.
  destruct (st_idTag data) as [tag|] eqn:Htag.
  - destruct (nonempty tag) eqn:Hne.
    + apply nonempty_true in Hne.
      rewrite (stop_where_tag data tag Hconn Htag Hne).
      do 3 f_equal. apply filter_ext. intro t. apply matches_active_with.
    + unfold nonempty in Hne. apply negb_false_iff, String.eqb_eq in Hne.
      subst tag.
      rewrite (stop_where_bare data Hconn (or_intror Htag)).
      do 3 f_equal. apply filter_ext. intro t. apply matches_active_of.
  - rewrite (stop_where_bare data Hconn (or_introl Htag)).
    do 3 f_equal. apply filter_ext. intro t. apply matches_active_of.
Qed.

(** X18. A StopTransaction payload whose transactionId is 0 makes the
    service search, and since the controller passes no connectorId the
    search is by tag: among the active transactions of the charge point
    of the connection, those with the idTag of the payload when it is a
    non-empty string, all of them otherwise, the most recently started
    one is stopped. When there is none the call throws [No active
    transaction found to stop] and the world is unchanged. So with the
    id 0 a charge point can only stop an active transaction of its own. *)
Theorem handleStopTransaction_id_zero (c : string) (payload : JSON)
    (v : StopTransactionRequest) (w : World) :
  StopTransactionRequestSchema payload = Some v ->
  sr_transactionId v = 0 ->
  NoDup (map transactionId (transactions w)) ->
  let data :=
    {| st_transactionId := Some (sr_transactionId v); st_cpId := c;
       st_connectorId := None; st_idTag := sr_idTag v;
       st_meterStop := Some (sr_meterStop v); st_stopReason := sr_reason v |} in
  let found :=
    most_recent
      (filter
         (match sr_idTag v with
          | Some tag => if nonempty tag then active_with c tag else active_of c
          | None => active_of c
          end)
         (transactions w)) in
  (found = None ->
   OcppController.handleStopTransaction c payload w
   = (Throw (Error "No active transaction found to stop"), w))
  /\ (forall t,
        found = Some t ->
        OcppController.handleStopTransaction c payload w
        = (Return (JObj [("idTagInfo", JObj [("status", JStr "Accepted")])]),
           set_transactions
             (rewrite_id (transactionId t)
                (stop_row data (clock w (reads w))) (transactions w))
             (set_reads (S (reads w)) w))
        /\ In t (transactions w)
        /\ cpId t = c
        /\ status t = "active"
        /\ (forall x, In x (transactions w) -> cpId x = c ->
            status x = "active" ->
            (forall tag, sr_idTag v = Some tag -> tag <> "" -> idTag x = tag) ->
            startTimestamp x <= startTimestamp t)).
Proof.
  intros Hparse Hzero Hnd data found.
  assert (Hres : OcppService.stopTransaction_resolve data w = (resolved found, w)).
  { apply stop_resolve_without_connector; [|reflexivity].
    simpl. now rewrite Hzero. }
  unfold OcppController.handleStopTransaction. rewrite Hparse. fold data.
  split.
  - intro Hnone. unfold bind at 1. unfold OcppService.stopTransaction.
    unfold bind at 1. rewrite Hres, Hnone. reflexivity.
  - intros t Hfound.
    destruct (most_recent_latest _ _ Hfound) as [Hin Hlatest].
    apply filter_In in Hin. destruct Hin as [Hin Hcrit].
    assert (Hown : cpId t = c /\ status t = "active").
    { destruct (sr_idTag v) as [tag|]; [destruct (nonempty tag)|];
        unfold active_with, active_of in Hcrit;
        repeat (apply andb_true_iff in Hcrit; destruct Hcrit as [Hcrit ?]);
        split; now apply String.eqb_eq. }
    split.
    { unfold bind at 1.
      rewrite (stopTransaction_after_resolve data w (transactionId t));
        [|now rewrite Hres, Hfound].
      unfold prisma.transaction.update. simpl transactions.
      now rewrite (find_has_id_unique _ _ Hnd Hin). }
    split; [exact Hin|]. split; [tauto|]. split; [tauto|].
    intros x Hx Hxc Hxs Hxt. apply Hlatest. apply filter_In.
    split; [exact Hx|].
    apply String.eqb_eq in Hxc, Hxs.
    destruct (sr_idTag v) as [tag|]; [destruct (nonempty tag) eqn:Hne|];
      unfold active_with, active_of; rewrite Hxc, Hxs; rewrite ?andb_true_r;
      try reflexivity.
    simpl. apply String.eqb_eq.
    apply (Hxt tag eq_refl). now apply nonempty_true.
Qed.

Lemma handleStopTransaction_id_zero_witness :
  (exists w',
      OcppController.handleStopTransaction "CP001" payload_stop_zero w_charging
      = (Return (JObj [("idTagInfo", JObj [("status", JStr "Accepted")])]), w')
      /\ map status (transactions w') = ["completed"])
  /\ OcppController.handleStopTransaction "CP002" payload_stop_zero w_charging
     = (Throw (Error "No active transaction found to stop"), w_charging).
Proof.
  assert (Hnd : NoDup (map transactionId (transactions w_charging))).
  { simpl. repeat constructor. simpl. intuition. }
  split.
  - pose proof (handleStopTransaction_id_zero "CP001" payload_stop_zero _
                  w_charging eq_refl eq_refl Hnd) as H.
    cbv zeta in H. destruct H as (_ & Hfound).
    destruct (Hfound (started_row start_RFID123456 1) eq_refl) as (Hrun & _).
    eexists. split; [exact Hrun | reflexivity].
  - pose proof (handleStopTransaction_id_zero "CP002" payload_stop_zero _
                  w_charging eq_refl eq_refl Hnd) as H.
    cbv zeta in H. destruct H as (Hnone & _).
    apply Hnone. reflexivity.
Defined.

(** ** StartTransaction as the controller calls it *)

(** X19. What a StartTransaction that passes the schema is answered, in
    a state with exclusive connectors. On a connector without active
    transaction of a registered charge point: [Accepted] with the next
    value of the sequence as transactionId, and one row appended, whose
    start timestamp is the instant the payload names (the charge point's
    time, where a stop records the server's) and whose meterStart is the
    payload's. Any later StartTransaction for that connector with the
    same idTag, whatever meterStart and timestamp it carries, is answered
    with the same transactionId and writes nothing. On a connector whose
    active transaction has the same idTag: that transaction's id, nothing
    written. With another idTag: the error that names the connector,
    nothing written. For a charge point without row: P2003 and no row. *)
Theorem handleStartTransaction_answers (Date_of_string : string -> Z)
    (c : string) (payload : JSON) (v : StartTransactionRequest) (w : World) :
  StartTransactionRequestSchema payload = Some v ->
  exclusive (transactions w) ->
  let data :=
    {| ct_cpId := c; ct_connectorId := str_connectorId v;
       ct_idTag := str_idTag v; ct_meterStart := Some (str_meterStart v);
       ct_startTimestamp := Date_of_string (str_timestamp v) |} in
  let accepted id :=
    JObj [("transactionId", JNum id);
          ("idTagInfo", JObj [("status", JStr "Accepted")])] in
  (filter (active_on c (str_connectorId v)) (transactions w) = [] ->
   (registered c w = true ->
    exists w',
      handleStartTransaction Date_of_string c payload w
      = (Return (accepted (transaction_id_seq w)), w')
      /\ transactions w'
         = transactions w ++ [started_row data (transaction_id_seq w)]
      /\ chargePoints w' = chargePoints w
      /\ (forall payload2 v2,
            StartTransactionRequestSchema payload2 = Some v2 ->
            str_connectorId v2 = str_connectorId v ->
            str_idTag v2 = str_idTag v ->
            handleStartTransaction Date_of_string c payload2 w'
            = (Return (accepted (transaction_id_seq w)), w')))
   /\ (registered c w = false ->
       handleStartTransaction Date_of_string c payload w
       = (Throw P2003,
          set_transaction_id_seq (transaction_id_seq w + 1) w)))
  /\ (forall t,
        In t (transactions w) ->
        active_on c (str_connectorId v) t = true ->
        (idTag t = str_idTag v ->
         handleStartTransaction Date_of_string c payload w
         = (Return (accepted (transactionId t)), w))
        /\ (idTag t <> str_idTag v ->
            handleStartTransaction Date_of_string c payload w
            = (Throw (Error ("Connector " +++ show_Z (str_connectorId v)
                               +++ " already has an active transaction")), w))).
Proof.
  intros Hparse Hex data accepted.
  unfold handleStartTransaction. rewrite Hparse. fold data.
  split.
  - intro Hfree. split.
    + intro Hreg. eexists.
      unfold bind at 1.
      rewrite (start_created data w Hreg Hfree).
      split; [reflexivity|]. simpl.
      split; [reflexivity|]. split; [reflexivity|].
      intros payload2 v2 Hparse2 Hconn Htag. rewrite Hparse2.
      unfold bind at 1. rewrite startTransaction_eq. simpl ct_cpId.
      simpl ct_connectorId. simpl transactions. rewrite Hconn.
      rewrite (filter_app_one _ _ (started_row data (transaction_id_seq w)) Hfree
                 (active_on_created _ _ _ _ _ _ _)).
      simpl. rewrite Htag, String.eqb_refl. reflexivity.
    + intro Hreg. unfold bind at 1.
      now rewrite (start_refused data w Hreg Hfree).
  - intros t Hin Hact. split.
    + intro Htag. unfold bind at 1.
      now rewrite (start_replay w data t Hex Hin Hact Htag).
    + intro Htag. unfold bind at 1.
      now rewrite (start_conflict w data t Hex Hin Hact Htag).
Qed.

Lemma handleStartTransaction_answers_witness :
  exists w',
    handleStartTransaction sample_Date_of_string "CP001" payload_start w_charging
    = (Return (JObj [("transactionId", JNum 2);
                     ("idTagInfo", JObj [("status", JStr "Accepted")])]), w')
    /\ map startTimestamp (transactions w') = [1758536800000; 1758536800000]
    /\ handleStartTransaction sample_Date_of_string "CP001" payload_start w'
       = (Return (JObj [("transactionId", JNum 2);
                        ("idTagInfo", JObj [("status", JStr "Accepted")])]), w').
Proof.
  assert (Hex : exclusive (transactions w_charging)).
  { intros c n. simpl. destruct (active_on c n _); simpl; lia. }
  pose proof (handleStartTransaction_answers sample_Date_of_string "CP001"
                payload_start _ w_charging eq_refl Hex) as H.
  cbv zeta in H. destruct H as (Hfree & _).
  destruct (Hfree eq_refl) as (Hnew & _).
  destruct (Hnew eq_refl) as (w' & Hrun & Hrows & _ & Hreplay).
  exists w'. split; [exact Hrun|]. split; [now rewrite Hrows|].
  exact (Hreplay payload_start _ eq_refl eq_refl eq_refl).
Defined.

(** ** Boot, start, stop *)

Lemma handleBootNotification_run c payload v w :
  BootNotificationRequestSchema payload = Some v ->
  exists w1,
    OcppController.handleBootNotification c payload w
    = (Return (JObj [("status", JStr "Accepted");
                     ("currentTime",
                      JStr (toISOString (clock w (S (S (reads w))))));
                     ("interval", JNum 300)]), w1)
    /\ registered c w1 = true
    /\ transactions w1 = transactions w
    /\ transaction_id_seq w1 = transaction_id_seq w
    /\ clock w1 = clock w
    /\ reads w1 = S (S (S (reads w))).
Proof.
  intro Hparse. unfold OcppController.handleBootNotification. rewrite Hparse.
  set (data := {| rg_cpId := c;
                  rg_vendor := Some (bn_chargePointVendor v);
                  rg_model := Some (bn_chargePointModel v);
                  rg_firmwareVersion := bn_firmwareVersion v;
                  rg_serialNumber := bn_chargePointSerialNumber v;
                  rg_additionalInfo := Some payload |}).
  destruct (registerChargePoint_row data w)
    as (row & Hrun & Hfind & _ & _ & _ & _ & _ & Hreads & Hclk & Hseq).
  pose proof (registerChargePoint_transactions data w) as Htx.
  unfold bind at 1. rewrite Hrun.
  set (w1 := snd (OcppService.registerChargePoint data w)) in *.
  unfold bind, newDate, ret. rewrite Hclk, Hreads.
  eexists. split; [reflexivity|]. simpl.
  split.
  { unfold registered. simpl. apply existsb_exists.
    apply find_some in Hfind. now exists row. }
  split; [exact Htx|]. split; [exact Hseq|]. split; [exact Hclk|].
  reflexivity.
Qed.

Lemma rewrite_id_fresh id f txs :
  Forall (fun x => x < id) (map transactionId txs) ->
  rewrite_id id f txs = txs.
Proof.
  intro Hlt. unfold rewrite_id. rewrite <- (map_id txs) at 2.
  apply map_ext_in. intros x Hx.
  rewrite Forall_forall in Hlt. specialize (Hlt _ (in_map transactionId _ _ Hx)).
  unfold has_id. destruct (Z.eqb_spec (transactionId x) id); [lia | reflexivity].
Qed.

Lemma find_has_id_last id txs row :
  Forall (fun x => x < id) (map transactionId txs) ->
  transactionId row = id ->
  find (has_id id) (txs ++ [row]) = Some row.
Proof.
  intros Hlt Hid. apply find_app_last.
  - induction txs as [|x l IH]; simpl; [reflexivity|].
    simpl in Hlt. inversion Hlt as [|? ? Hx Hl]; subst.
    unfold has_id at 1. destruct (Z.eqb_spec (transactionId x) (transactionId row));
      [lia | now apply IH].
  - unfold has_id. now apply Z.eqb_eq.
Qed.

(** X20. The three CALLs of a charging session, one after the other on
    one connection, in a state with sound keys and a sequence that has
    not given 0: a BootNotification, a StartTransaction on a connector
    without active transaction, and a StopTransaction that names the
    transactionId the start was answered with. All three are accepted,
    and the table ends with one row more: the transaction of that id, on
    that connector of that charge point, [completed], with the meter
    values of the two payloads, the start timestamp of the start payload
    and the clock reading of the stop as stop timestamp. The connector is
    without active transaction again. *)
Theorem boot_start_stop (Date_of_string : string -> Z) (c : string)
    (boot start stop : JSON) (vb : BootNotificationRequest)
    (vs : StartTransactionRequest) (vt : StopTransactionRequest) (w : World) :
  BootNotificationRequestSchema boot = Some vb ->
  StartTransactionRequestSchema start = Some vs ->
  StopTransactionRequestSchema stop = Some vt ->
  keyed w -> 0 < transaction_id_seq w ->
  filter (active_on c (str_connectorId vs)) (transactions w) = [] ->
  sr_transactionId vt = transaction_id_seq w ->
  exists r1 w1 w2 w3 row,
    OcppController.handleBootNotification c boot w = (Return r1, w1)
    /\ handleStartTransaction Date_of_string c start w1
       = (Return (JObj [("transactionId", JNum (transaction_id_seq w));
                        ("idTagInfo", JObj [("status", JStr "Accepted")])]),
          w2)
    /\ OcppController.handleStopTransaction c stop w2
       = (Return (JObj [("idTagInfo", JObj [("status", JStr "Accepted")])]), w3)
    /\ transactions w3 = transactions w ++ [row]
    /\ transactionId row = transaction_id_seq w
    /\ cpId row = c
    /\ connectorId row = str_connectorId vs
    /\ idTag row = str_idTag vs
    /\ status row = "completed"
    /\ meterStart row = Some (str_meterStart vs)
    /\ meterStop row = Some (sr_meterStop vt)
    /\ startTimestamp row = Date_of_string (str_timestamp vs)
    /\ stopTimestamp row = Some (clock w (reads w + 3))
    /\ filter (active_on c (str_connectorId vs)) (transactions w3) = []
    /\ registered c w3 = true.
Proof.
  intros Hb Hs Ht (Hnd & _ & Hlt) Hpos Hfree Hid.
  destruct (handleBootNotification_run c boot vb w Hb)
    as (w1 & Hboot & Hreg1 & Htx1 & Hseq1 & Hclk1 & Hreads1).
  set (data := {| ct_cpId := c; ct_connectorId := str_connectorId vs;
                  ct_idTag := str_idTag vs;
                  ct_meterStart := Some (str_meterStart vs);
                  ct_startTimestamp := Date_of_string (str_timestamp vs) |}).
  assert (Hfree1 : filter (active_on (ct_cpId data) (ct_connectorId data))
                     (transactions w1) = []) by now rewrite Htx1.
  pose proof (start_created data w1 Hreg1 Hfree1) as Hstart.
  rewrite Hseq1, Htx1 in Hstart.
  set (row := started_row data (transaction_id_seq w)) in *.
  set (w2 := set_transactions (transactions w ++ [row])
               (set_transaction_id_seq (transaction_id_seq w + 1) w1)) in *.
  set (sdata := {| st_transactionId := Some (sr_transactionId vt); st_cpId := c;
                   st_connectorId := None; st_idTag := sr_idTag vt;
                   st_meterStop := Some (sr_meterStop vt);
                   st_stopReason := sr_reason vt |}).
  assert (Hstop : OcppService.stopTransaction sdata w2
                  = (Return (stop_row sdata (clock w2 (reads w2)) row),
                     set_transactions
                       (transactions w
                          ++ [stop_row sdata (clock w2 (reads w2)) row])
                       (set_reads (S (reads w2)) w2))).
  { rewrite (stop_by_explicit_id sdata w2 (transaction_id_seq w));
      [|simpl; now rewrite Hid | lia].
    unfold prisma.transaction.update. simpl transactions.
    rewrite (find_has_id_last _ _ row Hlt eq_refl). simpl.
    f_equal. unfold set_transactions. simpl. f_equal.
    rewrite map_app. simpl.
    change (map (fun x => if has_id (transaction_id_seq w) x then _ else x)
                (transactions w))
      with (rewrite_id (transaction_id_seq w)
              (stop_row sdata (clock w1 (reads w1))) (transactions w)).
    rewrite (rewrite_id_fresh _ _ _ Hlt).
    unfold has_id. simpl transactionId. now rewrite Z.eqb_refl. }
  exists (JObj [("status", JStr "Accepted");
                ("currentTime", JStr (toISOString (clock w (S (S (reads w))))));
                ("interval", JNum 300)]),
    w1, w2,
    (set_transactions
       (transactions w ++ [stop_row sdata (clock w2 (reads w2)) row])
       (set_reads (S (reads w2)) w2)),
    (stop_row sdata (clock w2 (reads w2)) row).
  split; [exact Hboot|].
  split.
  { unfold handleStartTransaction. rewrite Hs. fold data.
    unfold bind at 1. rewrite Hstart. reflexivity. }
  split.
  { unfold OcppController.handleStopTransaction. rewrite Ht. fold sdata.
    unfold bind at 1. rewrite Hstop. reflexivity. }
  split; [reflexivity|]. simpl.
  repeat (split; [reflexivity|]).
  split.
  { rewrite Hclk1, Hreads1. do 2 f_equal. lia. }
  split.
  { rewrite filter_app, Hfree. simpl.
    unfold active_on. simpl. now rewrite andb_false_r. }
  unfold registered in *. exact Hreg1.
Qed.

Lemma boot_start_stop_witness :
  exists w3,
    map status (transactions w3) = ["active"; "completed"]
    /\ map meterStop (transactions w3) = [None; Some 2000]
    /\ filter (active_on "CP001" 2) (transactions w3) = [].
Proof.
  assert (Hk : keyed w_charging).
  { repeat split; simpl; repeat constructor; simpl; intuition discriminate. }
  destruct (boot_start_stop sample_Date_of_string "CP001" payload_boot
              payload_start
              (JObj [("transactionId", JNum 2); ("meterStop", JNum 2000);
                     ("timestamp", JStr "2025-09-22T10:30:00.000Z")])
              _ _ _ w_charging eq_refl eq_refl eq_refl Hk)
    as (r1 & w1 & w2 & w3 & row & _ & _ & _ & Hrows & _ & _ & _ & _ & Hst & _
        & Hstop & _ & _ & Hfree & _);
    [reflexivity | reflexivity | reflexivity |].
  exists w3. split; [|split; [|exact Hfree]].
  - rewrite Hrows, map_app. simpl. now rewrite Hst.
  - rewrite Hrows, map_app. simpl. now rewrite Hstop.
Defined.

(** ** Meter values from the queue to the table *)

Lemma forallb_map_const {A B} (f : B -> bool) (g : A -> B) (k : bool) l :
  (forall x, f (g x) = k) ->
  forallb f (map g l) = match l with [] => true | _ :: _ => k end.
Proof.
  intro H. induction l as [|x l IH]; simpl; [reflexivity|].
  rewrite H, IH. destruct l, k; reflexivity.
Qed.

Lemma nonempty_or_true {A} (l : list A) :
  match l with [] => true | _ :: _ => true end = true.
Proof. now destruct l. Qed.

(** The row of a reading of [job]. *)
Lemma numbered_readings (Date_of_string : string -> Z) c conn tx readings id :
  Forall2
    (fun reading row =>
       mrow_cpId row = c /\ mrow_connectorId row = conn
       /\ mrow_transactionId row = tx
       /\ mrow_timestamp row = Date_of_string (fr_timestamp reading)
       /\ mrow_value row = fr_value reading
       /\ mrow_measurand row = fr_measurand reading
       /\ mrow_phase row = fr_phase reading
       /\ mrow_unit row = fr_unit reading
       /\ mrow_context row = None /\ mrow_format row = None
       /\ mrow_location row = None)
    readings
    (numbered id
       (map (fun x =>
               {| mvd_cpId := c; mvd_connectorId := conn;
                  mvd_transactionId := tx;
                  mvd_timestamp := Date_of_string (fr_timestamp x);
                  mvd_value := fr_value x;
                  mvd_context := None; mvd_format := None;
                  mvd_measurand := fr_measurand x; mvd_phase := fr_phase x;
                  mvd_location := None; mvd_unit := fr_unit x |})
            readings)).
Proof.
  revert id. induction readings as [|r l IH]; intro id; simpl; constructor.
  - simpl. repeat split.
  - apply IH.
Qed.

(** X21. What the processor makes of a meter-values job. When the charge
    point has a row and the transaction the job names, if it names one,
    has a row too, the readings go to [meter_values] in one insert: one
    row per reading in the order of the job, each with the charge point,
    connector and transaction of the job, the value, measurand, phase and
    unit of the reading, no context, format or location, and as
    timestamp the instant the reading's timestamp names, that is the
    charge point's time and not the time of processing. Nothing else is
    written; neither the status nor the owner of the transaction is
    looked at. When the job has readings and the charge point has no
    row, or the transaction named has none, the insert is refused by a
    foreign key and no reading is stored. *)
Theorem processMeterValues_stores (Date_of_string : string -> Z)
    (job : BullJob MeterValuesJob) (b : Backend) :
  let d := bj_data job in
  (registered (job_cpId d) (core b) = true ->
   (forall id, job_transactionId d = Some id ->
               exists t, In t (transactions (core b)) /\ transactionId t = id) ->
   exists rows b',
     processMeterValues Date_of_string job b = (Return tt, b')
     /\ meterValues b' = meterValues b ++ rows
     /\ Forall2
          (fun reading row =>
             mrow_cpId row = job_cpId d
             /\ mrow_connectorId row = job_connectorId d
             /\ mrow_transactionId row = job_transactionId d
             /\ mrow_timestamp row = Date_of_string (fr_timestamp reading)
             /\ mrow_value row = fr_value reading
             /\ mrow_measurand row = fr_measurand reading
             /\ mrow_phase row = fr_phase reading
             /\ mrow_unit row = fr_unit reading
             /\ mrow_context row = None /\ mrow_format row = None
             /\ mrow_location row = None)
          (job_meterValues d) rows
     /\ core b' = core b)
  /\ (job_meterValues d <> [] ->
      registered (job_cpId d) (core b) = false
      \/ (exists id,
             job_transactionId d = Some id
             /\ forall t, In t (transactions (core b)) -> transactionId t <> id) ->
      exists name b',
        processMeterValues Date_of_string job b
        = (Throw (foreign_key_violated name), b')
        /\ meterValues b' = meterValues b
        /\ core b' = core b).
Proof.
  intro d. unfold processMeterValues, recordMeterValues, bindB,
    meterValue.createMany. fold d.
  cbn [mvs_cpId mvs_connectorId mvs_transactionId mvs_meterValues].
  rewrite !map_map.
  rewrite (forallb_map_const _ _ (registered (job_cpId d) (core b)))
    by reflexivity.
  rewrite (forallb_map_const _ _
             (match job_transactionId d with
              | Some id => existsb (has_id id) (transactions (core b))
              | None => true
              end)) by reflexivity.
  split.
  - intros Hreg Htx.
    assert (Hok : match job_transactionId d with
                  | Some id => existsb (has_id id) (transactions (core b))
                  | None => true
                  end = true).
    { destruct (job_transactionId d) as [id|]; [|reflexivity].
      destruct (Htx id eq_refl) as (t & Hin & Hid).
      apply existsb_exists. exists t. split; [exact Hin|].
      unfold has_id. now apply Z.eqb_eq. }
    rewrite Hreg, Hok, !nonempty_or_true. simpl negb. cbv iota.
    eexists. eexists.
    split; [reflexivity|].
    simpl. split; [reflexivity|]. split; [|reflexivity].
    apply numbered_readings.
  - intros Hsome Hbad.
    destruct (job_meterValues d) as [|r l] eqn:El; [now contradiction Hsome|].
    destruct (registered (job_cpId d) (core b)) eqn:Hreg; simpl.
    + destruct Hbad as [Hbad | (id & Hid & Hnone)]; [discriminate|].
      rewrite Hid.
      assert (Hno : existsb (has_id id) (transactions (core b)) = false).
      { apply not_true_is_false. intro Hex. apply existsb_exists in Hex.
        destruct Hex as (t & Hin & Ht). unfold has_id in Ht.
        apply Z.eqb_eq in Ht. now apply (Hnone t Hin). }
      rewrite Hno. simpl.
      eexists. eexists. split; [reflexivity|]. simpl.
      split; [apply app_nil_r | reflexivity].
    + eexists. eexists. split; [reflexivity|]. simpl.
      split; [apply app_nil_r | reflexivity].
Qed.

Lemma processMeterValues_stores_witness :
  exists rows b',
    processMeterValues sample_Date_of_string job_2_and_1 (backend_of w_charging)
    = (Return tt, b')
    /\ meterValues b' = rows
    /\ map mrow_timestamp rows = [1758536814000; 1758536814000; 1758536874000]
    /\ map mrow_value rows = ["1500"; "22.1"; "1600"]
    /\ map mrow_transactionId rows = [Some 1; Some 1; Some 1].
Proof.
  destruct (processMeterValues_stores sample_Date_of_string job_2_and_1
              (backend_of w_charging)) as (Hok & _).
  destruct Hok as (rows & b' & Hrun & Hrows & _ & _).
  - reflexivity.
  - intros id Hid. injection Hid as <-.
    exists (started_row start_RFID123456 1). split; [left|]; reflexivity.
  - exists (meterValues b'), b'. split; [exact Hrun|]. split; [reflexivity|].
    unfold processMeterValues, recordMeterValues, bindB, meterValue.createMany
      in Hrun.
    injection Hrun as <-. repeat split.
Defined.
